(** * GIOS air-quality API client: a store-passing model of [api.py]

    The module under study fetches station, sensor and measurement records
    over HTTP and normalises a raw measurement series: every entry's date
    string becomes a [datetime] and every value becomes a [float], with
    unparseable fields replaced by [None].

    Python objects live in a store: dicts and lists are mutable and are
    passed by reference, everything else is an immediate value.  A function
    of the module is a computation over the store and the standard output,
    which either returns a value or raises an exception.  The standard
    output is a UTF-8 text stream: writing a string that has no UTF-8
    encoding raises [UnicodeEncodeError]. *)

From Stdlib Require Import ZArith String Ascii List Lia Bool.
From Stdlib Require Import Floats.SpecFloat.
From stdpp Require Import base tactics option list strings pretty.

Open Scope Z_scope.

(** ** Characters *)

Module Chars.

Definition code (c : ascii) : Z := Z.of_N (N_of_ascii c).

Definition is_digit (c : ascii) : bool := (48 <=? code c) && (code c <=? 57).

Definition digit_value (c : ascii) : Z := code c - 48.

Definition in_range (lo hi : Z) (c : ascii) : bool :=
  is_digit c && (lo <=? digit_value c) && (digit_value c <=? hi).

(** [Py_ISSPACE]: space, and the controls from tab to carriage return. *)
Definition is_space (c : ascii) : bool :=
  (code c =? 32) || ((9 <=? code c) && (code c <=? 13)).

(** [str.isspace] on the ASCII range, which is what [\s] matches there: the
    above and the four separators 0x1c to 0x1f. *)
Definition is_unicode_space (c : ascii) : bool :=
  is_space c || ((28 <=? code c) && (code c <=? 31)).

Definition lower (c : ascii) : ascii :=
  if (65 <=? code c) && (code c <=? 90)
  then ascii_of_N (Z.to_N (code c + 32)) else c.

Fixpoint lstrip (s : string) : string :=
  match s with
  | String c r => if is_space c then lstrip r else s
  | EmptyString => s
  end.

Fixpoint rstrip (s : string) : string :=
  match s with
  | String c r =>
      match rstrip r with
      | EmptyString => if is_space c then EmptyString else String c EmptyString
      | r' => String c r'
      end
  | EmptyString => s
  end.

Definition strip (s : string) : string := rstrip (lstrip s).

Fixpoint lowercase (s : string) : string :=
  match s with
  | String c r => String (lower c) (lowercase r)
  | EmptyString => s
  end.

End Chars.

(** ** Floats

    A Python [float] is an IEEE 754 binary64 number; [spec_float] with
    precision 53 and maximal exponent 1024 is the standard library's
    specification of these. *)

Module PyFloat.
Import Chars.

Definition float := spec_float.

Definition prec : Z := 53.
Definition emax : Z := 1024.

Definition one : float := binary_normalize prec emax 1 0 false.
Definition zero : float := S754_zero false.

Definition is_zero (f : float) : bool :=
  match f with S754_zero _ => true | _ => false end.

Definition cond_neg (neg : bool) (z : Z) : Z := if neg then - z else z.

(** [float(n)] for an [int]: the nearest binary64 number (ties to even);
    [None] stands for [OverflowError], raised when no finite one exists. *)
Definition of_int (n : Z) : option float :=
  match binary_normalize prec emax n 0 false with
  | S754_infinity _ => None
  | f => Some f
  end.

Definition of_bool (b : bool) : float := if b then one else zero.

(** The binary64 number nearest to [m * 10^e], for [m >= 0]. *)
Definition of_decimal (neg : bool) (m e : Z) : float :=
  if m =? 0 then S754_zero neg
  else if 0 <=? e then
    binary_normalize prec emax (cond_neg neg (m * 10 ^ e)) 0 neg
  else
    let '(q, e', l) := SFdiv_core_binary prec emax m 0 (10 ^ (- e)) 0 in
    binary_round_aux prec emax neg q e' l.

(** *** The grammar of [float(str)]

    [float] strips white space, checks and drops the underscores that sit
    between two digits, and accepts an optional sign followed by [inf],
    [infinity], [nan] (in any case) or a decimal number with an optional
    exponent.  The whole string has to be consumed.  The grammar is that
    of ASCII text; the value is rounded to the nearest float, ties to
    even. *)

(** Underscores are allowed only between two digits. *)
Fixpoint drop_underscores (prev : option ascii) (s : string) : option string :=
  match s with
  | EmptyString =>
      if bool_decide (prev = Some "_"%char) then None else Some EmptyString
  | String c r =>
      if bool_decide (c = "_"%char) then
        match prev with
        | Some p => if is_digit p then drop_underscores (Some c) r else None
        | None => None
        end
      else if bool_decide (prev = Some "_"%char) && negb (is_digit c) then None
      else String c <$> drop_underscores (Some c) r
  end.

(** A maximal run of digits: its value, its length and what follows. *)
Fixpoint digits (acc : Z) (n : Z) (s : string) : Z * Z * string :=
  match s with
  | String c r => if is_digit c then digits (10 * acc + digit_value c) (n + 1) r
                  else (acc, n, s)
  | EmptyString => (acc, n, s)
  end.

Definition sign (s : string) : bool * string :=
  match s with
  | String "-" r => (true, r)
  | String "+" r => (false, r)
  | _ => (false, s)
  end.

(** The exponent part; a malformed one is left unread, as [strtod] does. *)
Definition exponent (s : string) : Z * string :=
  match s with
  | String c r =>
      if bool_decide (lower c = "e"%char) then
        let '(neg, r1) := sign r in
        let '(e, n, r2) := digits 0 0 r1 in
        if n =? 0 then (0, s) else (cond_neg neg e, r2)
      else (0, s)
  | EmptyString => (0, s)
  end.

Definition number (neg : bool) (s : string) : option float :=
  let '(ip, n1, r1) := digits 0 0 s in
  let '(m, n2, r2) :=
    match r1 with
    | String "." r => let '(m, n2, r2) := digits ip 0 r in (m, n2, r2)
    | _ => (ip, 0, r1)
    end in
  if n1 + n2 =? 0 then None
  else
    let '(e, r3) := exponent r2 in
    match r3 with
    | EmptyString => Some (of_decimal neg m (e - n2))
    | _ => None
    end.

Definition of_string (s : string) : option float :=
  s1 ← drop_underscores None (strip s);
  let '(neg, body) := sign s1 in
  let low := lowercase body in
  if bool_decide (low = "inf") || bool_decide (low = "infinity")
  then Some (S754_infinity neg)
  else if bool_decide (low = "nan") then Some S754_nan
  else number neg body.

End PyFloat.

(** ** Dates

    [datetime.strptime] turns the format into a regular expression, takes
    the first match of the data string in the order of the alternatives,
    requires it to cover the whole string and builds the [datetime] from the
    matched fields; whichever step fails raises [ValueError].  The numeric
    directives [%Y %m %d %H %M %S] are modelled, over ASCII text. *)

Module Datetime.
Import Chars.

Record datetime := mk_datetime {
  year : Z; month : Z; day : Z;
  hour : Z; minute : Z; second : Z; microsecond : Z
}.

Definition is_leap (y : Z) : bool :=
  (y mod 4 =? 0) && (negb (y mod 100 =? 0) || (y mod 400 =? 0)).

Definition days_in_month (y m : Z) : Z :=
  if m =? 2 then (if is_leap y then 29 else 28)
  else if (m =? 4) || (m =? 6) || (m =? 9) || (m =? 11) then 30
  else 31.

(** The checks of the [datetime] constructor. *)
Definition make (y m d H M S : Z) : option datetime :=
  if (1 <=? y) && (y <=? 9999) && (1 <=? m) && (m <=? 12)
     && (1 <=? d) && (d <=? days_in_month y m)
     && (0 <=? H) && (H <=? 23) && (0 <=? M) && (M <=? 59)
     && (0 <=? S) && (S <=? 59)
  then Some (mk_datetime y m d H M S 0)
  else None.

Inductive directive := dY | dm | dd | dH | dM | dS.

#[global] Instance directive_eq_dec : EqDecision directive.
Proof. solve_decision. Defined.

Inductive piece :=
| Lit (c : ascii)          (* a literal character, matched ignoring case *)
| Spaces                   (* white space in the format: [\s+] *)
| Field (d : directive).

Definition is_char (c : ascii) : ascii -> bool := fun x => bool_decide (x = c).

(** The alternatives of each directive, in the order the regular expression
    tries them; an alternative is a sequence of character classes. *)
Definition alternatives (d : directive) : list (list (ascii -> bool)) :=
  match d with
  | dY => [[is_digit; is_digit; is_digit; is_digit]]
  | dm => [[in_range 1 1; in_range 0 2]; [in_range 0 0; in_range 1 9]; [in_range 1 9]]
  | dd => [[in_range 3 3; in_range 0 1]; [in_range 1 2; is_digit];
           [in_range 0 0; in_range 1 9]; [in_range 1 9];
           [is_char " "; in_range 1 9]]
  | dH => [[in_range 2 2; in_range 0 3]; [in_range 0 1; is_digit]; [is_digit]]
  | dM => [[in_range 0 5; is_digit]; [is_digit]]
  | dS => [[in_range 6 6; in_range 0 1]; [in_range 0 5; is_digit]; [is_digit]]
  end.

(** Matches a sequence of classes at the head of [s]: the value read (as
    [int] does, skipping blanks) and the rest. *)
Fixpoint classes (cs : list (ascii -> bool)) (acc : Z) (s : string)
  : option (Z * string) :=
  match cs, s with
  | [], _ => Some (acc, s)
  | p :: cs', String c r =>
      if p c then classes cs' (if is_digit c then 10 * acc + digit_value c else acc) r
      else None
  | _ :: _, EmptyString => None
  end.

(** [\s+], greedy: the longest run first, then the shorter ones. *)
Fixpoint spaces (s : string) : list string :=
  match s with
  | String c r => if is_unicode_space c then spaces r ++ [r] else []
  | EmptyString => []
  end.

(** All the ways the pieces match a prefix of [s], in the order of the
    regular expression engine, with the fields read on the way. *)
Fixpoint matches (ps : list piece) (s : string)
  : list (list (directive * Z) * string) :=
  match ps with
  | [] => [([], s)]
  | Lit c :: ps' =>
      match s with
      | String x r => if bool_decide (lower x = lower c) then matches ps' r else []
      | EmptyString => []
      end
  | Spaces :: ps' => r ← spaces s; matches ps' r
  | Field d :: ps' =>
      alt ← alternatives d;
      match classes alt 0 s with
      | Some (v, r) => '(fs, r') ← matches ps' r; [((d, v) :: fs, r')]
      | None => []
      end
  end.

Definition directive_of (c : ascii) : option directive :=
  if bool_decide (c = "Y"%char) then Some dY
  else if bool_decide (c = "m"%char) then Some dm
  else if bool_decide (c = "d"%char) then Some dd
  else if bool_decide (c = "H"%char) then Some dH
  else if bool_decide (c = "M"%char) then Some dM
  else if bool_decide (c = "S"%char) then Some dS
  else None.

(** The format as a list of pieces; [None] for a stray [%] and for a
    directive that is not one of the six above. *)
Fixpoint compile (after_space : bool) (fmt : string) : option (list piece) :=
  match fmt with
  | EmptyString => Some []
  | String "%" EmptyString => None
  | String "%" (String c r) =>
      if bool_decide (c = "%"%char) then (Lit c ::.) <$> compile false r
      else d ← directive_of c; (Field d ::.) <$> compile false r
  | String c r =>
      if is_unicode_space c then
        if after_space then compile true r else (Spaces ::.) <$> compile true r
      else (Lit c ::.) <$> compile false r
  end.

Definition field (d : directive) (default : Z) (fs : list (directive * Z)) : Z :=
  match list_find (fun f => bool_decide (f.1 = d)) fs with
  | Some (_, (_, v)) => v
  | None => default
  end.

Definition strptime (data_string fmt : string) : option datetime :=
  ps ← compile false fmt;
  match matches ps data_string with
  | (fs, EmptyString) :: _ =>
      make (field dY 1900 fs) (field dm 1 fs) (field dd 1 fs)
           (field dH 0 fs) (field dM 0 fs) (field dS 0 fs)
  | _ => None
  end.

End Datetime.

(** ** Strings and their encoding

    A [str] is kept as the bytes of its UTF-8 encoding.  A [str] with a lone
    surrogate, such as the one that the JSON text ["\ud800"] decodes to, has
    no UTF-8 encoding; it is kept as the bytes that the same scheme gives
    for the surrogate ([ED A0 80] for U+D800), which no well-formed UTF-8
    text contains.  [valid s] tells the strings that can be encoded, that
    is, written to a UTF-8 stream: those made of well-formed byte sequences
    (Unicode, table 3-7). *)

Module Utf8.
Import Chars.

Definition between (lo hi : Z) (c : ascii) : bool :=
  (lo <=? code c) && (code c <=? hi).

Definition continuation (c : ascii) : bool := between 128 191 c.

Fixpoint valid (s : string) : bool :=
  match s with
  | EmptyString => true
  | String a r =>
      if code a <? 128 then valid r
      else if between 194 223 a then
        match r with
        | String b r1 => continuation b && valid r1
        | _ => false
        end
      else if between 224 239 a then
        match r with
        | String b (String c r2) =>
            (if code a =? 224 then between 160 191 b
             else if code a =? 237 then between 128 159 b
             else continuation b)
            && continuation c && valid r2
        | _ => false
        end
      else if between 240 244 a then
        match r with
        | String b (String c (String d r3)) =>
            (if code a =? 240 then between 144 191 b
             else if code a =? 244 then between 128 143 b
             else continuation b)
            && continuation c && continuation d && valid r3
        | _ => false
        end
      else false
  end.

End Utf8.

(** ** Values, objects and the store *)

Module Py.
Abbreviation float := PyFloat.float.
Abbreviation datetime := Datetime.datetime.

Definition loc := nat.

(** Immediate values and references.  [VRef l] is the object at address [l]
    of the store: two values with the same address are the same object.  A
    [str] is kept as the bytes of its encoding (see [Utf8]). *)
Inductive val :=
| VNone
| VBool (b : bool)
| VInt (n : Z)
| VFloat (f : float)
| VStr (s : string)
| VDatetime (d : datetime)
| VRef (l : loc).

(** The mutable objects: a [dict] with string keys, in insertion order, and
    a [list]. *)
Inductive obj :=
| ODict (items : list (string * val))
| OList (elems : list val).

#[global] Instance float_eq_dec : EqDecision float.
Proof. unfold float. solve_decision. Defined.
#[global] Instance datetime_eq_dec : EqDecision datetime.
Proof. solve_decision. Defined.
#[global] Instance val_eq_dec : EqDecision val.
Proof. solve_decision. Defined.
#[global] Instance obj_eq_dec : EqDecision obj.
Proof. solve_decision. Defined.

(** The failures of the HTTP library, all of them subclasses of
    [requests.exceptions.RequestException]. *)
Inductive request_error :=
| ConnectionError
| Timeout
| HTTPError (status : Z)
| JSONDecodeError
| OtherRequestError (what : string).

Inductive exn :=
| TypeError
| ValueError
| UnicodeEncodeError   (* a subclass of [ValueError] *)
| AttributeError
| OverflowError
| RecursionError
| RequestException (e : request_error)
| SystemError.   (* not raised by Python code: a reference to no object *)

(** A printed line is kept as the parts of its f-string: the literal text
    and the interpolated objects. *)
Inductive part :=
| Text (s : string)
| Value (v : val)
| Error (e : exn).

Definition line := list part.

Record state := mk_state { heap : list obj; stdout : list line }.

Inductive outcome (A : Type) :=
| Returns (a : A)
| Raises (e : exn).
Arguments Returns {A} a.
Arguments Raises {A} e.

(** Computations: the store and the output are threaded, an exception
    aborts what follows and keeps the effects made so far. *)
Definition M (A : Type) : Type := state -> outcome A * state.

#[global] Instance M_ret : MRet M := fun A a s => (Returns a, s).
#[global] Instance M_bind : MBind M := fun A B k m s =>
  match m s with
  | (Returns a, s') => k a s'
  | (Raises e, s') => (Raises e, s')
  end.
#[global] Instance M_fmap : FMap M := fun A B f m => a ← m; mret (f a).

Definition raise {A} (e : exn) : M A := fun s => (Raises e, s).

(** The call of a function without effects. *)
Definition call {A} (r : exn + A) : M A :=
  match r with
  | inl e => raise e
  | inr a => mret a
  end.

(** [try: body except <catches> as e: handler e] *)
Definition try_except {A} (body : M A) (catches : exn -> bool)
    (handler : exn -> M A) : M A := fun s =>
  match body s with
  | (Raises e, s') => if catches e then handler e s' else (Raises e, s')
  | r => r
  end.

(** A new object takes the next free address. *)
Definition alloc (o : obj) : M val := fun s =>
  (Returns (VRef (length (heap s))), mk_state (heap s ++ [o]) (stdout s)).

Definition deref (l : loc) : M obj := fun s =>
  match heap s !! l with
  | Some o => (Returns o, s)
  | None => (Raises SystemError, s)
  end.

Definition store (l : loc) (o : obj) : M unit := fun s =>
  (Returns tt, mk_state (<[l := o]> (heap s)) (stdout s)).

(** [for x in xs: body x], over the elements already taken from the
    iterable. *)
Fixpoint for_each (xs : list val) (body : val -> M unit) : M unit :=
  match xs with
  | [] => mret tt
  | x :: r => body x;; for_each r body
  end.

(** *** Dictionaries *)

Fixpoint dict_lookup (k : string) (d : list (string * val)) : option val :=
  match d with
  | [] => None
  | (k', v) :: r => if bool_decide (k' = k) then Some v else dict_lookup k r
  end.

Fixpoint dict_set (k : string) (v : val) (d : list (string * val))
  : list (string * val) :=
  match d with
  | [] => [(k, v)]
  | (k', v') :: r =>
      if bool_decide (k' = k) then (k, v) :: r else (k', v') :: dict_set k v r
  end.

(** *** Built-in operations, by the type of their argument *)

(** [bool(v)] *)
Definition truth (v : val) : M bool :=
  match v with
  | VNone => mret false
  | VBool b => mret b
  | VInt n => mret (negb (n =? 0))
  | VFloat f => mret (negb (PyFloat.is_zero f))
  | VStr s => mret (negb (bool_decide (s = "")))
  | VDatetime _ => mret true
  | VRef l =>
      o ← deref l;
      match o with
      | ODict d => mret (negb (bool_decide (d = [])))
      | OList xs => mret (negb (bool_decide (xs = [])))
      end
  end.

Fixpoint substring (needle s : string) : bool :=
  String.prefix needle s ||
  match s with
  | String _ r => substring needle r
  | EmptyString => false
  end.

(** [k in v] for a string [k]: a key of a dict, an element of a list, a
    substring of a string; the other types are not containers. *)
Definition contains (k : string) (v : val) : M bool :=
  match v with
  | VStr s => mret (substring k s)
  | VRef l =>
      o ← deref l;
      match o with
      | ODict d => mret (bool_decide (is_Some (dict_lookup k d)))
      | OList xs => mret (bool_decide (VStr k ∈ xs))
      end
  | _ => raise TypeError
  end.

(** The attribute [v.get]: only a dict has it. *)
Definition attr_get (v : val) : M loc :=
  match v with
  | VRef l =>
      o ← deref l;
      match o with
      | ODict _ => mret l
      | OList _ => raise AttributeError
      end
  | _ => raise AttributeError
  end.

(** [dict.get(k, default)] on the dict at [l]. *)
Definition dict_get (l : loc) (k : string) (default : val) : M val :=
  o ← deref l;
  match o with
  | ODict d => mret (from_option id default (dict_lookup k d))
  | OList _ => raise SystemError
  end.

Definition get (v : val) (k : string) : M val :=
  l ← attr_get v; dict_get l k VNone.

Definition chars (s : string) : list val :=
  (fun c => VStr (String c "")) <$> list_ascii_of_string s.

(** The elements a [for] loop visits: those of a list, the keys of a dict,
    the characters of a string (here its bytes).  A list iterator reads its
    list at every step; the elements are taken here when the loop starts,
    which is the same as long as the body leaves that list alone, and the
    loop of this module only writes to objects it has created. *)
Definition iterate (v : val) : M (list val) :=
  match v with
  | VStr s => mret (chars s)
  | VRef l =>
      o ← deref l;
      match o with
      | ODict d => mret (VStr <$> d.*1)
      | OList xs => mret xs
      end
  | _ => raise TypeError
  end.

(** [lst.append(x)] *)
Definition append (lst x : val) : M unit :=
  match lst with
  | VRef l =>
      o ← deref l;
      match o with
      | OList xs => store l (OList (xs ++ [x]))
      | ODict _ => raise AttributeError
      end
  | _ => raise AttributeError
  end.

(** [d[k] = x] *)
Definition setitem (d : val) (k : string) (x : val) : M unit :=
  match d with
  | VRef l =>
      o ← deref l;
      match o with
      | ODict items => store l (ODict (dict_set k x items))
      | OList _ => raise TypeError
      end
  | _ => raise TypeError
  end.

(** *** Decoded JSON *)

Unset Elimination Schemes.
Inductive json :=
| JNull
| JBool (b : bool)
| JInt (n : Z)
| JFloat (f : float)
| JStr (s : string)
| JArr (elems : list json)
| JObj (members : list (string * json)).
Set Elimination Schemes.

(** The objects of the elements of an array, from left to right, and the
    dict of the members of an object: a repeated name keeps its place and
    takes the last value. *)
Fixpoint load_elements (load : json -> M val) (js : list json) : M (list val) :=
  match js with
  | [] => mret []
  | j :: r => v ← load j; vs ← load_elements load r; mret (v :: vs)
  end.

Fixpoint load_members (load : json -> M val) (ms : list (string * json))
    (d : list (string * val)) : M (list (string * val)) :=
  match ms with
  | [] => mret d
  | (k, j) :: r => v ← load j; load_members load r (dict_set k v d)
  end.

(** The Python object of a JSON document, as [json.loads] builds it:
    arrays and objects are created in the store, their parts first. *)
Fixpoint load (j : json) : M val :=
  match j with
  | JNull => mret VNone
  | JBool b => mret (VBool b)
  | JInt n => mret (VInt n)
  | JFloat f => mret (VFloat f)
  | JStr s => mret (VStr s)
  | JArr js => vs ← load_elements load js; alloc (OList vs)
  | JObj ms => d ← load_members load ms []; alloc (ODict d)
  end.




(** ** The environment: the library functions, the interpreter and the
    network

    [strptime] and [float_of_string] return [None] where the library raises
    [ValueError]; [requests_get] is what one GET request to a URL with a
    time-out yields: a failure of the transport or a response.

    The interpreter has limits that a document or an object can exceed:
    [json_failure j] is the exception other than [JSONDecodeError] that
    [json.loads] raises on the text of the document [j], if any
    ([ValueError] for an integer with more digits than the interpreter
    converts, [RecursionError] for a nesting beyond its recursion limit),
    and [repr_failure h l] is the exception that [repr] raises on the
    container at [l] of the store [h], if any, for the same two reasons.
    The theorems below hold for every environment. *)

Record response := mk_response {
  status_code : Z;
  body : option json      (* [None]: the body is not a JSON document *)
}.

Class Runtime := {
  strptime : string -> string -> option datetime;
  float_of_string : string -> option float;
  requests_get : string -> Z -> request_error + response;
  json_failure : json -> option exn;
  repr_failure : list obj -> loc -> option exn
}.

(** The limits of CPython 3.11 and later, at their default values: an
    [int] of more than 4300 digits is not converted from or to a string,
    and the recursion limit is 1000 (of which a call finds less left). *)
Definition max_str_digits : Z := 4300.
Definition recursion_limit : nat := 1000.

Definition too_long (n : Z) : bool := 10 ^ max_str_digits <=? Z.abs n.

Definition first_failure {A} (f : A -> option exn) (xs : list A) : option exn :=
  foldr (fun x r => match f x with Some e => Some e | None => r end) None xs.

Fixpoint decode_failure (depth : nat) (j : json) {struct depth} : option exn :=
  match j with
  | JInt n => if too_long n then Some ValueError else None
  | JArr js =>
      match depth with
      | O => Some RecursionError
      | S d => first_failure (decode_failure d) js
      end
  | JObj ms =>
      match depth with
      | O => Some RecursionError
      | S d => first_failure (decode_failure d) ms.*2
      end
  | _ => None
  end.

(** [repr] of a container: its elements are formatted by [repr] in turn, a
    string with escapes for what cannot be printed, and a container that
    is being formatted already as [[...]] or [{...}]. *)
Fixpoint format_failure (depth : nat) (h : list obj) (seen : list loc)
    (v : val) {struct depth} : option exn :=
  match v with
  | VInt n => if too_long n then Some ValueError else None
  | VRef l =>
      if bool_decide (l ∈ seen) then None
      else match depth with
           | O => Some RecursionError
           | S d =>
               match h !! l with
               | Some (OList xs) => first_failure (format_failure d h (l :: seen)) xs
               | Some (ODict items) =>
                   first_failure (format_failure d h (l :: seen)) items.*2
               | None => Some SystemError
               end
           end
  | _ => None
  end.

(** CPython's parsers and limits over a given network. *)
Definition cpython (net : string -> Z -> request_error + response) : Runtime :=
  {| strptime := Datetime.strptime;
     float_of_string := PyFloat.of_string;
     requests_get := net;
     json_failure := decode_failure recursion_limit;
     repr_failure := fun h l => format_failure recursion_limit h [] (VRef l) |}.

Section Api.
Context {rt : Runtime}.

(** [datetime.strptime(v, fmt)]: a pure function of its arguments. *)
Definition datetime_strptime (v : val) (fmt : string) : exn + val :=
  match v with
  | VStr s =>
      match strptime s fmt with
      | Some d => inr (VDatetime d)
      | None => inl ValueError
      end
  | _ => inl TypeError
  end.

(** [float(v)]: a pure function of its argument. *)
Definition float_of (v : val) : exn + val :=
  match v with
  | VStr s =>
      match float_of_string s with
      | Some f => inr (VFloat f)
      | None => inl ValueError
      end
  | VInt n =>
      match PyFloat.of_int n with
      | Some f => inr (VFloat f)
      | None => inl OverflowError
      end
  | VFloat f => inr (VFloat f)
  | VBool b => inr (VFloat (PyFloat.of_bool b))
  | VNone | VDatetime _ | VRef _ => inl TypeError
  end.




(** [print(f"...")]: the interpolated objects are formatted, a [str] as it
    is and a container by [repr], and the text is encoded and written.
    Formatting a container can raise; encoding raises [UnicodeEncodeError]
    for a string that has no encoding, before anything is written.  A
    number is written in decimal: the only [int]s that the module
    interpolates are the identifiers of stations and sensors, which are
    far below the limit on the digits of an [int]. *)
Definition part_failure (h : list obj) (p : part) : option exn :=
  match p with
  | Value (VStr s) => if Utf8.valid s then None else Some UnicodeEncodeError
  | Value (VRef l) => repr_failure h l
  | _ => None
  end.

Definition write_failure (h : list obj) (l : line) : option exn :=
  first_failure (part_failure h) l.

Definition print (l : line) : M unit := fun s =>
  match write_failure (heap s) l with
  | Some e => (Raises e, s)
  | None => (Returns tt, mk_state (heap s) (stdout s ++ [l]))
  end.


Definition is_ValueError (e : exn) : bool :=
  match e with ValueError | UnicodeEncodeError => true | _ => false end.

Definition is_ValueError_or_TypeError (e : exn) : bool :=
  match e with ValueError | UnicodeEncodeError | TypeError => true | _ => false end.

(** ** The module *)





Definition invalid_data : line :=
  [Text "Błąd: Nieprawidłowe dane pomiarowe do przetworzenia."].
Definition bad_date (date_str : val) : line :=
  [Text "Ostrzeżenie: Nieprawidłowy format daty: "; Value date_str].
Definition bad_value (value_str : val) : line :=
  [Text "Ostrzeżenie: Nieprawidłowa wartość liczbowa: "; Value value_str].

(** The two conversions of the loop of [process_measurement_data]:
    "Convert date string to datetime object" and "Convert value string to
    float, handling 'null'". *)
Definition convert_date (date_str : val) : M val :=
  nonempty ← truth date_str;
  if nonempty : bool then
    try_except
      (call (datetime_strptime date_str "%Y-%m-%d %H:%M:%S"))
      is_ValueError
      (fun _ => print (bad_date date_str);; mret VNone)
  else mret VNone.

Definition convert_value (value_str : val) : M val :=
  if bool_decide (value_str ≠ VNone) then
    try_except
      (call (float_of value_str))
      is_ValueError_or_TypeError
      (fun _ => print (bad_value value_str);; mret VNone)
  else mret VNone.

(** The body of the loop. *)
Definition loop_body (processed_values item : val) : M unit :=
  date_str ← get item "date";
  value_str ← get item "value";
  parsed_date ← convert_date date_str;
  parsed_value ← convert_value value_str;
  entry ← alloc (ODict [("date", parsed_date); ("value", parsed_value)]);
  append processed_values entry.

Definition process_measurement_data (raw_measurements_data : val) : M val :=
  present ← truth raw_measurements_data;
  has_values ←
    (if present : bool then contains "values" raw_measurements_data
     else mret false);
  if negb present || negb has_values then
    print invalid_data;;
    mret VNone
  else
    key ← get raw_measurements_data "key";
    processed_data ← alloc (ODict [("key", key)]);
    processed_values ← alloc (OList []);
    raw ← attr_get raw_measurements_data;
    default ← alloc (OList []);
    values ← dict_get raw "values" default;
    items ← iterate values;
    for_each items (loop_body processed_values);;
    setitem processed_data "values" processed_values;;
    mret processed_data.

(** ** Raw series and their normal form

    A raw measurement series in store [h]: a dict whose ['values'] is a
    list of records.  A record's date is a string or [None] (also when the
    field is missing); its value is anything but an [int] beyond the range
    of the floats. *)

Definition item_field (h : list obj) (item : val) (k : string) : val :=
  match item with
  | VRef l =>
      match h !! l with
      | Some (ODict e) => from_option id VNone (dict_lookup k e)
      | _ => VNone
      end
  | _ => VNone
  end.

Definition is_record (h : list obj) (item : val) : Prop :=
  exists l e, item = VRef l /\ h !! l = Some (ODict e).

Definition date_ok (d : val) : bool :=
  match d with VNone | VStr _ => true | _ => false end.

Definition value_ok (x : val) : bool :=
  match x with
  | VInt n => bool_decide (is_Some (PyFloat.of_int n))
  | _ => true
  end.

Definition entry_ok (h : list obj) (item : val) : Prop :=
  is_record h item /\
  date_ok (item_field h item "date") = true /\
  value_ok (item_field h item "value") = true.

Definition raw_series (h : list obj) (raw key : val) (items : list val) : Prop :=
  exists l d lv,
    raw = VRef l /\ h !! l = Some (ODict d) /\
    from_option id VNone (dict_lookup "key" d) = key /\
    dict_lookup "values" d = Some (VRef lv) /\
    h !! lv = Some (OList items) /\
    Forall (entry_ok h) items.

(** The fields of the normalised entry, and the warnings due on the way
    (the lines that the handlers print, when they can be written), as
    functions of the raw fields. *)
Definition parsed_date (d : val) : val :=
  match d with
  | VStr s =>
      if bool_decide (s = "") then VNone
      else match datetime_strptime d "%Y-%m-%d %H:%M:%S" with
           | inr t => t
           | inl _ => VNone
           end
  | _ => VNone
  end.

Definition date_warning (d : val) : list line :=
  match d with
  | VStr s =>
      if bool_decide (s = "") then []
      else match datetime_strptime d "%Y-%m-%d %H:%M:%S" with
           | inr _ => []
           | inl _ => [bad_date d]
           end
  | _ => []
  end.

Definition parsed_value (x : val) : val :=
  match float_of x with
  | inr f => f
  | inl _ => VNone
  end.

Definition value_warning (x : val) : list line :=
  if bool_decide (x = VNone) then []
  else match float_of x with
       | inr _ => []
       | inl _ => [bad_value x]
       end.

Definition normalized (h : list obj) (item : val) : obj :=
  ODict [("date", parsed_date (item_field h item "date"));
         ("value", parsed_value (item_field h item "value"))].

Definition warnings (h : list obj) (item : val) : list line :=
  date_warning (item_field h item "date") ++
  value_warning (item_field h item "value").

(** The state after printing the lines [ls]. *)
Definition emit (s : state) (ls : list line) : state :=
  mk_state (heap s) (stdout s ++ ls).

(** ** Invariants of the store, for every input

    For an input of any shape the run may stop anywhere with an exception;
    what holds wherever it stops is stated as an invariant that every step
    keeps. *)

Definition keeps (I : state -> Prop) {A} (m : M A) : Prop :=
  forall s, I s -> I (m s).2.

Definition reads_only {A} (m : M A) : Prop := forall s, (m s).2 = s.

(** A reference to an object created after the store [h0]. *)
Definition fresh (h0 : list obj) (x : val) : Prop :=
  exists l, x = VRef l /\ (length h0 <= l)%nat.

Definition warning (l : line) : Prop :=
  exists v, l = bad_date v \/ l = bad_value v.

(** What holds from the creation of the result dict and list on: the store
    [h0] of the caller is intact, the result dict sits right after it, then
    the result list, which holds new objects only; whatever was printed
    since is a warning. *)
Definition building (h0 : list obj) (out0 : list line) (key : val) (s : state)
  : Prop :=
  h0 `prefix_of` heap s /\
  heap s !! length h0 = Some (ODict [("key", key)]) /\
  (exists xs, heap s !! S (length h0) = Some (OList xs) /\ Forall (fresh h0) xs) /\
  (exists ws, stdout s = out0 ++ ws /\ Forall warning ws).

(** [ensures m s Q]: the run of [m] from [s] ends in an outcome and a state
    that satisfy [Q]. *)
Definition ensures {A} (m : M A) (s : state) (Q : outcome A -> state -> Prop)
  : Prop := Q (m s).1 (m s).2.

(** What holds when the run ends past the validation gate. *)
Definition built (h0 : list obj) (out0 : list line) (r : outcome val) (s : state)
  : Prop :=
  h0 `prefix_of` heap s /\
  (exists ws, stdout s = out0 ++ ws /\ Forall warning ws) /\
  forall x, r = Returns x ->
    x = VRef (length h0) /\
    exists key xs,
      heap s !! length h0
        = Some (ODict [("key", key); ("values", VRef (S (length h0)))]) /\
      heap s !! S (length h0) = Some (OList xs) /\
      Forall (fresh h0) xs.

(** The normalised entry as a pair (timestamp, value). *)
Definition normal_entry (h : list obj) (item : val) : val * val :=
  (parsed_date (item_field h item "date"),
   parsed_value (item_field h item "value")).

(** Reading a normalised series back from the store: the key and the
    (timestamp, value) pairs of a dict [{'key': _, 'values': [...]}] whose
    entries are dicts [{'date': _, 'value': _}]. *)
Definition read_entry (h : list obj) (v : val) : option (val * val) :=
  match v with
  | VRef l =>
      match h !! l with
      | Some (ODict e) =>
          if bool_decide (e.*1 = ["date"; "value"]) then
            d ← dict_lookup "date" e; x ← dict_lookup "value" e; Some (d, x)
          else None
      | _ => None
      end
  | _ => None
  end.

Definition read_series (h : list obj) (v : val) : option (val * list (val * val)) :=
  match v with
  | VRef l =>
      match h !! l with
      | Some (ODict d) =>
          if bool_decide (d.*1 = ["key"; "values"]) then
            key ← dict_lookup "key" d;
            values ← dict_lookup "values" d;
            match values with
            | VRef lv =>
                match h !! lv with
                | Some (OList es) => outs ← mapM (read_entry h) es; Some (key, outs)
                | _ => None
                end
            | _ => None
            end
          else None
      | _ => None
      end
  | _ => None
  end.


(** ** One entry of any shape

    What the body of the loop does with an item of any shape, as a function
    of the store it reads: the lines it prints, and the entry it appends or
    the exception it ends with. *)

(** [bool(v)], read in store [h]. *)
Definition truthy (h : list obj) (v : val) : exn + bool :=
  match v with
  | VNone => inr false
  | VBool b => inr b
  | VInt n => inr (negb (n =? 0))
  | VFloat f => inr (negb (PyFloat.is_zero f))
  | VStr s => inr (negb (bool_decide (s = "")))
  | VDatetime _ => inr true
  | VRef l =>
      match h !! l with
      | Some (ODict d) => inr (negb (bool_decide (d = [])))
      | Some (OList xs) => inr (negb (bool_decide (xs = [])))
      | None => inl SystemError
      end
  end.

(** [item.get('date')] and [item.get('value')]. *)
Definition entry_fields (h : list obj) (item : val) : exn + (val * val) :=
  match item with
  | VRef l =>
      match h !! l with
      | Some (ODict e) =>
          inr (from_option id VNone (dict_lookup "date" e),
               from_option id VNone (dict_lookup "value" e))
      | Some (OList _) => inl AttributeError
      | None => inl SystemError
      end
  | _ => inl AttributeError
  end.

(** The handler of a failed conversion: the warning is printed and the
    field is [None], unless printing raises. *)
Definition logged (h : list obj) (l : line) : list line * (exn + val) :=
  match write_failure h l with
  | Some e => ([], inl e)
  | None => ([l], inr VNone)
  end.

Definition date_step (h : list obj) (d : val) : list line * (exn + val) :=
  match truthy h d with
  | inl e => ([], inl e)
  | inr false => ([], inr VNone)
  | inr true =>
      match datetime_strptime d "%Y-%m-%d %H:%M:%S" with
      | inr t => ([], inr t)
      | inl e =>
          if is_ValueError e then logged h (bad_date d) else ([], inl e)
      end
  end.

Definition value_step (h : list obj) (x : val) : list line * (exn + val) :=
  if bool_decide (x ≠ VNone) then
    match float_of x with
    | inr f => ([], inr f)
    | inl e =>
        if is_ValueError_or_TypeError e then logged h (bad_value x)
        else ([], inl e)
    end
  else ([], inr VNone).

Definition step (h : list obj) (item : val) : list line * (exn + obj) :=
  match entry_fields h item with
  | inl e => ([], inl e)
  | inr (d, x) =>
      match date_step h d with
      | (l1, inl e) => (l1, inl e)
      | (l1, inr pd) =>
          match value_step h x with
          | (l2, inl e) => (l1 ++ l2, inl e)
          | (l2, inr px) => (l1 ++ l2, inr (ODict [("date", pd); ("value", px)]))
          end
      end
  end.

(** The loop over the items, up to the first exception: the lines printed,
    the entries appended and the exception, if any. *)
Fixpoint scan (h : list obj) (items : list val)
  : list line * list obj * option exn :=
  match items with
  | [] => ([], [], None)
  | item :: r =>
      match step h item with
      | (ls, inl e) => (ls, [], Some e)
      | (ls, inr o) =>
          let '(ls', os, oe) := scan h r in (ls ++ ls', o :: os, oe)
      end
  end.

(** An item whose turn of the loop does not depend on what is added to
    the store. *)
Definition settled (h : list obj) (item : val) : Prop :=
  forall ext, step (h ++ ext) item = step h item.

(** The lines that can be written whatever the store and the limits of the
    interpreter are: those that interpolate no container and no string
    without an encoding. *)
Definition printable_value (v : val) : bool :=
  match v with
  | VStr s => Utf8.valid s
  | VRef _ => false
  | _ => true
  end.

Definition printable_line (l : line) : bool :=
  forallb (fun p => match p with Value v => printable_value v | _ => true end) l.

(** The warnings due for an entry can be written. *)
Definition printable (h : list obj) (item : val) : Prop :=
  forallb printable_line (warnings h item) = true.

(** A value that is not a container. *)
Definition immediate (v : val) : bool :=
  match v with VRef _ => false | _ => true end.

(** The types of the fields of a normalised entry. *)
Definition datetime_or_none (v : val) : Prop :=
  v = VNone \/ exists t, v = VDatetime t.

Definition float_or_none (v : val) : Prop :=
  v = VNone \/ exists f, v = VFloat f.

Definition typed_entry (o : obj) : Prop :=
  exists d x, o = ODict [("date", d); ("value", x)] /\
              datetime_or_none d /\ float_or_none x.

(** The invariant [building], with the type of the entries built so far. *)
Definition building_typed (h0 : list obj) (key : val) (s : state) : Prop :=
  h0 `prefix_of` heap s /\
  heap s !! length h0 = Some (ODict [("key", key)]) /\
  exists xs,
    heap s !! S (length h0) = Some (OList xs) /\
    Forall (fun x => exists le o, x = VRef le /\ (length h0 <= le)%nat /\
                                  heap s !! le = Some o /\ typed_entry o) xs.

(** What holds of a result that is returned past the validation gate. *)
Definition built_typed (h0 : list obj) (r : outcome val) (s : state) : Prop :=
  forall x, r = Returns x ->
    x = VRef (length h0) /\
    exists key xs,
      heap s !! length h0
        = Some (ODict [("key", key); ("values", VRef (S (length h0)))]) /\
      heap s !! S (length h0) = Some (OList xs) /\
      Forall (fun x => exists le o, x = VRef le /\ heap s !! le = Some o /\
                                    typed_entry o) xs.

(** The invariant of the result list: no object is in it twice, and its
    elements are objects created after the list itself. *)
Definition building_distinct (h0 : list obj) (s : state) : Prop :=
  exists xs,
    heap s !! S (length h0) = Some (OList xs) /\
    NoDup xs /\
    Forall (fun x => exists le, x = VRef le /\
                                (S (length h0) < le < length (heap s))%nat) xs.

(** A date that the loop takes without raising: a string, [None], or one
    of the other values that count as false, [False], [0] and [0.0]. *)
Definition lenient_date (d : val) : Prop :=
  match d with
  | VNone | VStr _ => True
  | VBool b => b = false
  | VInt n => n = 0
  | VFloat f => PyFloat.is_zero f = true
  | VDatetime _ | VRef _ => False
  end.

(** A date that is not a string and counts as true: [True], a number other
    than zero, a [datetime]. *)
Definition true_non_string (d : val) : Prop :=
  match d with
  | VBool b => b = true
  | VInt n => n <> 0
  | VFloat f => PyFloat.is_zero f = false
  | VDatetime _ => True
  | VNone | VStr _ | VRef _ => False
  end.

End Api.

End Py.

(** ** Sample documents and networks *)

Module Examples.
Import Py.

Definition refused : string -> Z -> request_error + response :=
  fun _ _ => inl ConnectionError.



Definition pm10 : json :=
  JObj [("key", JStr "PM10");
        ("values", JArr [
           JObj [("date", JStr "2024-01-01 10:00:00"); ("value", JStr "12.5")];
           JObj [("date", JStr "2024-01-01 11:00:00"); ("value", JNull)]])].

Definition messy : json :=
  JObj [("key", JStr "PM10");
        ("values", JArr [
           JObj [("date", JStr "not-a-date"); ("value", JStr "abc")];
           JObj [("date", JStr ""); ("value", JStr "7")];
           JObj [("value", JNull)]])].

Definition empty_date : json :=
  JObj [("key", JStr "PM10");
        ("values", JArr [JObj [("date", JStr ""); ("value", JStr "12.5")]])].

Definition values_null : json :=
  JObj [("key", JStr "PM10"); ("values", JNull)].

Definition not_records : json :=
  JObj [("key", JStr "PM10"); ("values", JArr [JInt 5])].

Definition numeric_date : json :=
  JObj [("key", JStr "PM10");
        ("values", JArr [JObj [("date", JInt 20240101); ("value", JStr "1")]])].

Definition no_values : json := JObj [("key", JStr "PM10")].

Definition empty : state := mk_state [] [].

(** The float 12.5, that is 25 * 2^48 * 2^-49. *)
Definition float_12_5 : float := S754_finite false (25 * 2 ^ 48) (-49).

(** The store that holds a document and nothing else, and the document's
    object in it. *)
Definition store_of (j : json) : state := (load j empty).2.

Definition object_of (j : json) : val :=
  match (load j empty).1 with
  | Returns v => v
  | Raises _ => VNone
  end.


Definition with_values (values : json) : json :=
  JObj [("key", JStr "PM10"); ("values", values)].

Definition broken_in_the_middle : json :=
  with_values (JArr [
    JObj [("date", JStr "not-a-date"); ("value", JStr "1")];
    JInt 5;
    JObj [("date", JStr "also-not-a-date"); ("value", JStr "abc")]]).

Definition too_large : json :=
  with_values (JArr [
    JObj [("date", JStr "not-a-date"); ("value", JInt (10 ^ 400))]]).

Definition false_dates : json :=
  with_values (JArr [
    JObj [("date", JInt 0); ("value", JStr "1.5")];
    JObj [("date", JBool false); ("value", JStr "abc")]]).

Definition numbers : json :=
  with_values (JArr [
    JObj [("date", JNull); ("value", JFloat float_12_5)];
    JObj [("date", JNull); ("value", JBool true)];
    JObj [("date", JNull); ("value", JInt 3)]]).

(** The string that the JSON text ["\ud800"] decodes to: one lone
    surrogate, kept as the bytes [ED A0 80]. *)
Definition lone_surrogate : string :=
  String "237" (String "160" (String "128" EmptyString)).

Definition unencodable_date : json :=
  with_values (JArr [
    JObj [("date", JStr lone_surrogate); ("value", JStr "1.5")];
    JObj [("date", JStr "2024-01-01 10:00:00"); ("value", JStr "2")]]).

Definition unencodable_value : json :=
  with_values (JArr [
    JObj [("date", JStr "2024-01-01 10:00:00"); ("value", JStr lone_surrogate)];
    JObj [("date", JStr "2024-01-01 11:00:00"); ("value", JNull)]]).

Definition unencodable_then_empty : json :=
  with_values (JArr [
    JObj [("date", JStr lone_surrogate); ("value", JNull)];
    JObj [("date", JStr ""); ("value", JStr "1")]]).

Definition unencodable_last : json :=
  with_values (JArr [
    JObj [("date", JStr "2024-01-01 10:00:00"); ("value", JStr "12.5")];
    JObj [("date", JStr lone_surrogate); ("value", JNull)]]).



End Examples.

(** * Properties *)

Import Py.

(** An object of the store is still there after allocations. *)
Ltac old_lookup :=
  cbn [heap]; repeat apply lookup_app_l_Some; eassumption.

Section Facts.
Context {rt : Runtime}.

(** ** The steps of a run *)

Lemma bind_returns {A B} (m : M A) (k : A -> M B) s a s' :
  m s = (Returns a, s') -> (m ≫= k) s = k a s'.
Proof. intros Hm. unfold mbind, M_bind. by rewrite Hm. Qed.

Lemma bind_raises {A B} (m : M A) (k : A -> M B) s e s' :
  m s = (Raises e, s') -> (m ≫= k) s = (Raises e, s').
Proof. intros Hm. unfold mbind, M_bind. by rewrite Hm. Qed.

Lemma deref_ok l o s : heap s !! l = Some o -> deref l s = (Returns o, s).
Proof. intros Hl. unfold deref. by rewrite Hl. Qed.

Lemma alloc_ok o s :
  alloc o s = (Returns (VRef (length (heap s))), mk_state (heap s ++ [o]) (stdout s)).
Proof. reflexivity. Qed.

Lemma truth_dict l d s :
  heap s !! l = Some (ODict d) ->
  truth (VRef l) s = (Returns (negb (bool_decide (d = []))), s).
Proof. intros Hl. unfold truth. by rewrite (bind_returns _ _ _ _ _ (deref_ok _ _ _ Hl)). Qed.

Lemma contains_dict k l d s :
  heap s !! l = Some (ODict d) ->
  contains k (VRef l) s = (Returns (bool_decide (is_Some (dict_lookup k d))), s).
Proof. intros Hl. unfold contains. by rewrite (bind_returns _ _ _ _ _ (deref_ok _ _ _ Hl)). Qed.

Lemma attr_get_dict l d s :
  heap s !! l = Some (ODict d) -> attr_get (VRef l) s = (Returns l, s).
Proof. intros Hl. unfold attr_get. by rewrite (bind_returns _ _ _ _ _ (deref_ok _ _ _ Hl)). Qed.

Lemma dict_get_ok l d k default s :
  heap s !! l = Some (ODict d) ->
  dict_get l k default s = (Returns (from_option id default (dict_lookup k d)), s).
Proof. intros Hl. unfold dict_get. by rewrite (bind_returns _ _ _ _ _ (deref_ok _ _ _ Hl)). Qed.

Lemma get_dict l d k s :
  heap s !! l = Some (ODict d) ->
  get (VRef l) k s = (Returns (from_option id VNone (dict_lookup k d)), s).
Proof.
  intros Hl. unfold get.
  rewrite (bind_returns _ _ _ _ _ (attr_get_dict _ _ _ Hl)).
  by apply dict_get_ok.
Qed.

Lemma iterate_list l xs s :
  heap s !! l = Some (OList xs) -> iterate (VRef l) s = (Returns xs, s).
Proof. intros Hl. unfold iterate. by rewrite (bind_returns _ _ _ _ _ (deref_ok _ _ _ Hl)). Qed.

Lemma setitem_dict l d k x s :
  heap s !! l = Some (ODict d) ->
  setitem (VRef l) k x s
  = (Returns tt, mk_state (<[l := ODict (dict_set k x d)]> (heap s)) (stdout s)).
Proof. intros Hl. unfold setitem. by rewrite (bind_returns _ _ _ _ _ (deref_ok _ _ _ Hl)). Qed.

(** ** One run on a raw series *)

Lemma get_record h out l e k :
  h !! l = Some (ODict e) ->
  get (VRef l) k (mk_state h out)
  = (Returns (from_option id VNone (dict_lookup k e)), mk_state h out).
Proof.
  intros Hl. unfold get, attr_get, dict_get, deref, mbind, M_bind, mret, M_ret.
  simpl. rewrite Hl. simpl. rewrite Hl. reflexivity.
Qed.

Lemma emit_nil s : emit s [] = s.
Proof. destruct s. unfold emit. simpl. by rewrite app_nil_r. Qed.

(** A printable line is written, whatever the store. *)
Lemma write_printable h l : printable_line l = true -> write_failure h l = None.
Proof.
  unfold write_failure, printable_line. induction l as [|p l IH]; [done|].
  cbn [forallb first_failure foldr]. intros [Hp Hl]%andb_prop.
  fold (first_failure (part_failure h) l). rewrite (IH Hl).
  destruct p as [t|[| | | |str| |]|e]; try done.
  cbn [part_failure printable_value] in *. by rewrite Hp.
Qed.

Lemma print_ok l s :
  printable_line l = true -> print l s = (Returns tt, emit s [l]).
Proof. intros Hl. unfold print. by rewrite (write_printable _ _ Hl). Qed.

Lemma printable_cons_nil l : forallb printable_line [l] = true -> printable_line l = true.
Proof. cbn [forallb]. by rewrite andb_true_r. Qed.

Lemma convert_date_ok d s :
  date_ok d = true ->
  forallb printable_line (date_warning d) = true ->
  convert_date d s = (Returns (parsed_date d), emit s (date_warning d)).
Proof.
  intros Hd Hp. destruct d; try discriminate Hd.
  - by rewrite emit_nil.
  - unfold convert_date, parsed_date, date_warning in *.
    unfold mbind, M_bind, truth, mret, M_ret.
    case_bool_decide; simpl; [by rewrite emit_nil|].
    unfold try_except, call. cbn [datetime_strptime] in *.
    destruct (strptime s0 _); cbn [raise mret M_ret is_ValueError];
      [by rewrite emit_nil|].
    by rewrite (print_ok _ _ (printable_cons_nil _ Hp)).
Qed.

Lemma convert_value_ok x s :
  value_ok x = true ->
  forallb printable_line (value_warning x) = true ->
  convert_value x s = (Returns (parsed_value x), emit s (value_warning x)).
Proof.
  intros Hx Hp.
  unfold convert_value, parsed_value, value_warning, try_except, call in *.
  destruct (decide (x = VNone)) as [->|Hnone]; [by rewrite emit_nil|].
  rewrite (bool_decide_eq_true_2 (x ≠ VNone)) by done.
  rewrite (bool_decide_eq_false_2 (x = VNone)) in Hp |- * by done.
  destruct (float_of x) as [e|f] eqn:Hf; cbn [raise mret M_ret];
    [|by rewrite emit_nil].
  assert (is_ValueError_or_TypeError e = true) as ->.
  { destruct x as [|b|n|f|str|t|l]; cbn [float_of] in Hf;
      try discriminate Hf; try by injection Hf as <-.
    - cbn [value_ok] in Hx. destruct (PyFloat.of_int n); [done|].
      apply bool_decide_eq_true in Hx. by destruct Hx.
    - destruct (float_of_string str); [done|]. by injection Hf as <-. }
  by rewrite (bind_returns _ _ _ _ _ (print_ok _ _ (printable_cons_nil _ Hp))).
Qed.

Lemma append_ok h out lp xs x :
  h !! lp = Some (OList xs) ->
  append (VRef lp) x (mk_state h out)
  = (Returns tt, mk_state (<[lp := OList (xs ++ [x])]> h) out).
Proof.
  intros Hlp. unfold append, deref, store, mbind, M_bind. cbn [heap stdout].
  by rewrite Hlp.
Qed.

Lemma printable_app_inv h item :
  printable h item ->
  forallb printable_line (date_warning (item_field h item "date")) = true /\
  forallb printable_line (value_warning (item_field h item "value")) = true.
Proof. unfold printable, warnings. rewrite forallb_app. apply andb_prop. Qed.

Lemma loop_body_ok h out lp xs item :
  entry_ok h item ->
  printable h item ->
  h !! lp = Some (OList xs) ->
  loop_body (VRef lp) item (mk_state h out)
  = (Returns tt,
     mk_state (<[lp := OList (xs ++ [VRef (length h)])]> (h ++ [normalized h item]))
              (out ++ warnings h item)).
Proof.
  intros ((l & e & -> & Hl) & Hd & Hv) [Hpd Hpv]%printable_app_inv Hlp.
  unfold loop_body, normalized, warnings. simpl in Hd, Hv, Hpd, Hpv.
  rewrite Hl in Hd, Hv, Hpd, Hpv.
  simpl. rewrite Hl.
  unfold mbind at 1. unfold M_bind. rewrite (get_record _ _ _ _ _ Hl).
  unfold mbind at 1. unfold M_bind. rewrite (get_record _ _ _ _ _ Hl).
  unfold mbind at 1. unfold M_bind. rewrite (convert_date_ok _ _ Hd Hpd).
  unfold mbind at 1. unfold M_bind. rewrite (convert_value_ok _ _ Hv Hpv).
  unfold mbind at 1. unfold M_bind, alloc, emit. cbn [heap stdout].
  rewrite <- app_assoc. apply (append_ok _ _ lp xs).
  by apply lookup_app_l_Some.
Qed.

(** A record of [h] reads the same in every store that extends [h]. *)
Lemma item_field_app h ext item k :
  is_record h item -> item_field (h ++ ext) item k = item_field h item k.
Proof.
  intros (l & e & -> & Hl). simpl.
  by rewrite (lookup_app_l_Some _ _ _ _ Hl), Hl.
Qed.

Lemma entry_ok_app h ext item : entry_ok h item -> entry_ok (h ++ ext) item.
Proof.
  intros (Hr & Hd & Hv). split; [|by rewrite !item_field_app].
  destruct Hr as (l & e & -> & Hl). exists l, e.
  split; [done|by apply lookup_app_l_Some].
Qed.

Lemma normalized_app h ext item :
  is_record h item -> normalized (h ++ ext) item = normalized h item.
Proof. intros Hr. unfold normalized. by rewrite !item_field_app. Qed.

Lemma warnings_app h ext item :
  is_record h item -> warnings (h ++ ext) item = warnings h item.
Proof. intros Hr. unfold warnings. by rewrite !item_field_app. Qed.

Lemma printable_app h ext item :
  is_record h item -> printable h item -> printable (h ++ ext) item.
Proof. intros Hr. unfold printable. by rewrite warnings_app. Qed.

(** The loop over well-formed entries: the objects created by the call sit
    after the store [h0] it was given, namely the result dict [pd], the
    result list, the unused default list [tmp] and the entries built so
    far. *)
Lemma for_each_ok items : forall h0 pd acc tmp ents out,
  Forall (entry_ok h0) items ->
  Forall (printable h0) items ->
  for_each items (loop_body (VRef (S (length h0))))
    (mk_state (h0 ++ [pd; OList acc; tmp] ++ ents) out)
  = (Returns tt,
     mk_state
       (h0 ++ [pd; OList (acc ++ (VRef <$> seq (length h0 + 3 + length ents)
                                             (length items))); tmp]
           ++ ents ++ (normalized h0 <$> items))
       (out ++ concat (warnings h0 <$> items))).
Proof.
  induction items as [|item items IH]; intros h0 pd acc tmp ents out Hok Hpr.
  - simpl. by rewrite !app_nil_r.
  - apply Forall_cons in Hok as [Hitem Hok].
    apply Forall_cons in Hpr as [Hpitem Hpr].
    cbn [for_each]. unfold mbind, M_bind.
    rewrite (loop_body_ok _ _ _ acc).
    + rewrite normalized_app, warnings_app by apply Hitem.
      rewrite <- (app_assoc h0), (insert_app_r_alt h0) by lia.
      replace (S (length h0) - length h0)%nat with 1%nat by lia.
      cbn [list_insert app insert].
      change (h0 ++ pd :: ?o :: tmp :: ?r) with (h0 ++ [pd; o; tmp] ++ r).
      rewrite IH by done.
      rewrite !length_app. cbn [length fmap list_fmap concat seq].
      rewrite <- !app_assoc. cbn [app].
      replace (length h0 + S (S (S (length ents))))%nat
        with (length h0 + 3 + length ents)%nat by lia.
      by replace (length h0 + 3 + (length ents + 1))%nat
        with (S (length h0 + 3 + length ents)) by lia.
    + by apply entry_ok_app.
    + apply printable_app; [apply Hitem|done].
    + rewrite lookup_app_r by lia.
      by replace (S (length h0) - length h0)%nat with 1%nat by lia.
Qed.

(** The result of [process_measurement_data] on a raw series, in full: the
    store is extended by the result dict, the list of its entries, the
    unused default list and one new dict per raw entry, in this order. *)
Lemma process_raw_series raw key items s :
  raw_series (heap s) raw key items ->
  Forall (printable (heap s)) items ->
  process_measurement_data raw s
  = (Returns (VRef (length (heap s))),
     mk_state
       (heap s ++
          [ODict [("key", key); ("values", VRef (S (length (heap s))))];
           OList (VRef <$> seq (length (heap s) + 3) (length items));
           OList []] ++ (normalized (heap s) <$> items))
       (stdout s ++ concat (warnings (heap s) <$> items))).
Proof.
  intros (l & d & lv & -> & Hl & Hkey & Hvalues & Hlv & Hok) Hpr.
  destruct s as [h out]. cbn [heap stdout] in *.
  unfold process_measurement_data.
  rewrite (bind_returns _ _ _ _ _ (truth_dict l d (mk_state h out) Hl)).
  assert (d <> []) as Hd by (by intros ->).
  rewrite bool_decide_eq_false_2 by done. cbn [negb].
  rewrite (bind_returns _ _ _ _ _ (contains_dict _ l d (mk_state h out) Hl)).
  rewrite Hvalues, bool_decide_eq_true_2 by done. cbn [negb orb].
  rewrite (bind_returns _ _ _ _ _ (get_dict l d _ (mk_state h out) Hl)), Hkey.
  rewrite (bind_returns _ _ _ _ _ (alloc_ok _ _)). cbn [heap stdout].
  rewrite (bind_returns _ _ _ _ _ (alloc_ok _ _)). cbn [heap stdout].
  erewrite bind_returns; [|apply (attr_get_dict _ d); old_lookup].
  rewrite (bind_returns _ _ _ _ _ (alloc_ok _ _)). cbn [heap stdout].
  erewrite bind_returns; [|apply (dict_get_ok _ d); old_lookup].
  rewrite Hvalues. cbn [from_option id].
  erewrite bind_returns; [|apply (iterate_list _ items); old_lookup].
  rewrite !length_app. cbn [length]. rewrite <- !app_assoc. cbn [app].
  replace (length h + 1)%nat with (S (length h)) by lia.
  change (h ++ ?a :: ?b :: ?c :: []) with (h ++ [a; b; c] ++ []).
  erewrite bind_returns; [|by apply for_each_ok].
  erewrite bind_returns; [|apply (setitem_dict _ [("key", key)])].
  - cbn [heap stdout mret M_ret app length]. rewrite (insert_app_r_alt h) by lia.
    replace (length h - length h)%nat with 0%nat by lia.
    cbn [list_insert insert dict_set]. rewrite Nat.add_0_r.
    rewrite bool_decide_eq_false_2 by done. reflexivity.
  - cbn [heap]. rewrite lookup_app_r by lia.
    by replace (length h - length h)%nat with 0%nat by lia.
Qed.

Lemma keeps_reads_only I {A} (m : M A) : reads_only m -> keeps I m.
Proof. intros Hm s Hs. by rewrite Hm. Qed.

Lemma keeps_bind I {A B} (m : M A) (k : A -> M B) :
  keeps I m -> (forall a, keeps I (k a)) -> keeps I (m ≫= k).
Proof.
  intros Hm Hk s Hs. unfold mbind, M_bind. specialize (Hm s Hs).
  destruct (m s) as [[a|e] s']; cbn [snd] in *; [by apply Hk|done].
Qed.

Lemma keeps_try_except I {A} (body : M A) catches handler :
  keeps I body -> (forall e, keeps I (handler e)) ->
  keeps I (try_except body catches handler).
Proof.
  intros Hb Hh s Hs. unfold try_except. specialize (Hb s Hs).
  destruct (body s) as [[a|e] s']; cbn [snd] in *; [done|].
  destruct (catches e); [by apply Hh|done].
Qed.

Lemma keeps_for_each I xs body :
  (forall x, keeps I (body x)) -> keeps I (for_each xs body).
Proof.
  intros Hb. induction xs as [|x xs IH]; [by intros s Hs|].
  cbn [for_each]. apply keeps_bind; [apply Hb|done].
Qed.

Lemma reads_only_bind {A B} (m : M A) (k : A -> M B) :
  reads_only m -> (forall a, reads_only (k a)) -> reads_only (m ≫= k).
Proof.
  intros Hm Hk s. unfold mbind, M_bind. specialize (Hm s).
  destruct (m s) as [[a|e] s']; cbn [snd] in *; subst; [apply Hk|done].
Qed.

Lemma reads_only_ret {A} (a : A) : reads_only (mret a).
Proof. done. Qed.

Lemma reads_only_raise {A} e : reads_only (@raise A e).
Proof. done. Qed.

Lemma reads_only_call {A} (r : exn + A) : reads_only (call r).
Proof. by destruct r. Qed.

Lemma reads_only_deref l : reads_only (deref l).
Proof. intros s. unfold deref. by destruct (heap s !! l). Qed.

Ltac reads_only :=
  repeat first
    [ apply reads_only_ret | apply reads_only_raise | apply reads_only_call
    | apply reads_only_deref
    | apply reads_only_bind; [|intros ?]
    | match goal with |- reads_only (match ?x with _ => _ end) => destruct x end ].

Lemma reads_only_truth v : reads_only (truth v).
Proof. unfold truth. reads_only. Qed.

Lemma reads_only_contains k v : reads_only (contains k v).
Proof. unfold contains. reads_only. Qed.

Lemma reads_only_attr_get v : reads_only (attr_get v).
Proof. unfold attr_get. reads_only. Qed.

Lemma reads_only_dict_get l k default : reads_only (dict_get l k default).
Proof. unfold dict_get. reads_only. Qed.

Lemma reads_only_get v k : reads_only (get v k).
Proof.
  unfold get. apply reads_only_bind; [apply reads_only_attr_get|].
  intros l. apply reads_only_dict_get.
Qed.

Lemma reads_only_iterate v : reads_only (iterate v).
Proof. unfold iterate. reads_only. Qed.

Lemma bind_reads_only {A B} (m : M A) (k : A -> M B) s :
  reads_only m ->
  (exists a, m s = (Returns a, s) /\ (m ≫= k) s = k a s) \/
  (exists e, (m ≫= k) s = (Raises e, s)).
Proof.
  intros Hm. specialize (Hm s). unfold mbind, M_bind.
  destruct (m s) as [[a|e] s']; cbn [snd] in Hm; subst; eauto.
Qed.

Lemma building_print h0 out0 key l :
  warning l -> keeps (building h0 out0 key) (print l).
Proof.
  intros Hl s (Hpre & Hpd & Hpv & ws & Hout & Hws). unfold print.
  destruct (write_failure (heap s) l); cbn [snd]; [by repeat split; [..|exists ws]|].
  repeat split; [done..|]. exists (ws ++ [l]). cbn [stdout].
  rewrite Hout, app_assoc. split; [done|].
  apply Forall_app. by split; [|apply Forall_singleton].
Qed.

Lemma building_alloc h0 out0 key o : keeps (building h0 out0 key) (alloc o).
Proof.
  intros s (Hpre & Hpd & (xs & Hpv & Hxs) & Hout).
  cbn [alloc snd heap stdout]. repeat split; [|by apply lookup_app_l_Some|..|done].
  - by apply prefix_app_r.
  - exists xs. split; [by apply lookup_app_l_Some|done].
Qed.

Lemma building_alloc_append h0 out0 key o :
  keeps (building h0 out0 key)
        (entry ← alloc o; append (VRef (S (length h0))) entry).
Proof.
  intros s (Hpre & Hpd & (xs & Hpv & Hxs) & Hout).
  rewrite (bind_returns _ _ _ _ _ (alloc_ok _ _)).
  rewrite (append_ok _ _ _ xs) by (by apply lookup_app_l_Some).
  cbn [snd heap stdout].
  assert (S (length h0) < length (heap s))%nat by (by eapply lookup_lt_Some).
  unfold building. cbn [heap stdout]. repeat split; [| |..|done].
  - destruct Hpre as [ext ->]. rewrite <- app_assoc.
    rewrite insert_app_r_alt by lia. by eexists.
  - rewrite list_lookup_insert_ne by lia. by apply lookup_app_l_Some.
  - eexists. split.
    + apply list_lookup_insert_eq. rewrite length_app. lia.
    + apply Forall_app. split; [done|]. apply Forall_singleton.
      eexists. split; [done|lia].
Qed.

Lemma building_convert_date h0 out0 key d :
  keeps (building h0 out0 key) (convert_date d).
Proof.
  unfold convert_date. apply keeps_bind.
  - apply keeps_reads_only, reads_only_truth.
  - intros [|]; [|by apply keeps_reads_only].
    apply keeps_try_except; [apply keeps_reads_only, reads_only_call|].
    intros _. apply keeps_bind; [|by intros; apply keeps_reads_only].
    apply building_print. exists d. by left.
Qed.

Lemma building_convert_value h0 out0 key x :
  keeps (building h0 out0 key) (convert_value x).
Proof.
  unfold convert_value. case_bool_decide; [|by apply keeps_reads_only].
  apply keeps_try_except; [apply keeps_reads_only, reads_only_call|].
  intros _. apply keeps_bind; [|by intros; apply keeps_reads_only].
  apply building_print. exists x. by right.
Qed.

Lemma building_loop_body h0 out0 key item :
  keeps (building h0 out0 key) (loop_body (VRef (S (length h0))) item).
Proof.
  unfold loop_body.
  apply keeps_bind; [apply keeps_reads_only, reads_only_get|intros d].
  apply keeps_bind; [apply keeps_reads_only, reads_only_get|intros x].
  apply keeps_bind; [apply building_convert_date|intros pd].
  apply keeps_bind; [apply building_convert_value|intros px].
  apply building_alloc_append.
Qed.

Lemma ensures_bind_keeps I {A B} (m : M A) (k : A -> M B) s Q :
  keeps I m -> I s ->
  (forall a s', I s' -> ensures (k a) s' Q) ->
  (forall e s', I s' -> Q (Raises e) s') ->
  ensures (m ≫= k) s Q.
Proof.
  intros Hm Hs Hk He. unfold ensures, mbind, M_bind. specialize (Hm s Hs).
  destruct (m s) as [[a|e] s']; cbn [fst snd] in *; [by apply Hk|by apply He].
Qed.

Lemma building_built h0 out0 key e s :
  building h0 out0 key s -> built h0 out0 (Raises e) s.
Proof. intros (Hpre & _ & _ & Hout). by repeat split. Qed.

Lemma building_setitem h0 out0 key s :
  building h0 out0 key s ->
  ensures (setitem (VRef (length h0)) "values" (VRef (S (length h0)));;
           mret (VRef (length h0))) s (built h0 out0).
Proof.
  intros (Hpre & Hpd & (xs & Hpv & Hxs) & Hout). unfold ensures.
  rewrite (bind_returns _ _ _ _ _ (setitem_dict _ _ _ _ _ Hpd)).
  cbn [mret M_ret fst snd heap stdout dict_set].
  rewrite bool_decide_eq_false_2 by done.
  assert (length h0 < length (heap s))%nat by (by eapply lookup_lt_Some).
  split; [|split; [done|]].
  - destruct Hpre as [ext ->]. rewrite insert_app_r_alt by lia. by eexists.
  - intros x [= <-]. split; [done|]. exists key, xs. cbn [heap].
    rewrite list_lookup_insert_eq by done.
    by rewrite list_lookup_insert_ne by lia.
Qed.

(** Past the validation gate: from the creation of the result dict to the
    end. *)
Lemma process_past_gate raw s :
  truth raw s = (Returns true, s) ->
  contains "values" raw s = (Returns true, s) ->
  built (heap s) (stdout s) (process_measurement_data raw s).1
        (process_measurement_data raw s).2.
Proof.
  intros Ht Hc. unfold process_measurement_data.
  rewrite (bind_returns _ _ _ _ _ Ht), (bind_returns _ _ _ _ _ Hc).
  cbn [negb orb].
  assert (built (heap s) (stdout s) (Raises TypeError) s) as Hs.
  { split; [done|]. split; [|done]. exists []. by rewrite app_nil_r. }
  destruct (bind_reads_only (get raw "key")
    (fun key => processed_data ← alloc (ODict [("key", key)]);
                processed_values ← alloc (OList []);
                raw' ← attr_get raw;
                default ← alloc (OList []);
                values ← dict_get raw' "values" default;
                items ← iterate values;
                for_each items (loop_body processed_values);;
                setitem processed_data "values" processed_values;;
                mret processed_data) s (reads_only_get _ _))
    as [(key & _ & ->)|(e & ->)]; [|by destruct Hs as (? & ? & _)].
  rewrite (bind_returns _ _ _ _ _ (alloc_ok _ _)).
  rewrite (bind_returns _ _ _ _ _ (alloc_ok _ _)). cbn [heap stdout].
  rewrite length_app. cbn [length]. rewrite Nat.add_1_r.
  set (I := building (heap s) (stdout s) key).
  assert (I (mk_state ((heap s ++ [ODict [("key", key)]]) ++ [OList []]) (stdout s))).
  { repeat split; cbn [heap stdout].
    - rewrite <- app_assoc. by eexists.
    - rewrite <- app_assoc. by rewrite lookup_app_r, Nat.sub_diag.
    - exists []. split; [|done]. rewrite <- app_assoc.
      rewrite lookup_app_r by lia. by replace (S _ - _)%nat with 1%nat by lia.
    - exists []. by rewrite app_nil_r. }
  apply (ensures_bind_keeps I);
    [apply keeps_reads_only, reads_only_attr_get|done| |by intros; eapply building_built].
  intros raw' s1 H1. apply (ensures_bind_keeps I);
    [apply building_alloc|done| |by intros; eapply building_built].
  intros default s2 H2. apply (ensures_bind_keeps I);
    [apply keeps_reads_only, reads_only_dict_get|done| |by intros; eapply building_built].
  intros values s3 H3. apply (ensures_bind_keeps I);
    [apply keeps_reads_only, reads_only_iterate|done| |by intros; eapply building_built].
  intros items s4 H4. apply (ensures_bind_keeps I);
    [apply keeps_for_each; intros; apply building_loop_body|done|
    |by intros; eapply building_built].
  intros [] s5 H5. by apply (building_setitem _ _ key).
Qed.

(** ** Reading the result back *)

Lemma read_entry_normalized h' h l item :
  h' !! l = Some (normalized h item) ->
  read_entry h' (VRef l) = Some (normal_entry h item).
Proof. intros Hl. unfold read_entry. by rewrite Hl. Qed.

Lemma read_entry_app h ext v p :
  read_entry h v = Some p -> read_entry (h ++ ext) v = Some p.
Proof.
  destruct v as [| | | | | |l]; try done. unfold read_entry.
  destruct (h !! l) as [o|] eqn:Hl; [|done].
  by rewrite (lookup_app_l_Some _ _ _ _ Hl).
Qed.

Lemma read_series_app h ext v p :
  read_series h v = Some p -> read_series (h ++ ext) v = Some p.
Proof.
  destruct v as [| | | | | |l]; try done. unfold read_series.
  destruct (h !! l) as [[d|]|] eqn:Hl; [|done..].
  rewrite (lookup_app_l_Some _ _ _ _ Hl).
  case_bool_decide; [|done].
  destruct (dict_lookup "key" d) as [key|]; [|done].
  destruct (dict_lookup "values" d) as [[| | | | | |lv]|]; try done.
  cbn [mbind option_bind].
  destruct (h !! lv) as [[|es]|] eqn:Hlv; [done| |done].
  rewrite (lookup_app_l_Some _ _ _ _ Hlv).
  destruct (mapM (read_entry h) es) as [outs|] eqn:Hes; [|done].
  intros [= <-]. apply mapM_Some in Hes.
  assert (mapM (read_entry (h ++ ext)) es = Some outs) as ->; [|done].
  apply mapM_Some. eapply Forall2_impl; [done|]. intros. by apply read_entry_app.
Qed.

Lemma raw_series_app h ext raw key items :
  raw_series h raw key items -> raw_series (h ++ ext) raw key items.
Proof.
  intros (l & d & lv & -> & Hl & Hkey & Hvalues & Hlv & Hok).
  exists l, d, lv. repeat split; [by apply lookup_app_l_Some|done..| |].
  - by apply lookup_app_l_Some.
  - eapply Forall_impl; [done|]. intros. by apply entry_ok_app.
Qed.

(** The series returned for a raw series: the key and the normal entries,
    in the order of the raw ones. *)
Lemma process_read_series raw key items s :
  raw_series (heap s) raw key items ->
  Forall (printable (heap s)) items ->
  read_series (heap (process_measurement_data raw s).2) (VRef (length (heap s)))
  = Some (key, normal_entry (heap s) <$> items).
Proof.
  intros Hraw Hpr. rewrite (process_raw_series _ _ _ _ Hraw Hpr). cbn [snd heap].
  set (h := heap s). unfold read_series.
  rewrite lookup_app_r, Nat.sub_diag by done.
  erewrite (lookup_app_l_Some [_; _; _] _ 0%nat) by reflexivity.
  cbv beta iota. rewrite bool_decide_eq_true_2 by done.
  change (dict_lookup "key" _) with (Some key).
  change (dict_lookup "values" _) with (Some (VRef (S (length h)))).
  cbn [mbind option_bind].
  rewrite lookup_app_r by lia. replace (S (length h) - length h)%nat with 1%nat by lia.
  erewrite (lookup_app_l_Some [_; _; _] _ 1%nat) by reflexivity.
  cbv beta iota.
  assert (mapM (read_entry (h ++ [ODict [("key", key); ("values", VRef (S (length h)))];
                                  OList (VRef <$> seq (length h + 3) (length items));
                                  OList []] ++ (normalized h <$> items)))
            (VRef <$> seq (length h + 3) (length items))
          = Some (normal_entry h <$> items)) as ->; [|done].
  apply mapM_Some, Forall2_same_length_lookup. split.
  - by rewrite !length_fmap, length_seq.
  - intros i v p Hv Hp. apply list_lookup_fmap_Some in Hv as (n & -> & Hn).
    apply lookup_seq in Hn as [-> Hi].
    apply list_lookup_fmap_Some in Hp as (item & -> & Hitem).
    apply (read_entry_normalized _ h).
    rewrite lookup_app_r by lia. rewrite lookup_app_r by (cbn [length]; lia).
    cbn [length]. replace (length h + 3 + i - length h - 3)%nat with i by lia.
    by rewrite list_lookup_fmap, Hitem.
Qed.

(** ** The validation gate *)

Lemma process_rejected raw s :
  truth raw s = (Returns false, s) \/
  (truth raw s = (Returns true, s) /\ contains "values" raw s = (Returns false, s)) ->
  process_measurement_data raw s = (Returns VNone, emit s [invalid_data]).
Proof.
  unfold process_measurement_data. intros [Ht|[Ht Hc]].
  - by rewrite (bind_returns _ _ _ _ _ Ht).
  - by rewrite (bind_returns _ _ _ _ _ Ht), (bind_returns _ _ _ _ _ Hc).
Qed.

Lemma process_gate_raises raw s e :
  truth raw s = (Raises e, s) \/
  (truth raw s = (Returns true, s) /\ contains "values" raw s = (Raises e, s)) ->
  process_measurement_data raw s = (Raises e, s).
Proof.
  unfold process_measurement_data. intros [Ht|[Ht Hc]].
  - by rewrite (bind_raises _ _ _ _ _ Ht).
  - by rewrite (bind_returns _ _ _ _ _ Ht), (bind_raises _ _ _ _ _ Hc).
Qed.

(** Whatever the input, the run ends in one of three ways. *)
Lemma process_cases raw s :
  process_measurement_data raw s = (Returns VNone, emit s [invalid_data]) \/
  (exists e, process_measurement_data raw s = (Raises e, s)) \/
  built (heap s) (stdout s) (process_measurement_data raw s).1
        (process_measurement_data raw s).2.
Proof.
  pose proof (reads_only_truth raw s) as Ht.
  destruct (truth raw s) as [[[|]|e] s1] eqn:Et; cbn [snd] in Ht; subst s1.
  - pose proof (reads_only_contains "values" raw s) as Hc.
    destruct (contains "values" raw s) as [[[|]|e] s1] eqn:Ec; cbn [snd] in Hc; subst s1.
    + right; right. by apply process_past_gate.
    + left. apply process_rejected. by right.
    + right; left. exists e. apply process_gate_raises. by right.
  - left. apply process_rejected. by left.
  - right; left. exists e. apply process_gate_raises. by left.
Qed.

(** ** The fetch operations *)





(** ** From the wire to the normal form *)






(** The float written [12.5]: a valid binary64 number whose double is the
    float of the integer 25. *)
Lemma float_12_5_value :
  PyFloat.of_string "12.5" = Some Examples.float_12_5 /\
  valid_binary PyFloat.prec PyFloat.emax Examples.float_12_5 = true /\
  Some (SFmul PyFloat.prec PyFloat.emax Examples.float_12_5
          (binary_normalize PyFloat.prec PyFloat.emax 2 0 false))
  = PyFloat.of_int 25.
Proof. by vm_compute. Qed.

(** ** The printed lines *)

Lemma warning_of_date d l : l ∈ date_warning d -> l = bad_date d.
Proof.
  unfold date_warning. destruct d; try by intros ?%elem_of_nil.
  case_bool_decide; [by intros ?%elem_of_nil|].
  destruct (datetime_strptime _ _); [|by intros ?%elem_of_nil].
  by intros ->%list_elem_of_singleton.
Qed.

Lemma warning_of_value x l : l ∈ value_warning x -> l = bad_value x.
Proof.
  unfold value_warning. case_bool_decide; [by intros ?%elem_of_nil|].
  destruct (float_of x); [|by intros ?%elem_of_nil].
  by intros ->%list_elem_of_singleton.
Qed.

End Facts.

Section MoreFacts.
Context {rt : Runtime}.

(** ** The body of the loop on any item *)

Lemma truth_truthy v s : truth v s = call (truthy (heap s) v) s.
Proof.
  destruct v as [| | | | | |l]; try reflexivity.
  unfold truth, truthy, deref, mbind, M_bind.
  by destruct (heap s !! l) as [[|]|].
Qed.

(** The handler of a failed conversion. *)
Lemma print_logged l s :
  (print l;; mret VNone) s
  = match logged (heap s) l with
    | (ls, inl e) => (Raises e, emit s ls)
    | (ls, inr v) => (Returns v, emit s ls)
    end.
Proof.
  unfold logged, print, mbind, M_bind.
  destruct (write_failure (heap s) l); [by rewrite emit_nil|done].
Qed.

Lemma convert_date_step d s :
  convert_date d s
  = match date_step (heap s) d with
    | (ls, inl e) => (Raises e, emit s ls)
    | (ls, inr v) => (Returns v, emit s ls)
    end.
Proof.
  unfold convert_date, date_step, mbind, M_bind. rewrite truth_truthy.
  destruct (truthy (heap s) d) as [e|[|]]; cbn [call raise mret M_ret];
    rewrite ?emit_nil; try reflexivity.
  unfold try_except, call.
  destruct (datetime_strptime d _) as [e|t]; cbn [raise mret M_ret];
    [|by rewrite emit_nil].
  destruct (is_ValueError e); [|by rewrite emit_nil].
  apply print_logged.
Qed.

Lemma convert_value_step x s :
  convert_value x s
  = match value_step (heap s) x with
    | (ls, inl e) => (Raises e, emit s ls)
    | (ls, inr v) => (Returns v, emit s ls)
    end.
Proof.
  unfold convert_value, value_step.
  case_bool_decide; [|by rewrite emit_nil].
  unfold try_except, call.
  destruct (float_of x) as [e|f]; cbn [raise mret M_ret]; [|by rewrite emit_nil].
  destruct (is_ValueError_or_TypeError e); [|by rewrite emit_nil].
  apply print_logged.
Qed.

Lemma get_not_record h out item k e :
  entry_fields h item = inl e ->
  get item k (mk_state h out) = (Raises e, mk_state h out).
Proof.
  unfold entry_fields, get, attr_get, deref, mbind, M_bind.
  destruct item as [| | | | | |l]; try by intros [= <-].
  cbn [heap]. by destruct (h !! l) as [[|]|]; intros [= <-].
Qed.

Lemma entry_fields_record h item d x :
  entry_fields h item = inr (d, x) ->
  exists l e, item = VRef l /\ h !! l = Some (ODict e) /\
              d = from_option id VNone (dict_lookup "date" e) /\
              x = from_option id VNone (dict_lookup "value" e).
Proof.
  unfold entry_fields. destruct item as [| | | | | |l]; try done.
  destruct (h !! l) as [[e|]|] eqn:Hl; try done. intros [= <- <-].
  by exists l, e.
Qed.

(** The body of the loop, for an item of any shape. *)
Lemma loop_body_step h out lp xs item :
  h !! lp = Some (OList xs) ->
  loop_body (VRef lp) item (mk_state h out)
  = match step h item with
    | (ls, inl e) => (Raises e, mk_state h (out ++ ls))
    | (ls, inr o) =>
        (Returns tt,
         mk_state (<[lp := OList (xs ++ [VRef (length h)])]> (h ++ [o]))
                  (out ++ ls))
    end.
Proof.
  intros Hlp. unfold loop_body, step.
  destruct (entry_fields h item) as [e|[d x]] eqn:Hf.
  { rewrite (bind_raises _ _ _ _ _ (get_not_record _ _ _ _ _ Hf)).
    by rewrite app_nil_r. }
  apply entry_fields_record in Hf as (l & e & -> & Hl & -> & ->).
  rewrite (bind_returns _ _ _ _ _ (get_record _ out _ _ "date" Hl)).
  rewrite (bind_returns _ _ _ _ _ (get_record _ out _ _ "value" Hl)).
  set (d := from_option id VNone (dict_lookup "date" e)).
  set (x := from_option id VNone (dict_lookup "value" e)).
  pose proof (convert_date_step d (mk_state h out)) as Hcd. cbn [heap] in Hcd.
  destruct (date_step h d) as [l1 [e1|pd]].
  { by rewrite (bind_raises _ _ _ _ _ Hcd). }
  rewrite (bind_returns _ _ _ _ _ Hcd).
  pose proof (convert_value_step x (emit (mk_state h out) l1)) as Hcv.
  cbn [emit heap] in Hcv.
  destruct (value_step h x) as [l2 [e2|px]].
  { rewrite (bind_raises _ _ _ _ _ Hcv). unfold emit. cbn [heap stdout].
    by rewrite app_assoc. }
  rewrite (bind_returns _ _ _ _ _ Hcv).
  rewrite (bind_returns _ _ _ _ _ (alloc_ok _ _)). unfold emit. cbn [heap stdout].
  rewrite <- app_assoc. apply (append_ok _ _ lp xs). by apply lookup_app_l_Some.
Qed.

(** ** The loop on any list of settled items *)

Lemma truthy_app h ext v :
  (forall l, v = VRef l -> (l < length h)%nat) ->
  truthy (h ++ ext) v = truthy h v.
Proof.
  destruct v as [| | | | | |l]; try done. intros Hl. cbn [truthy].
  by rewrite lookup_app_l by (by apply Hl).
Qed.

(** What is printed for a value that is not a container does not depend
    on the store. *)
Lemma write_failure_value h h' (text : string) v :
  (forall l, v <> VRef l) ->
  write_failure h [Text text; Value v] = write_failure h' [Text text; Value v].
Proof. destruct v as [| | | | | |l]; try done. intros Hv. by destruct (Hv l). Qed.

Lemma date_step_app h ext d :
  (forall l, d = VRef l -> (l < length h)%nat) ->
  date_step (h ++ ext) d = date_step h d.
Proof.
  intros Hd. unfold date_step. rewrite truthy_app by done.
  destruct (truthy h d) as [e|[|]]; [done| |done].
  by destruct d.
Qed.

Lemma value_step_app h ext x :
  (forall l, x <> VRef l) -> value_step (h ++ ext) x = value_step h x.
Proof.
  intros Hx. unfold value_step. case_bool_decide; [|done].
  destruct (float_of x) as [e|f]; [|done].
  destruct (is_ValueError_or_TypeError e); [|done].
  unfold logged, bad_value. by rewrite (write_failure_value (h ++ ext) h).
Qed.

(** Settled items: what is not a reference, a list of the store, and a
    record of the store whose date is no newer reference and whose value,
    if the loop gets to it, is no container. *)
Lemma settled_immediate h item : (forall l, item <> VRef l) -> settled h item.
Proof. destruct item as [| | | | | |l]; try done. intros Hl. by destruct (Hl l). Qed.

Lemma settled_list h (l : loc) xs : h !! l = Some (OList xs) -> settled h (VRef l).
Proof.
  intros Hl ext. unfold step, entry_fields.
  by rewrite (lookup_app_l_Some _ _ _ _ Hl), Hl.
Qed.

Lemma settled_record h (l : loc) e :
  h !! l = Some (ODict e) ->
  (forall ld, from_option id VNone (dict_lookup "date" e) = VRef ld ->
              (ld < length h)%nat) ->
  (exists ls e', date_step h (from_option id VNone (dict_lookup "date" e))
                 = (ls, inl e')) \/
  (forall lx, from_option id VNone (dict_lookup "value" e) <> VRef lx) ->
  settled h (VRef l).
Proof.
  intros Hl Hd Hx ext. unfold step, entry_fields.
  rewrite (lookup_app_l_Some _ _ _ _ Hl), Hl.
  rewrite (date_step_app _ _ _ Hd).
  destruct Hx as [(ls & e' & ->)|Hx]; [done|].
  by rewrite (value_step_app _ _ _ Hx).
Qed.

Lemma for_each_scan items : forall h0 pd acc tmp ents out,
  Forall (settled h0) items ->
  for_each items (loop_body (VRef (S (length h0))))
    (mk_state (h0 ++ [pd; OList acc; tmp] ++ ents) out)
  = (match (scan h0 items).2 with None => Returns tt | Some e => Raises e end,
     mk_state
       (h0 ++ [pd; OList (acc ++ (VRef <$> seq (length h0 + 3 + length ents)
                                             (length (scan h0 items).1.2))); tmp]
           ++ ents ++ (scan h0 items).1.2)
       (out ++ (scan h0 items).1.1)).
Proof.
  induction items as [|item items IH]; intros h0 pd acc tmp ents out Hok.
  - cbn. by rewrite !app_nil_r.
  - apply Forall_cons in Hok as [Hitem Hok].
    cbn [for_each scan]. unfold mbind, M_bind.
    rewrite (loop_body_step _ _ _ acc).
    2: { rewrite lookup_app_r by lia.
         by replace (S (length h0) - length h0)%nat with 1%nat by lia. }
    rewrite (Hitem _).
    destruct (step h0 item) as [ls [e|o]].
    { cbn [fst snd length seq fmap list_fmap]. by rewrite !app_nil_r. }
    rewrite <- (app_assoc h0), (insert_app_r_alt h0) by lia.
    replace (S (length h0) - length h0)%nat with 1%nat by lia.
    cbn [list_insert app insert].
    change (h0 ++ pd :: ?o' :: tmp :: ?r) with (h0 ++ [pd; o'; tmp] ++ r).
    rewrite IH by done.
    destruct (scan h0 items) as [[ls' os] oe]. cbn [fst snd].
    rewrite !length_app. cbn [length fmap list_fmap seq].
    rewrite <- !app_assoc. cbn [app].
    replace (length h0 + S (S (S (length ents))))%nat
      with (length h0 + 3 + length ents)%nat by lia.
    by replace (length h0 + 3 + (length ents + 1))%nat
      with (S (length h0 + 3 + length ents)) by lia.
Qed.

Lemma for_each_raises_app xs ys body : forall s e s',
  for_each xs body s = (Raises e, s') ->
  for_each (xs ++ ys) body s = (Raises e, s').
Proof.
  induction xs as [|x xs IH]; intros s e s'; [done|].
  cbn [for_each app]. unfold mbind, M_bind.
  destruct (body x s) as [[[]|e1] s1]; [apply IH|done].
Qed.

(** The run on a dict whose ['values'] is a list, the items being settled
    up to the end of the list or to the first exception. *)
Lemma process_scan l d lv pre rest s :
  heap s !! l = Some (ODict d) ->
  dict_lookup "values" d = Some (VRef lv) ->
  heap s !! lv = Some (OList (pre ++ rest)) ->
  Forall (settled (heap s)) pre ->
  rest = [] \/ (scan (heap s) pre).2 <> None ->
  process_measurement_data (VRef l) s
  = (match (scan (heap s) pre).2 with
     | None => Returns (VRef (length (heap s)))
     | Some e => Raises e
     end,
     mk_state
       (heap s ++
          [ODict (("key", from_option id VNone (dict_lookup "key" d)) ::
                  match (scan (heap s) pre).2 with
                  | None => [("values", VRef (S (length (heap s))))]
                  | Some _ => []
                  end);
           OList (VRef <$> seq (length (heap s) + 3)
                               (length (scan (heap s) pre).1.2));
           OList []] ++ (scan (heap s) pre).1.2)
       (stdout s ++ (scan (heap s) pre).1.1)).
Proof.
  intros Hl Hvalues Hlv Hok Hend.
  destruct s as [h out]. cbn [heap stdout] in *.
  unfold process_measurement_data.
  rewrite (bind_returns _ _ _ _ _ (truth_dict l d (mk_state h out) Hl)).
  assert (d <> []) as Hd by (by intros ->).
  rewrite bool_decide_eq_false_2 by done. cbn [negb].
  rewrite (bind_returns _ _ _ _ _ (contains_dict _ l d (mk_state h out) Hl)).
  rewrite Hvalues, bool_decide_eq_true_2 by done. cbn [negb orb].
  rewrite (bind_returns _ _ _ _ _ (get_dict l d _ (mk_state h out) Hl)).
  set (key := from_option id VNone (dict_lookup "key" d)).
  rewrite (bind_returns _ _ _ _ _ (alloc_ok _ _)). cbn [heap stdout].
  rewrite (bind_returns _ _ _ _ _ (alloc_ok _ _)). cbn [heap stdout].
  erewrite bind_returns; [|apply (attr_get_dict _ d); old_lookup].
  rewrite (bind_returns _ _ _ _ _ (alloc_ok _ _)). cbn [heap stdout].
  erewrite bind_returns; [|apply (dict_get_ok _ d); old_lookup].
  rewrite Hvalues. cbn [from_option id].
  erewrite bind_returns; [|apply (iterate_list _ (pre ++ rest)); old_lookup].
  rewrite !length_app. cbn [length]. rewrite <- !app_assoc. cbn [app].
  replace (length h + 1)%nat with (S (length h)) by lia.
  change (h ++ ?a :: ?b :: ?c :: []) with (h ++ [a; b; c] ++ []).
  pose proof (for_each_scan pre h (ODict [("key", key)]) [] (OList []) [] out Hok)
    as Hpre.
  cbn [app length] in Hpre. rewrite Nat.add_0_r in Hpre.
  destruct (scan h pre) as [[ls os] [e|]] eqn:Hscan; cbn [fst snd] in *.
  - rewrite (bind_raises _ _ _ _ _ (for_each_raises_app _ rest _ _ _ _ Hpre)).
    reflexivity.
  - destruct Hend as [->|?]; [|done]. rewrite app_nil_r.
    rewrite (bind_returns _ _ _ _ _ Hpre).
    erewrite bind_returns; [|apply (setitem_dict _ [("key", key)])].
    + cbn [heap stdout mret M_ret app length]. rewrite (insert_app_r_alt h) by lia.
      replace (length h - length h)%nat with 0%nat by lia.
      cbn [list_insert insert dict_set].
      rewrite bool_decide_eq_false_2 by done. reflexivity.
    + cbn [heap]. rewrite lookup_app_r by lia.
      by replace (length h - length h)%nat with 0%nat by lia.
Qed.

(** ** Well-formed and lenient entries in the loop *)

Lemma logged_printable h l :
  forallb printable_line [l] = true -> logged h l = ([l], inr VNone).
Proof.
  intros Hl%printable_cons_nil. unfold logged. by rewrite (write_printable _ _ Hl).
Qed.

Lemma date_step_lenient h d :
  lenient_date d ->
  forallb printable_line (date_warning d) = true ->
  date_step h d = (date_warning d, inr (parsed_date d)).
Proof.
  unfold date_step, date_warning, parsed_date.
  destruct d as [|[|]|n|f|str| |]; try done; cbn [truthy lenient_date].
  - by intros ->.
  - by intros ->.
  - intros _. case_bool_decide; [done|]. cbn [negb datetime_strptime].
    destruct (strptime str _); [done|]. cbn [is_ValueError].
    apply logged_printable.
Qed.

Lemma value_step_ok h x :
  value_ok x = true ->
  forallb printable_line (value_warning x) = true ->
  value_step h x = (value_warning x, inr (parsed_value x)).
Proof.
  intros Hx Hp. unfold value_step, value_warning, parsed_value in *.
  destruct (decide (x = VNone)) as [->|Hnone]; [done|].
  rewrite (bool_decide_eq_true_2 (x ≠ VNone)) by done.
  rewrite (bool_decide_eq_false_2 (x = VNone)) in Hp |- * by done.
  destruct (float_of x) as [e|f] eqn:Hf; [|done].
  assert (is_ValueError_or_TypeError e = true) as ->.
  { destruct x as [|b|n|f|str|t|l]; cbn [float_of] in Hf;
      try discriminate Hf; try by injection Hf as <-.
    - cbn [value_ok] in Hx. destruct (PyFloat.of_int n); [done|].
      apply bool_decide_eq_true in Hx. by destruct Hx.
    - destruct (float_of_string str); [done|]. by injection Hf as <-. }
  by apply logged_printable.
Qed.

(** A value whose warning, if one is due, can be written is no container. *)
Lemma printable_value_warning x l :
  forallb printable_line (value_warning x) = true -> x <> VRef l.
Proof. by intros Hp ->. Qed.

Lemma lenient_step h item :
  is_record h item ->
  lenient_date (item_field h item "date") ->
  value_ok (item_field h item "value") = true ->
  printable h item ->
  step h item = (warnings h item, inr (normalized h item)).
Proof.
  intros (l & e & -> & Hl) Hd Hx [Hpd Hpx]%printable_app_inv.
  unfold step, warnings, normalized.
  cbn [item_field entry_fields] in *. rewrite Hl in *.
  by rewrite (date_step_lenient _ _ Hd Hpd), (value_step_ok _ _ Hx Hpx).
Qed.

Lemma entry_ok_lenient h item :
  entry_ok h item ->
  is_record h item /\ lenient_date (item_field h item "date") /\
  value_ok (item_field h item "value") = true.
Proof. intros (Hr & Hd & Hx). by destruct (item_field h item "date"). Qed.

Lemma lenient_settled h item :
  is_record h item -> lenient_date (item_field h item "date") ->
  printable h item -> settled h item.
Proof.
  intros (l & e & -> & Hl) Hd [_ Hpx]%printable_app_inv.
  cbn [item_field] in *. rewrite Hl in *.
  apply (settled_record _ _ _ Hl).
  - intros ld Hld. by rewrite Hld in Hd.
  - right. intros lx. by apply printable_value_warning.
Qed.

Lemma scan_lenient h items :
  Forall (fun item => is_record h item /\
                      lenient_date (item_field h item "date") /\
                      value_ok (item_field h item "value") = true) items ->
  Forall (printable h) items ->
  scan h items = (concat (warnings h <$> items), normalized h <$> items, None).
Proof.
  induction 1 as [|item items (Hr & Hd & Hx) _ IH]; [done|].
  intros [Hp Hps]%Forall_cons.
  cbn [scan]. by rewrite (lenient_step _ _ Hr Hd Hx Hp), IH.
Qed.

Lemma scan_app h pre rest :
  (scan h pre).2 = None ->
  scan h (pre ++ rest)
  = ((scan h pre).1.1 ++ (scan h rest).1.1,
     (scan h pre).1.2 ++ (scan h rest).1.2,
     (scan h rest).2).
Proof.
  induction pre as [|item pre IH].
  { intros _. cbn. by destruct (scan h rest) as [[??]?]. }
  cbn [scan app]. destruct (step h item) as [l1 [e1|o]]; [done|].
  intros Hnone.
  assert ((scan h pre).2 = None) as Hpre
    by (by destruct (scan h pre) as [[??]?]).
  rewrite IH by done.
  destruct (scan h pre) as [[l2 os] oe], (scan h rest) as [[l3 os'] oe'].
  cbn [fst snd app]. by rewrite app_assoc.
Qed.

(** The run that stops at the first entry that raises: the entries before
    it are built and their warnings printed, then the exception leaves the
    call. *)
Lemma process_first_failure l d lv good bad rest s ls e :
  heap s !! l = Some (ODict d) ->
  dict_lookup "values" d = Some (VRef lv) ->
  heap s !! lv = Some (OList (good ++ bad :: rest)) ->
  Forall (entry_ok (heap s)) good ->
  Forall (printable (heap s)) good ->
  settled (heap s) bad ->
  step (heap s) bad = (ls, inl e) ->
  process_measurement_data (VRef l) s
  = (Raises e,
     mk_state
       (heap s ++
          [ODict [("key", from_option id VNone (dict_lookup "key" d))];
           OList (VRef <$> seq (length (heap s) + 3) (length good));
           OList []] ++ (normalized (heap s) <$> good))
       (stdout s ++ concat (warnings (heap s) <$> good) ++ ls)).
Proof.
  intros Hl Hvalues Hlv Hgood Hpr Hbad Hstep.
  assert (scan (heap s) good
          = (concat (warnings (heap s) <$> good), normalized (heap s) <$> good, None))
    as Hscan.
  { apply scan_lenient; [|done].
    eapply Forall_impl; [exact Hgood|]. apply entry_ok_lenient. }
  assert (scan (heap s) (good ++ [bad])
          = (concat (warnings (heap s) <$> good) ++ ls,
             normalized (heap s) <$> good, Some e)) as Hfail.
  { rewrite scan_app by (by rewrite Hscan). rewrite Hscan. cbn [scan fst snd].
    rewrite Hstep. cbn [fst snd]. by rewrite app_nil_r. }
  rewrite (process_scan l d lv (good ++ [bad]) rest s Hl Hvalues).
  - rewrite Hfail. cbn [fst snd]. by rewrite length_fmap.
  - by rewrite <- app_assoc.
  - apply Forall_app. split; [|by apply Forall_singleton].
    apply Forall_forall. intros item Hitem.
    pose proof (proj1 (Forall_forall _ _) Hgood _ Hitem) as Hok.
    pose proof (proj1 (Forall_forall _ _) Hpr _ Hitem) as Hp.
    apply entry_ok_lenient in Hok as (? & ? & _). by apply lenient_settled.
  - right. by rewrite Hfail.
Qed.

End MoreFacts.

Section EntryFacts.
Context {rt : Runtime}.

Lemma date_step_true_non_string h d :
  true_non_string d -> date_step h d = ([], inl TypeError).
Proof.
  unfold date_step. destruct d as [|[|]|n|f|str| |]; try done;
    cbn [truthy true_non_string datetime_strptime is_ValueError].
  - intros Hn. by rewrite (proj2 (Z.eqb_neq n 0) Hn).
  - by intros ->.
Qed.

End EntryFacts.

Section ResultFacts.
Context {rt : Runtime}.

(** Reading back the store that a returning call leaves. *)
Lemma read_result h key os outs :
  Forall2 (fun o p => o = ODict [("date", p.1); ("value", p.2)]) os outs ->
  read_series
    (h ++ [ODict [("key", key); ("values", VRef (S (length h)))];
           OList (VRef <$> seq (length h + 3) (length os));
           OList []] ++ os)
    (VRef (length h))
  = Some (key, outs).
Proof.
  intros Hos. unfold read_series.
  rewrite lookup_app_r, Nat.sub_diag by done.
  erewrite (lookup_app_l_Some [_; _; _] _ 0%nat) by reflexivity.
  cbv beta iota. rewrite bool_decide_eq_true_2 by done.
  change (dict_lookup "key" _) with (Some key).
  change (dict_lookup "values" _) with (Some (VRef (S (length h)))).
  cbn [mbind option_bind].
  rewrite lookup_app_r by lia. replace (S (length h) - length h)%nat with 1%nat by lia.
  erewrite (lookup_app_l_Some [_; _; _] _ 1%nat) by reflexivity.
  cbv beta iota.
  assert (mapM (read_entry (h ++ [ODict [("key", key); ("values", VRef (S (length h)))];
                                  OList (VRef <$> seq (length h + 3) (length os));
                                  OList []] ++ os))
            (VRef <$> seq (length h + 3) (length os))
          = Some outs) as ->; [|done].
  apply mapM_Some, Forall2_same_length_lookup. split.
  - rewrite length_fmap, length_seq. by eapply Forall2_length.
  - intros i v p Hv Hp. apply list_lookup_fmap_Some in Hv as (n & -> & Hn).
    apply lookup_seq in Hn as [-> Hi].
    destruct (Forall2_lookup_r _ _ _ _ _ Hos Hp) as (o & Ho & ->).
    unfold read_entry.
    rewrite lookup_app_r by lia. rewrite lookup_app_r by (cbn [length]; lia).
    cbn [length]. replace (length h + 3 + i - length h - 3)%nat with i by lia.
    rewrite Ho. by destruct p.
Qed.

Lemma normalized_normal_entry h items :
  Forall2 (fun o p => o = ODict [("date", p.1); ("value", p.2)])
          (normalized h <$> items) (normal_entry h <$> items).
Proof. apply Forall2_fmap, Forall_Forall2_diag, Forall_forall. by intros. Qed.

(** The run on a list of lenient records. *)
Lemma process_lenient l d lv items s :
  heap s !! l = Some (ODict d) ->
  dict_lookup "values" d = Some (VRef lv) ->
  heap s !! lv = Some (OList items) ->
  Forall (fun item => is_record (heap s) item /\
                      lenient_date (item_field (heap s) item "date") /\
                      value_ok (item_field (heap s) item "value") = true) items ->
  Forall (printable (heap s)) items ->
  process_measurement_data (VRef l) s
  = (Returns (VRef (length (heap s))),
     mk_state
       (heap s ++
          [ODict [("key", from_option id VNone (dict_lookup "key" d));
                  ("values", VRef (S (length (heap s))))];
           OList (VRef <$> seq (length (heap s) + 3) (length items));
           OList []] ++ (normalized (heap s) <$> items))
       (stdout s ++ concat (warnings (heap s) <$> items))).
Proof.
  intros Hl Hvalues Hlv Hok Hpr.
  rewrite (process_scan l d lv items [] s Hl Hvalues).
  - rewrite (scan_lenient _ _ Hok Hpr). cbn [fst snd]. by rewrite length_fmap.
  - by rewrite app_nil_r.
  - apply Forall_forall. intros item Hitem.
    destruct (proj1 (Forall_forall _ _) Hok _ Hitem) as (? & ? & _).
    pose proof (proj1 (Forall_forall _ _) Hpr _ Hitem). by apply lenient_settled.
  - by left.
Qed.

End ResultFacts.

Section AgainFacts.
Context {rt : Runtime}.

Lemma float_of_float x v : float_of x = inr v -> exists f, v = VFloat f.
Proof.
  destruct x as [|b|n|f|str| |]; cbn [float_of]; try done.
  - intros [= <-]. by eexists.
  - destruct (PyFloat.of_int n); [|done]. intros [= <-]. by eexists.
  - intros [= <-]. by eexists.
  - destruct (float_of_string str); [|done]. intros [= <-]. by eexists.
Qed.

Lemma parsed_value_cases x :
  parsed_value x = VNone \/ exists f, parsed_value x = VFloat f.
Proof.
  unfold parsed_value. destruct (float_of x) as [e|v] eqn:Hx; [by left|right].
  by apply float_of_float in Hx.
Qed.

Lemma parsed_date_cases d :
  parsed_date d = VNone \/ exists t, parsed_date d = VDatetime t.
Proof.
  unfold parsed_date. destruct d as [| | | |str| |]; try by left.
  case_bool_decide; [by left|]. cbn [datetime_strptime].
  destruct (strptime str _); [right; by eexists|by left].
Qed.

(** An entry of a result, read as a raw entry, when it has no timestamp. *)
Lemma processed_entry h1 h le item :
  h1 !! le = Some (normalized h item) ->
  parsed_date (item_field h item "date") = VNone ->
  entry_ok h1 (VRef le) /\
  normal_entry h1 (VRef le) = normal_entry h item /\
  warnings h1 (VRef le) = [].
Proof.
  intros Hle Hdate. unfold entry_ok, normal_entry, normalized, warnings in *.
  cbn [item_field]. rewrite Hle. cbn [dict_lookup].
  rewrite !bool_decide_eq_true_2, !bool_decide_eq_false_2 by done.
  cbn [from_option id]. rewrite Hdate.
  destruct (parsed_value_cases (item_field h item "value")) as [->|[f ->]].
  - split; [|done]. split; [by eexists _, _|done].
  - split; [|done]. split; [by eexists _, _|done].
Qed.

Lemma result_entry_lookup h (a b c : obj) items (i : nat) item :
  items !! i = Some item ->
  (h ++ [a; b; c] ++ (normalized h <$> items)) !! (length h + 3 + i)%nat
  = Some (normalized h item).
Proof.
  intros Hi. rewrite lookup_app_r by lia. rewrite lookup_app_r by (cbn [length]; lia).
  cbn [length]. replace (length h + 3 + i - length h - 3)%nat with i by lia.
  by rewrite list_lookup_fmap, Hi.
Qed.

(** The entries without a timestamp at the head of a result are
    well-formed raw entries that read as themselves. *)
Lemma processed_entries h (a b c : obj) good rest :
  Forall (fun item => parsed_date (item_field h item "date") = VNone) good ->
  let h1 := h ++ [a; b; c] ++ (normalized h <$> good ++ rest) in
  let refs := VRef <$> seq (length h + 3) (length good) in
  Forall (entry_ok h1) refs /\
  normal_entry h1 <$> refs = normal_entry h <$> good /\
  concat (warnings h1 <$> refs) = [] /\
  Forall (printable h1) refs.
Proof.
  intros Hgood h1 refs.
  assert (forall (i : nat) item, good !! i = Some item ->
            entry_ok h1 (VRef (length h + 3 + i)%nat) /\
            normal_entry h1 (VRef (length h + 3 + i)%nat) = normal_entry h item /\
            warnings h1 (VRef (length h + 3 + i)%nat) = []) as Hi.
  { intros i item Hitem. apply processed_entry.
    - apply result_entry_lookup. by apply lookup_app_l_Some.
    - by apply (proj1 (Forall_forall _ _) Hgood), list_elem_of_lookup_2 with i. }
  assert (Forall (printable h1) refs) as Hpr.
  { apply Forall_fmap, Forall_forall. intros n [Hge Hlt]%elem_of_seq.
    destruct (lookup_lt_is_Some_2 good (n - (length h + 3))) as [item Hitem]; [lia|].
    destruct (Hi _ _ Hitem) as (_ & _ & Hw).
    replace (length h + 3 + (n - (length h + 3)))%nat with n in Hw by lia.
    unfold printable, compose. by rewrite Hw. }
  split; [|split; [|split; [|done]]].
  - apply Forall_fmap, Forall_forall. intros n [Hge Hlt]%elem_of_seq.
    destruct (lookup_lt_is_Some_2 good (n - (length h + 3))) as [item Hitem]; [lia|].
    destruct (Hi _ _ Hitem) as (Hok & _).
    by replace (length h + 3 + (n - (length h + 3)))%nat with n in Hok by lia.
  - apply list_eq. intros i. subst refs. rewrite !list_lookup_fmap.
    destruct (good !! i) as [item|] eqn:Hitem.
    + rewrite (lookup_seq_lt _ _ _ (lookup_lt_Some _ _ _ Hitem)).
      cbn [fmap option_fmap option_map]. by destruct (Hi _ _ Hitem) as (_ & -> & _).
    + by rewrite (lookup_seq_ge _ _ _ (proj1 (lookup_ge_None _ _) Hitem)).
  - apply concat_nil_Forall, Forall_fmap, Forall_fmap, Forall_forall.
    intros n [Hge Hlt]%elem_of_seq.
    destruct (lookup_lt_is_Some_2 good (n - (length h + 3))) as [item Hitem]; [lia|].
    destruct (Hi _ _ Hitem) as (_ & _ & Hw).
    by replace (length h + 3 + (n - (length h + 3)))%nat with n in Hw by lia.
Qed.

Lemma normalized_of_normal_entry h h' (items items' : list val) :
  normal_entry h <$> items = normal_entry h' <$> items' ->
  normalized h <$> items = normalized h' <$> items'.
Proof.
  intros Heq.
  change (normalized h) with
    ((fun p : val * val => ODict [("date", p.1); ("value", p.2)]) ∘ normal_entry h).
  change (normalized h') with
    ((fun p : val * val => ODict [("date", p.1); ("value", p.2)]) ∘ normal_entry h').
  by rewrite !list_fmap_compose, Heq.
Qed.

Lemma settled_normalized h1 h (le : loc) item :
  h1 !! le = Some (normalized h item) -> settled h1 (VRef le).
Proof.
  intros Hle. apply (settled_record _ _ _ Hle).
  - cbn [dict_lookup]. rewrite bool_decide_eq_true_2 by done. cbn [from_option id].
    intros ld.
    by destruct (parsed_date_cases (item_field h item "date")) as [->|[t ->]].
  - right. cbn [dict_lookup]. rewrite bool_decide_eq_false_2 by done.
    rewrite bool_decide_eq_true_2 by done. cbn [from_option id]. intros lx.
    by destruct (parsed_value_cases (item_field h item "value")) as [->|[f ->]].
Qed.

(** An entry of a result that has a timestamp stops the loop. *)
Lemma step_normalized_datetime h1 h (le : loc) item t :
  h1 !! le = Some (normalized h item) ->
  parsed_date (item_field h item "date") = VDatetime t ->
  step h1 (VRef le) = ([], inl TypeError).
Proof.
  intros Hle Hdate. unfold step, entry_fields. rewrite Hle. unfold normalized.
  cbn [dict_lookup]. rewrite bool_decide_eq_true_2 by done.
  rewrite bool_decide_eq_false_2 by done. rewrite bool_decide_eq_true_2 by done.
  cbn [from_option id]. rewrite Hdate.
  by rewrite date_step_true_non_string.
Qed.

End AgainFacts.

Section TypedFacts.
Context {rt : Runtime}.

Lemma logged_typed h l ls v : logged h l = (ls, inr v) -> v = VNone.
Proof. unfold logged. destruct (write_failure h l); [done|]. by intros [= _ <-]. Qed.

Lemma date_step_typed h d ls pd :
  date_step h d = (ls, inr pd) -> datetime_or_none pd.
Proof.
  unfold date_step. destruct (truthy h d) as [e|[|]]; [done| |].
  - destruct d as [| | | |str| |]; cbn [datetime_strptime is_ValueError]; try done.
    destruct (strptime str _) as [t|].
    + intros [= _ <-]. right. by eexists.
    + intros ->%logged_typed. by left.
  - intros [= _ <-]. by left.
Qed.

Lemma value_step_typed h x ls px :
  value_step h x = (ls, inr px) -> float_or_none px.
Proof.
  unfold value_step. case_bool_decide; [|intros [= _ <-]; by left].
  destruct (float_of x) as [e|f] eqn:Hx.
  - destruct (is_ValueError_or_TypeError e); [|done].
    intros ->%logged_typed. by left.
  - intros [= _ <-]. right. by apply float_of_float in Hx.
Qed.

Lemma step_typed h item ls o : step h item = (ls, inr o) -> typed_entry o.
Proof.
  unfold step. destruct (entry_fields h item) as [e|[d x]]; [done|].
  destruct (date_step h d) as [l1 [e1|pd]] eqn:Hd; [done|].
  destruct (value_step h x) as [l2 [e2|px]] eqn:Hx; [done|].
  intros [= _ <-]. exists pd, px. split; [done|].
  split; [by eapply date_step_typed|by eapply value_step_typed].
Qed.

Lemma building_typed_reads_only h0 key {A} (m : M A) :
  reads_only m -> keeps (building_typed h0 key) m.
Proof. apply keeps_reads_only. Qed.

Lemma building_typed_alloc h0 key o : keeps (building_typed h0 key) (alloc o).
Proof.
  intros s (Hpre & Hpd & xs & Hpv & Hxs). cbn [alloc snd heap].
  split; [by apply prefix_app_r|]. split; [by apply lookup_app_l_Some|].
  exists xs. split; [by apply lookup_app_l_Some|].
  eapply Forall_impl; [done|]. intros x (le & o' & -> & Hle & Ho & Ht).
  exists le, o'. repeat split; [done| |done]. by apply lookup_app_l_Some.
Qed.

Lemma building_typed_loop_body h0 key item :
  keeps (building_typed h0 key) (loop_body (VRef (S (length h0))) item).
Proof.
  intros [h out] (Hpre & Hpd & xs & Hpv & Hxs). cbn [heap] in *.
  rewrite (loop_body_step h out _ xs item Hpv).
  destruct (step h item) as [ls [e|o]] eqn:Hstep; cbn [snd].
  { split; [done|]. split; [done|]. by exists xs. }
  assert (S (length h0) < length h)%nat by (by eapply lookup_lt_Some).
  apply step_typed in Hstep.
  split; [|split]; cbn [heap].
  - destruct Hpre as [ext ->]. rewrite <- app_assoc.
    rewrite insert_app_r_alt by lia. by eexists.
  - rewrite list_lookup_insert_ne by lia. by apply lookup_app_l_Some.
  - eexists. split.
    + apply list_lookup_insert_eq. rewrite length_app. lia.
    + apply Forall_app. split.
      * eapply Forall_impl; [done|]. intros x (le & o' & -> & Hle & Ho & Ht).
        exists le, o'. repeat split; [done| |done].
        rewrite list_lookup_insert_ne.
        { by apply lookup_app_l_Some. }
        intros <-. pose proof (eq_trans (eq_sym Ho) Hpv) as [= ->].
        by destruct Ht as (? & ? & ? & _).
      * apply Forall_singleton. exists (length h), o.
        repeat split; [| |done].
        { apply prefix_length in Hpre. lia. }
        rewrite list_lookup_insert_ne by lia.
        by rewrite lookup_app_r, Nat.sub_diag.
Qed.

Lemma building_typed_setitem h0 key s :
  building_typed h0 key s ->
  ensures (setitem (VRef (length h0)) "values" (VRef (S (length h0)));;
           mret (VRef (length h0))) s (built_typed h0).
Proof.
  intros (Hpre & Hpd & xs & Hpv & Hxs). unfold ensures.
  rewrite (bind_returns _ _ _ _ _ (setitem_dict _ _ _ _ _ Hpd)).
  cbn [mret M_ret fst snd heap stdout dict_set].
  rewrite bool_decide_eq_false_2 by done.
  assert (length h0 < length (heap s))%nat by (by eapply lookup_lt_Some).
  intros x [= <-]. split; [done|]. exists key, xs. cbn [heap].
  rewrite list_lookup_insert_eq by done.
  rewrite list_lookup_insert_ne by lia. repeat split; [done|].
  eapply Forall_impl; [done|]. intros x (le & o' & -> & Hle & Ho & Ht).
  exists le, o'. repeat split; [|done].
  rewrite list_lookup_insert_ne; [done|].
  intros <-. pose proof (eq_trans (eq_sym Ho) Hpd) as [= ->].
  by destruct Ht as (? & ? & ? & _).
Qed.

(** Past the validation gate, with the types of the entries. *)
Lemma process_past_gate_typed raw s :
  truth raw s = (Returns true, s) ->
  contains "values" raw s = (Returns true, s) ->
  built_typed (heap s) (process_measurement_data raw s).1
              (process_measurement_data raw s).2.
Proof.
  intros Ht Hc. unfold process_measurement_data.
  rewrite (bind_returns _ _ _ _ _ Ht), (bind_returns _ _ _ _ _ Hc).
  cbn [negb orb].
  assert (forall e s', built_typed (heap s) (Raises e) s') as Hraise by done.
  destruct (bind_reads_only (get raw "key")
    (fun key => processed_data ← alloc (ODict [("key", key)]);
                processed_values ← alloc (OList []);
                raw' ← attr_get raw;
                default ← alloc (OList []);
                values ← dict_get raw' "values" default;
                items ← iterate values;
                for_each items (loop_body processed_values);;
                setitem processed_data "values" processed_values;;
                mret processed_data) s (reads_only_get _ _))
    as [(key & _ & ->)|(e & ->)]; [|done].
  rewrite (bind_returns _ _ _ _ _ (alloc_ok _ _)).
  rewrite (bind_returns _ _ _ _ _ (alloc_ok _ _)). cbn [heap stdout].
  rewrite length_app. cbn [length]. rewrite Nat.add_1_r.
  set (I := building_typed (heap s) key).
  assert (I (mk_state ((heap s ++ [ODict [("key", key)]]) ++ [OList []]) (stdout s))).
  { repeat split; cbn [heap stdout].
    - rewrite <- app_assoc. by eexists.
    - rewrite <- app_assoc. by rewrite lookup_app_r, Nat.sub_diag.
    - exists []. split; [|done]. rewrite <- app_assoc.
      rewrite lookup_app_r by lia. by replace (S _ - _)%nat with 1%nat by lia. }
  apply (ensures_bind_keeps I);
    [apply keeps_reads_only, reads_only_attr_get|done| |done].
  intros raw' s1 H1. apply (ensures_bind_keeps I);
    [apply building_typed_alloc|done| |done].
  intros default s2 H2. apply (ensures_bind_keeps I);
    [apply keeps_reads_only, reads_only_dict_get|done| |done].
  intros values s3 H3. apply (ensures_bind_keeps I);
    [apply keeps_reads_only, reads_only_iterate|done| |done].
  intros items s4 H4. apply (ensures_bind_keeps I);
    [apply keeps_for_each; intros; apply building_typed_loop_body|done| |done].
  intros [] s5 H5. by apply (building_typed_setitem _ key).
Qed.

Lemma read_entry_fields h (le : loc) d v :
  h !! le = Some (ODict [("date", d); ("value", v)]) ->
  read_entry h (VRef le) = Some (d, v).
Proof. intros Hle. unfold read_entry. by rewrite Hle. Qed.

Lemma read_series_fields h (l lv : loc) key xs outs :
  h !! l = Some (ODict [("key", key); ("values", VRef lv)]) ->
  h !! lv = Some (OList xs) ->
  mapM (read_entry h) xs = Some outs ->
  read_series h (VRef l) = Some (key, outs).
Proof.
  intros Hl Hlv Hxs. unfold read_series. rewrite Hl. cbv beta iota.
  rewrite bool_decide_eq_true_2 by done.
  change (dict_lookup "key" _) with (Some key).
  change (dict_lookup "values" _) with (Some (VRef lv)).
  cbn [mbind option_bind]. rewrite Hlv. cbv beta iota. by rewrite Hxs.
Qed.

Lemma read_typed_entries h xs :
  Forall (fun x => exists le o, x = VRef le /\ h !! le = Some o /\ typed_entry o) xs ->
  exists outs, mapM (read_entry h) xs = Some outs /\
               Forall (fun p => datetime_or_none p.1 /\ float_or_none p.2) outs.
Proof.
  induction 1 as [|x xs (le & o & -> & Ho & d & v & -> & Hd & Hv) _ (outs & IH & Houts)].
  - by exists [].
  - exists ((d, v) :: outs). split; [|by apply Forall_cons_2].
    cbn [mapM]. rewrite (read_entry_fields _ _ _ _ Ho).
    cbn [mbind option_bind]. by rewrite IH.
Qed.

End TypedFacts.

Section ValuesFacts.
Context {rt : Runtime}.

(** The run on a dict that has a ['values'] key, up to the loop: the
    result dict, the result list and the default of [get] have been
    created and nothing has been printed. *)
Lemma process_to_iterate l d v s :
  heap s !! l = Some (ODict d) ->
  dict_lookup "values" d = Some v ->
  process_measurement_data (VRef l) s
  = (items ← iterate v;
     for_each items (loop_body (VRef (S (length (heap s)))));;
     setitem (VRef (length (heap s))) "values" (VRef (S (length (heap s))));;
     mret (VRef (length (heap s))))
      (mk_state
         (heap s ++ [ODict [("key", from_option id VNone (dict_lookup "key" d))];
                     OList []; OList []])
         (stdout s)).
Proof.
  intros Hl Hvalues.
  destruct s as [h out]. cbn [heap stdout] in *.
  unfold process_measurement_data.
  rewrite (bind_returns _ _ _ _ _ (truth_dict l d (mk_state h out) Hl)).
  assert (d <> []) as Hd by (by intros ->).
  rewrite bool_decide_eq_false_2 by done. cbn [negb].
  rewrite (bind_returns _ _ _ _ _ (contains_dict _ l d (mk_state h out) Hl)).
  rewrite Hvalues, bool_decide_eq_true_2 by done. cbn [negb orb].
  rewrite (bind_returns _ _ _ _ _ (get_dict l d _ (mk_state h out) Hl)).
  rewrite (bind_returns _ _ _ _ _ (alloc_ok _ _)). cbn [heap stdout].
  rewrite (bind_returns _ _ _ _ _ (alloc_ok _ _)). cbn [heap stdout].
  erewrite bind_returns; [|apply (attr_get_dict _ d); old_lookup].
  rewrite (bind_returns _ _ _ _ _ (alloc_ok _ _)). cbn [heap stdout].
  erewrite bind_returns; [|apply (dict_get_ok _ d); old_lookup].
  rewrite Hvalues. cbn [from_option id].
  rewrite !length_app. cbn [length]. rewrite <- !app_assoc. cbn [app].
  by replace (length h + 1)%nat with (S (length h)) by lia.
Qed.

(** What is not a list, a dict or a string cannot be iterated. *)
Lemma iterate_scalar v s :
  match v with VStr _ | VRef _ => False | _ => True end ->
  iterate v s = (Raises TypeError, s).
Proof. by destruct v. Qed.

(** A string is iterated by its characters, a dict by its keys: the
    elements are strings. *)
Lemma iterate_strings h v :
  (exists str, v = VStr str) \/
  (exists lv dv, v = VRef lv /\ h !! lv = Some (ODict dv)) ->
  exists strs, forall ext out,
    iterate v (mk_state (h ++ ext) out)
    = (Returns (VStr <$> strs), mk_state (h ++ ext) out) /\
    (strs = [] <->
     v = VStr "" \/ exists lv, v = VRef lv /\ h !! lv = Some (ODict [])).
Proof.
  intros [[str ->]|(lv & dv & -> & Hlv)].
  - exists ((fun c => String c "") <$> list_ascii_of_string str).
    intros ext out. split.
    + cbn [iterate mret M_ret]. unfold chars. by rewrite <- list_fmap_compose.
    + split.
      * intros Hnil. left. destruct str; [done|]. by cbn in Hnil.
      * intros [[= ->]|(? & ? & _)]; done.
  - exists (dv.*1). intros ext out. split.
    + unfold iterate.
      by rewrite (bind_returns _ _ _ _ _
                    (deref_ok lv (ODict dv) (mk_state (h ++ ext) out)
                       (lookup_app_l_Some _ _ _ _ Hlv))).
    + split.
      * intros Hnil. right. exists lv. split; [done|].
        destruct dv; [done|]. by cbn in Hnil.
      * intros [?|(lv' & [= <-] & Hlv')]; [done|].
        pose proof (eq_trans (eq_sym Hlv) Hlv') as [= ->]. done.
Qed.

End ValuesFacts.

Section GateFacts.
Context {rt : Runtime}.

(** Past the gate, what has no [get] stops the call before anything is
    created. *)
Lemma process_no_get raw s :
  truth raw s = (Returns true, s) ->
  contains "values" raw s = (Returns true, s) ->
  attr_get raw s = (Raises AttributeError, s) ->
  process_measurement_data raw s = (Raises AttributeError, s).
Proof.
  intros Ht Hc Hg. unfold process_measurement_data.
  rewrite (bind_returns _ _ _ _ _ Ht), (bind_returns _ _ _ _ _ Hc).
  cbn [negb orb]. apply bind_raises. unfold get. by apply bind_raises.
Qed.

Lemma truth_list l xs s :
  heap s !! l = Some (OList xs) ->
  truth (VRef l) s = (Returns (negb (bool_decide (xs = []))), s).
Proof.
  intros Hl. unfold truth. by rewrite (bind_returns _ _ _ _ _ (deref_ok _ _ _ Hl)).
Qed.

Lemma contains_list k l xs s :
  heap s !! l = Some (OList xs) ->
  contains k (VRef l) s = (Returns (bool_decide (VStr k ∈ xs)), s).
Proof.
  intros Hl. unfold contains.
  by rewrite (bind_returns _ _ _ _ _ (deref_ok _ _ _ Hl)).
Qed.

Lemma attr_get_list l xs s :
  heap s !! l = Some (OList xs) ->
  attr_get (VRef l) s = (Raises AttributeError, s).
Proof.
  intros Hl. unfold attr_get.
  by rewrite (bind_returns _ _ _ _ _ (deref_ok _ _ _ Hl)).
Qed.

End GateFacts.

Section DistinctFacts.
Context {rt : Runtime}.

Lemma building_distinct_alloc h0 o : keeps (building_distinct h0) (alloc o).
Proof.
  intros s (xs & Hpv & Hnd & Hxs). cbn [alloc snd heap].
  exists xs. split; [by apply lookup_app_l_Some|]. split; [done|].
  eapply Forall_impl; [done|]. intros x (le & -> & Hle).
  exists le. split; [done|]. cbn [heap]. rewrite length_app. lia.
Qed.

Lemma building_distinct_setitem h0 k x :
  keeps (building_distinct h0) (setitem (VRef (length h0)) k x).
Proof.
  intros s (xs & Hpv & Hnd & Hxs). unfold setitem, mbind, M_bind.
  pose proof (reads_only_deref (length h0) s) as Hs.
  destruct (deref (length h0) s) as [[[d|ys]|e] s1]; cbn [snd] in Hs; subst s1;
    [|by exists xs..].
  cbn [store snd heap]. exists xs.
  split; [etrans; [apply list_lookup_insert_ne; lia|done]|]. split; [done|].
  eapply Forall_impl; [done|]. intros y (le & -> & Hle).
  exists le. split; [done|]. cbn [heap]. by rewrite length_insert.
Qed.

Lemma building_distinct_loop_body h0 item :
  keeps (building_distinct h0) (loop_body (VRef (S (length h0))) item).
Proof.
  intros [h out] (xs & Hpv & Hnd & Hxs). cbn [heap] in *.
  rewrite (loop_body_step h out _ xs item Hpv).
  destruct (step h item) as [ls [e|o]]; cbn [snd]; [by exists xs|].
  assert (S (length h0) < length h)%nat by (by eapply lookup_lt_Some).
  eexists. cbn [heap]. split; [|split].
  - apply list_lookup_insert_eq. rewrite length_app. lia.
  - apply NoDup_app. split; [done|]. split; [|apply NoDup_singleton].
    intros x Hx ->%list_elem_of_singleton.
    destruct (proj1 (Forall_forall _ _) Hxs _ Hx) as (le & [= <-] & Hle). lia.
  - rewrite length_insert, length_app. cbn [length].
    apply Forall_app. split.
    + eapply Forall_impl; [done|]. intros x (le & -> & Hle).
      exists le. split; [done|lia].
    + apply Forall_singleton. exists (length h). split; [done|lia].
Qed.

(** Past the validation gate, the result list has no object twice. *)
Lemma process_distinct raw s x :
  truth raw s = (Returns true, s) ->
  contains "values" raw s = (Returns true, s) ->
  (process_measurement_data raw s).1 = Returns x ->
  building_distinct (heap s) (process_measurement_data raw s).2.
Proof.
  intros Ht Hc.
  set (Q := fun (r : outcome val) s' =>
              forall x, r = Returns x -> building_distinct (heap s) s').
  assert (ensures (process_measurement_data raw) s Q) as Hrun;
    [|by intros Hx; apply (Hrun x)].
  unfold ensures, process_measurement_data.
  rewrite (bind_returns _ _ _ _ _ Ht), (bind_returns _ _ _ _ _ Hc).
  cbn [negb orb].
  assert (forall e s', Q (Raises e) s') as Hraise by done.
  destruct (bind_reads_only (get raw "key")
    (fun key => processed_data ← alloc (ODict [("key", key)]);
                processed_values ← alloc (OList []);
                raw' ← attr_get raw;
                default ← alloc (OList []);
                values ← dict_get raw' "values" default;
                items ← iterate values;
                for_each items (loop_body processed_values);;
                setitem processed_data "values" processed_values;;
                mret processed_data) s (reads_only_get _ _))
    as [(key & _ & ->)|(e & ->)]; [|done].
  rewrite (bind_returns _ _ _ _ _ (alloc_ok _ _)).
  rewrite (bind_returns _ _ _ _ _ (alloc_ok _ _)). cbn [heap stdout].
  rewrite length_app. cbn [length]. rewrite Nat.add_1_r.
  set (I := building_distinct (heap s)).
  assert (I (mk_state ((heap s ++ [ODict [("key", key)]]) ++ [OList []]) (stdout s))).
  { exists []. cbn [heap]. split; [|split; [apply NoDup_nil_2|done]].
    rewrite <- app_assoc.
    rewrite lookup_app_r by lia. by replace (S _ - _)%nat with 1%nat by lia. }
  apply (ensures_bind_keeps I);
    [apply keeps_reads_only, reads_only_attr_get|done| |done].
  intros raw' s1 H1. apply (ensures_bind_keeps I);
    [apply building_distinct_alloc|done| |done].
  intros default s2 H2. apply (ensures_bind_keeps I);
    [apply keeps_reads_only, reads_only_dict_get|done| |done].
  intros values s3 H3. apply (ensures_bind_keeps I);
    [apply keeps_reads_only, reads_only_iterate|done| |done].
  intros items s4 H4. apply (ensures_bind_keeps I);
    [apply keeps_for_each; intros; apply building_distinct_loop_body|done| |done].
  intros [] s5 H5. apply (ensures_bind_keeps I);
    [apply building_distinct_setitem|done| |done].
  intros [] s6 H6 y _. exact H6.
Qed.

End DistinctFacts.

Section SeriesFacts.
Context {rt : Runtime}.

(** ** The run on a raw series, however it ends *)

Lemma immediate_not_ref v l : immediate v = true -> v <> VRef l.
Proof. by intros Hv ->. Qed.

Lemma entry_ok_settled h item :
  entry_ok h item -> immediate (item_field h item "value") = true ->
  settled h item.
Proof.
  intros ((l & e & -> & Hl) & Hd & _) Hx. cbn [item_field] in *. rewrite Hl in *.
  apply (settled_record _ _ _ Hl).
  - intros ld Hld. by rewrite Hld in Hd.
  - right. intros lx. by apply immediate_not_ref.
Qed.

Lemma scan_settled h ext items :
  Forall (settled h) items -> scan (h ++ ext) items = scan h items.
Proof.
  induction 1 as [|item items Hitem _ IH]; [done|].
  cbn [scan]. by rewrite (Hitem ext), IH.
Qed.

Lemma scan_typed h items : Forall typed_entry (scan h items).1.2.
Proof.
  induction items as [|item items IH]; [by apply Forall_nil_2|].
  cbn [scan]. destruct (step h item) as [ls [e|o]] eqn:Hstep;
    [by apply Forall_nil_2|].
  destruct (scan h items) as [[ls' os] oe]. cbn [fst snd] in *.
  apply Forall_cons_2; [by eapply step_typed|done].
Qed.

Lemma typed_entries_fields os :
  Forall typed_entry os ->
  exists outs : list (val * val),
    Forall2 (fun o p => o = ODict [("date", p.1); ("value", p.2)]) os outs.
Proof.
  induction 1 as [|o os (d & x & -> & _) _ (outs & IH)]; [by exists []|].
  exists ((d, x) :: outs). by apply Forall2_cons.
Qed.

(** Only the print of a warning can stop the loop on a well-formed entry
    whose value is no container, with [UnicodeEncodeError]. *)
Lemma logged_raises h (text : string) v ls e :
  immediate v = true ->
  logged h [Text text; Value v] = (ls, inl e) -> e = UnicodeEncodeError.
Proof.
  unfold logged, write_failure. destruct v as [| | | |str| |]; try done.
  cbn. destruct (Utf8.valid str); [done|]. by intros _ [= _ <-].
Qed.

Lemma entry_ok_raises h item ls e :
  entry_ok h item -> immediate (item_field h item "value") = true ->
  step h item = (ls, inl e) -> e = UnicodeEncodeError.
Proof.
  intros ((l & it & -> & Hl) & Hd & Hx) Him. unfold step.
  cbn [item_field entry_fields] in *. rewrite Hl in *.
  set (d := from_option id VNone (dict_lookup "date" it)) in *.
  set (x := from_option id VNone (dict_lookup "value" it)) in *.
  destruct (date_step h d) as [l1 [e1|pd]] eqn:Hds.
  { intros [= _ <-]. unfold date_step in Hds.
    destruct d as [| | | |str| |]; try done; cbn [truthy] in Hds.
    destruct (negb _); [|done]. cbn [datetime_strptime] in Hds.
    destruct (strptime str _); [done|]. cbn [is_ValueError] in Hds.
    by apply logged_raises in Hds. }
  destruct (value_step h x) as [l2 [e2|px]] eqn:Hvs; [|done].
  intros [= _ <-]. unfold value_step in Hvs.
  case_bool_decide; [|done].
  destruct (float_of x) as [e'|f] eqn:Hf; [|done].
  destruct (is_ValueError_or_TypeError e') eqn:He'.
  - by apply logged_raises in Hvs.
  - injection Hvs as _ <-.
    destruct x as [|b|n|f|str|t|lx]; cbn [float_of] in Hf;
      try discriminate Hf; try (injection Hf as <-; discriminate He').
    + cbn [value_ok] in Hx. destruct (PyFloat.of_int n); [done|].
      apply bool_decide_eq_true in Hx. by destruct Hx.
    + destruct (float_of_string str); [done|]. injection Hf as <-. discriminate He'.
Qed.

Lemma scan_raises h items e :
  Forall (entry_ok h) items ->
  Forall (fun item => immediate (item_field h item "value") = true) items ->
  (scan h items).2 = Some e -> e = UnicodeEncodeError.
Proof.
  induction 1 as [|item items Hok _ IH]; [done|].
  intros [Him Hims]%Forall_cons. cbn [scan].
  destruct (step h item) as [ls [e1|o]] eqn:Hstep.
  - intros [= <-]. by eapply entry_ok_raises.
  - destruct (scan h items) as [[ls' os] oe]. cbn [fst snd] in *. by apply IH.
Qed.

(** The run on a raw series whose values are no containers, in terms of
    the loop. *)
Lemma process_series raw key items s :
  raw_series (heap s) raw key items ->
  Forall (fun item => immediate (item_field (heap s) item "value") = true) items ->
  process_measurement_data raw s
  = (match (scan (heap s) items).2 with
     | None => Returns (VRef (length (heap s)))
     | Some e => Raises e
     end,
     mk_state
       (heap s ++
          [ODict (("key", key) ::
                  match (scan (heap s) items).2 with
                  | None => [("values", VRef (S (length (heap s))))]
                  | Some _ => []
                  end);
           OList (VRef <$> seq (length (heap s) + 3)
                               (length (scan (heap s) items).1.2));
           OList []] ++ (scan (heap s) items).1.2)
       (stdout s ++ (scan (heap s) items).1.1)).
Proof.
  intros (l & d & lv & -> & Hl & <- & Hvalues & Hlv & Hok) Him.
  apply (process_scan l d lv items [] s Hl Hvalues).
  - by rewrite app_nil_r.
  - apply Forall_forall. intros item Hitem. apply entry_ok_settled.
    + by apply (proj1 (Forall_forall _ _) Hok).
    + by apply (proj1 (Forall_forall _ _) Him).
  - by left.
Qed.

Lemma series_settled h raw key items :
  raw_series h raw key items ->
  Forall (fun item => immediate (item_field h item "value") = true) items ->
  Forall (settled h) items.
Proof.
  intros (l & d & lv & -> & Hl & <- & Hvalues & Hlv & Hok) Him.
  apply Forall_forall. intros item Hitem. apply entry_ok_settled.
  - by apply (proj1 (Forall_forall _ _) Hok).
  - by apply (proj1 (Forall_forall _ _) Him).
Qed.

End SeriesFacts.
(** * The claims *)

Import Examples.


(** The hypothesis [raw_series] on a sample store. *)
Ltac sample_series :=
  eexists _, _, _; split; [reflexivity|];
  repeat (split; [reflexivity|]);
  repeat (apply Forall_cons; split;
          [split; [eexists _, _; split; reflexivity|split; reflexivity]|]);
  apply Forall_nil_2.

(** The hypothesis that the warnings of a sample series can be written. *)
Ltac sample_printable :=
  repeat (apply Forall_cons_2; [reflexivity|]); apply Forall_nil_2.

(** C1 does not hold of [process_measurement_data]: the series [{"key":
    "PM10", "values": [{"date": "\ud800", "value": "1.5"}, {"date":
    "2024-01-01 10:00:00", "value": "2"}]}] is a raw series that passes the
    gate, yet the call returns no series.  [strptime] rejects the date of
    the first entry, the handler prints the warning, and that [print]
    raises [UnicodeEncodeError], for the date has no encoding; the
    exception leaves the call from inside the handler.  Nothing is printed
    and neither entry is returned. *)
Theorem unencodable_date_fails_the_series
    (net : string -> Z -> request_error + response) :
  let s := store_of unencodable_date in
  let raw := object_of unencodable_date in
  let res := process_measurement_data (rt := cpython net) raw s in
  raw_series (heap s) raw (VStr "PM10") [VRef 0%nat; VRef 1%nat] /\
  item_field (heap s) (VRef 0%nat) "date" = VStr lone_surrogate /\
  datetime_strptime (rt := cpython net) (VStr lone_surrogate) "%Y-%m-%d %H:%M:%S"
  = inl ValueError /\
  res.1 = Raises UnicodeEncodeError /\
  stdout res.2 = stdout s.
Proof. intros s raw res. split; [sample_series|]. by vm_compute. Qed.

(** C2 does not hold of [process_measurement_data]: a series whose
    ['values'] is [null] raises [TypeError] (the loop iterates over
    [None]), a series whose entries are not records raises
    [AttributeError] (an [int] has no [get]), and a date that is a number
    raises [TypeError] out of [strptime], which the conversion of the date
    does not catch although the conversion of the value does.  The store
    keeps the objects created before the exception. *)
Theorem malformed_series_raise {rt : Runtime} :
  let run j := (process_measurement_data (object_of j) (store_of j)).1 in
  run values_null = Raises TypeError /\
  run not_records = Raises AttributeError /\
  run numeric_date = Raises TypeError.
Proof. by vm_compute. Qed.

(** C3 does not hold of [process_measurement_data]: in the series [{"key":
    "PM10", "values": [{"date": "2024-01-01 10:00:00", "value": "\ud800"},
    {"date": "2024-01-01 11:00:00", "value": null}]}] the value of the
    first entry is present and [float] rejects it, yet no warning is
    printed and the series as a whole fails: the [print] of the warning
    raises [UnicodeEncodeError] inside the handler, and the exception
    leaves the call. *)
Theorem unencodable_value_fails_the_series
    (net : string -> Z -> request_error + response) :
  let s := store_of unencodable_value in
  let raw := object_of unencodable_value in
  let res := process_measurement_data (rt := cpython net) raw s in
  raw_series (heap s) raw (VStr "PM10") [VRef 0%nat; VRef 1%nat] /\
  item_field (heap s) (VRef 0%nat) "value" = VStr lone_surrogate /\
  float_of (rt := cpython net) (VStr lone_surrogate) = inl ValueError /\
  res.1 = Raises UnicodeEncodeError /\
  stdout res.2 = stdout s.
Proof. intros s raw res. split; [sample_series|]. by vm_compute. Qed.

(** C4, as stated, fails on the empty string: it is a date string that the
    format rejects, yet the call prints nothing, since the date is only
    parsed when it is not empty. *)
Lemma empty_date_string_is_not_warned :
  let raw := object_of empty_date in
  let s := store_of empty_date in
  let res := process_measurement_data (rt := cpython refused) raw s in
  item_field (heap s) (VRef 0%nat) "date" = VStr "" /\
  datetime_strptime (rt := cpython refused) (VStr "") "%Y-%m-%d %H:%M:%S"
  = inl ValueError /\
  read_series (heap res.2) (VRef 3%nat)
  = Some (VStr "PM10",
          [(VNone, VFloat float_12_5)]) /\
  res.1 = Returns (VRef 3%nat) /\
  stdout res.2 = [].
Proof. by vm_compute. Qed.

(** C4, amended.  For every entry of a raw series whose warnings can be
    written, whose date is a string, not empty, that [strptime] rejects for
    the format [%Y-%m-%d %H:%M:%S]: the warning about the date is printed
    and the entry's timestamp is absent; its value is what the conversion
    of the raw value gives, and the call returns the series with all its
    entries, each the normal form of its own raw entry. *)
Theorem malformed_date_is_warned {rt : Runtime}
    (raw key : val) (items : list val) (s : state) (i : nat) (item : val)
    (date_str : string) :
  raw_series (heap s) raw key items ->
  Forall (printable (heap s)) items ->
  items !! i = Some item ->
  item_field (heap s) item "date" = VStr date_str ->
  date_str <> "" ->
  strptime date_str "%Y-%m-%d %H:%M:%S" = None ->
  let res := process_measurement_data raw s in
  exists r outs,
    res.1 = Returns r /\
    read_series (heap res.2) r = Some (key, outs) /\
    length outs = length items /\
    (forall (j : nat) item', items !! j = Some item' ->
       outs !! j = Some (normal_entry (heap s) item')) /\
    outs !! i = Some (VNone, parsed_value (item_field (heap s) item "value")) /\
    stdout res.2 = stdout s ++ concat (warnings (heap s) <$> items) /\
    bad_date (VStr date_str) ∈ warnings (heap s) item.
Proof.
  intros Hraw Hpr Hi Hd Hne Hfail res.
  exists (VRef (length (heap s))), (normal_entry (heap s) <$> items).
  subst res. split; [by rewrite (process_raw_series _ _ _ _ Hraw Hpr)|].
  split; [by apply process_read_series|].
  split; [by rewrite length_fmap|].
  split; [by intros j item' Hj; rewrite list_lookup_fmap, Hj|].
  assert (datetime_strptime (VStr date_str) "%Y-%m-%d %H:%M:%S" = inl ValueError)
    as Hcall by (by cbn [datetime_strptime]; rewrite Hfail).
  split; [|split; [by rewrite (process_raw_series _ _ _ _ Hraw Hpr)|]].
  - rewrite list_lookup_fmap, Hi. cbn [fmap option_fmap option_map].
    unfold normal_entry, parsed_date.
    by rewrite Hd, bool_decide_eq_false_2, Hcall by done.
  - unfold warnings, date_warning.
    rewrite Hd, bool_decide_eq_false_2, Hcall by done.
    apply elem_of_app. left. by apply list_elem_of_singleton.
Qed.

Lemma malformed_date_is_warned_witness :
  let h := heap (store_of messy) in
  let items := [VRef 0%nat; VRef 1%nat; VRef 2%nat] in
  raw_series h (object_of messy) (VStr "PM10") items /\
  Forall (printable (rt := cpython refused) h) items /\
  items !! 0%nat = Some (VRef 0%nat) /\
  item_field h (VRef 0%nat) "date" = VStr "not-a-date" /\
  "not-a-date" <> "" /\
  Datetime.strptime "not-a-date" "%Y-%m-%d %H:%M:%S" = None /\
  let res := process_measurement_data (rt := cpython refused)
               (object_of messy) (store_of messy) in
  exists r outs,
    res.1 = Returns r /\
    read_series (heap res.2) r = Some (VStr "PM10", outs) /\
    length outs = 3%nat /\
    (forall (j : nat) item', items !! j = Some item' ->
       outs !! j = Some (normal_entry (rt := cpython refused) h item')) /\
    outs !! 0%nat
    = Some (VNone, parsed_value (rt := cpython refused)
                     (item_field h (VRef 0%nat) "value")) /\
    stdout res.2
    = stdout (store_of messy)
      ++ concat (warnings (rt := cpython refused) h <$> items) /\
    bad_date (VStr "not-a-date") ∈ warnings (rt := cpython refused) h (VRef 0%nat).
Proof.
  intros h items.
  assert (raw_series h (object_of messy) (VStr "PM10") items) as Hraw
    by sample_series.
  assert (Forall (printable (rt := cpython refused) h) items) as Hpr
    by sample_printable.
  assert ("not-a-date" <> "") as Hne by discriminate.
  split; [exact Hraw|]. split; [exact Hpr|].
  split; [reflexivity|]. split; [reflexivity|].
  split; [exact Hne|]. split; [reflexivity|].
  exact (malformed_date_is_warned (rt := cpython refused) _ _ _ _ 0%nat _
           "not-a-date" Hraw Hpr eq_refl eq_refl Hne eq_refl).
Defined.

(** C5. On an input that is [None] or a dict, [process_measurement_data]
    reports the invalid data and returns [None] exactly when the input is
    [None] or has no ['values'] key: then it prints the error line and
    returns [None], with the store as it was; otherwise it does not return
    [None] and does not print the error line.  On an input of any shape, a
    result [None] comes from this gate only, with the error line. *)
Theorem validation_gate {rt : Runtime} (raw : val) (s : state) :
  let res := process_measurement_data raw s in
  let rejected :=
    raw = VNone \/
    exists l d, raw = VRef l /\ heap s !! l = Some (ODict d) /\
                dict_lookup "values" d = None in
  (raw = VNone \/ (exists l d, raw = VRef l /\ heap s !! l = Some (ODict d)) ->
     (rejected -> res = (Returns VNone, emit s [invalid_data])) /\
     (~ rejected ->
        res.1 <> Returns VNone /\
        exists ws, stdout res.2 = stdout s ++ ws /\ invalid_data ∉ ws)) /\
  (res.1 = Returns VNone -> res = (Returns VNone, emit s [invalid_data])).
Proof.
  intros res rejected. subst res. split.
  - intros Hshape. split.
    + intros [->|(l & d & -> & Hl & Hvalues)]; apply process_rejected.
      * by left.
      * rewrite (truth_dict _ _ _ Hl), (contains_dict _ _ _ _ Hl), Hvalues.
        destruct d; [by left|right]. cbn [negb]. split; [done|].
        by rewrite bool_decide_eq_false_2 by (by intros [? [=]]).
    + intros Hpass. destruct Hshape as [->|(l & d & -> & Hl)].
      { destruct Hpass. by left. }
      destruct (dict_lookup "values" d) as [values|] eqn:Hvalues.
      2: { destruct Hpass. right. by exists l, d. }
      assert (d <> []) as Hd by (by intros ->).
      destruct (process_past_gate (VRef l) s) as (_ & (ws & Hout & Hws) & Hret).
      { by rewrite (truth_dict _ _ _ Hl), bool_decide_eq_false_2. }
      { by rewrite (contains_dict _ _ _ _ Hl), Hvalues, bool_decide_eq_true_2. }
      split.
      * intros Hnone. by destruct (Hret _ Hnone).
      * exists ws. split; [done|]. intros Hin.
        apply (proj1 (Forall_forall _ _) Hws) in Hin as [v [Hv|Hv]]; discriminate.
  - intros Hnone. destruct (process_cases raw s) as [H|[[e H]|(_ & _ & Hret)]].
    + done.
    + by rewrite H in Hnone.
    + by destruct (Hret _ Hnone).
Qed.

Lemma validation_gate_witness :
  let raw := object_of no_values in
  let s := store_of no_values in
  let res := process_measurement_data (rt := cpython refused) raw s in
  let rejected :=
    raw = VNone \/
    exists l d, raw = VRef l /\ heap s !! l = Some (ODict d) /\
                dict_lookup "values" d = None in
  (raw = VNone \/ exists l d, raw = VRef l /\ heap s !! l = Some (ODict d)) /\
  rejected /\
  res = (Returns VNone, emit s [invalid_data]).
Proof.
  intros raw s res rejected.
  assert (raw = VNone \/ exists l d, raw = VRef l /\ heap s !! l = Some (ODict d))
    as Hshape by (right; eexists _, _; split; reflexivity).
  assert rejected as Hrej
    by (right; eexists _, _; split; [|split]; reflexivity).
  split; [exact Hshape|]. split; [exact Hrej|].
  exact (proj1 (proj1 (validation_gate (rt := cpython refused) raw s) Hshape) Hrej).
Defined.

(** C6. In every store that holds the raw series
    [{"key": "PM10", "values": [{"date": "2024-01-01 10:00:00", "value":
    "12.5"}, {"date": "2024-01-01 11:00:00", "value": null}]}], the call
    returns a series with key [PM10] and exactly two entries: the timestamp
    2024-01-01 10:00:00 with the value 12.5 (the float [float_12_5]),
    then the timestamp 2024-01-01 11:00:00 with no value.  Nothing is
    printed. *)
Theorem pm10_example (net : string -> Z -> request_error + response)
    (s : state) (l lv l0 l1 : loc) :
  heap s !! l = Some (ODict [("key", VStr "PM10"); ("values", VRef lv)]) ->
  heap s !! lv = Some (OList [VRef l0; VRef l1]) ->
  heap s !! l0 = Some (ODict [("date", VStr "2024-01-01 10:00:00");
                              ("value", VStr "12.5")]) ->
  heap s !! l1 = Some (ODict [("date", VStr "2024-01-01 11:00:00");
                              ("value", VNone)]) ->
  let res := process_measurement_data (rt := cpython net) (VRef l) s in
  exists r,
    res.1 = Returns r /\
    read_series (heap res.2) r
    = Some (VStr "PM10",
            [(VDatetime (Datetime.mk_datetime 2024 1 1 10 0 0 0),
              VFloat float_12_5);
             (VDatetime (Datetime.mk_datetime 2024 1 1 11 0 0 0), VNone)]) /\
    stdout res.2 = stdout s.
Proof.
  intros Hl Hlv Hl0 Hl1 res.
  assert (raw_series (heap s) (VRef l) (VStr "PM10") [VRef l0; VRef l1])
    as Hraw.
  { eexists l, _, lv. repeat split; [done..|].
    repeat (apply Forall_cons; split); [| |by apply Forall_nil_2].
    - split; [by eexists _, _|]. cbn [item_field]. by rewrite Hl0.
    - split; [by eexists _, _|]. cbn [item_field]. by rewrite Hl1. }
  assert (Forall (printable (rt := cpython net) (heap s)) [VRef l0; VRef l1])
    as Hpr.
  { repeat (apply Forall_cons_2); [| |by apply Forall_nil_2];
      unfold printable, warnings; cbn [item_field]; rewrite ?Hl0, ?Hl1;
      by vm_compute. }
  exists (VRef (length (heap s))). subst res.
  rewrite (process_read_series (rt := cpython net) _ _ _ _ Hraw Hpr).
  rewrite (process_raw_series (rt := cpython net) _ _ _ _ Hraw Hpr).
  cbn [fst snd stdout fmap list_fmap concat]. unfold normal_entry, warnings.
  cbn [item_field]. rewrite Hl0, Hl1. split; [done|]. split.
  - by vm_compute.
  - cbn [from_option id dict_lookup].
    rewrite !bool_decide_eq_true_2, !bool_decide_eq_false_2 by done.
    by rewrite <- (app_nil_r (stdout s)) at 2.
Qed.

Lemma pm10_example_witness :
  let s := store_of pm10 in
  heap s !! 3%nat = Some (ODict [("key", VStr "PM10"); ("values", VRef 2%nat)]) /\
  heap s !! 2%nat = Some (OList [VRef 0%nat; VRef 1%nat]) /\
  heap s !! 0%nat = Some (ODict [("date", VStr "2024-01-01 10:00:00");
                                 ("value", VStr "12.5")]) /\
  heap s !! 1%nat = Some (ODict [("date", VStr "2024-01-01 11:00:00");
                                 ("value", VNone)]) /\
  object_of pm10 = VRef 3%nat /\
  let res := process_measurement_data (rt := cpython refused) (VRef 3%nat) s in
  exists r,
    res.1 = Returns r /\
    read_series (heap res.2) r
    = Some (VStr "PM10",
            [(VDatetime (Datetime.mk_datetime 2024 1 1 10 0 0 0),
              VFloat float_12_5);
             (VDatetime (Datetime.mk_datetime 2024 1 1 11 0 0 0), VNone)]) /\
    stdout res.2 = stdout s.
Proof.
  intros s. repeat (split; [reflexivity|]).
  exact (pm10_example refused s 3%nat 2%nat 0%nat 1%nat
           eq_refl eq_refl eq_refl eq_refl).
Defined.

(** C7. Two calls of [process_measurement_data] on the same raw series,
    one after the other, end in the same way and print the same lines.
    Either both return, two distinct objects that read as the same series;
    or both raise the same exception, [UnicodeEncodeError], at the first
    warning that cannot be written.  They return when every warning can be
    written.  The values of the series are strings, numbers or [None], not
    containers. *)
Theorem normalization_is_deterministic {rt : Runtime}
    (raw key : val) (items : list val) (s : state) :
  raw_series (heap s) raw key items ->
  Forall (fun item => immediate (item_field (heap s) item "value") = true) items ->
  let first := process_measurement_data raw s in
  let second := process_measurement_data raw first.2 in
  (exists lines,
     stdout first.2 = stdout s ++ lines /\
     stdout second.2 = stdout first.2 ++ lines) /\
  ((exists r1 r2 series,
      first.1 = Returns r1 /\
      second.1 = Returns r2 /\
      r1 <> r2 /\
      read_series (heap second.2) r1 = Some series /\
      read_series (heap second.2) r2 = Some series) \/
   (first.1 = Raises UnicodeEncodeError /\
    second.1 = Raises UnicodeEncodeError)) /\
  (Forall (printable (heap s)) items ->
   exists r1 r2, first.1 = Returns r1 /\ second.1 = Returns r2).
Proof.
  intros Hraw Him first second.
  pose proof (process_series _ _ _ _ Hraw Him) as H1. fold first in H1.
  pose proof (series_settled _ _ _ _ Hraw Him) as Hsettled.
  assert (exists ext, heap first.2 = heap s ++ ext) as [ext Hext].
  { rewrite H1. by eexists. }
  assert (raw_series (heap first.2) raw key items) as Hraw2.
  { rewrite Hext. by apply raw_series_app. }
  assert (Forall (fun item => immediate (item_field (heap first.2) item "value")
                              = true) items) as Him2.
  { destruct Hraw as (? & ? & ? & _ & _ & _ & _ & _ & Hok).
    apply Forall_forall. intros item Hitem. rewrite Hext, item_field_app.
    - by apply (proj1 (Forall_forall _ _) Him).
    - by apply (proj1 (Forall_forall _ _) Hok) in Hitem as [? _]. }
  pose proof (process_series _ _ _ _ Hraw2 Him2) as H2. fold second in H2.
  assert (scan (heap first.2) items = scan (heap s) items) as Hscan.
  { rewrite Hext. by apply scan_settled. }
  rewrite Hscan in H2.
  pose proof (scan_typed (heap s) items) as Htyped.
  pose proof (scan_raises (heap s) items) as Hraises.
  destruct (scan (heap s) items) as [[ls os] oe] eqn:Hsc. cbn [fst snd] in *.
  split; [|split].
  - exists ls. by rewrite H2, H1.
  - destruct oe as [e|].
    + right. rewrite H1, H2. cbn [fst].
      destruct Hraw as (? & ? & ? & _ & _ & _ & _ & _ & Hok).
      by rewrite (Hraises e Hok Him eq_refl).
    + left. destruct (typed_entries_fields _ Htyped) as (outs & Houts).
      exists (VRef (length (heap s))), (VRef (length (heap first.2))), (key, outs).
      split; [by rewrite H1|]. split; [by rewrite H2|].
      split. { rewrite H1. cbn [snd heap]. rewrite length_app. cbn [length app].
               intros [=]. lia. }
      split.
      * rewrite H2. cbn [snd heap]. apply read_series_app.
        rewrite H1. cbn [snd heap]. by apply read_result.
      * rewrite H2. cbn [snd heap]. by apply read_result.
  - intros Hpr.
    assert (oe = None) as ->.
    { destruct Hraw as (? & ? & ? & _ & _ & _ & _ & _ & Hok).
      assert (scan (heap s) items
              = (concat (warnings (heap s) <$> items),
                 normalized (heap s) <$> items, None)) as Hall.
      { apply scan_lenient; [|done].
        eapply Forall_impl; [exact Hok|]. apply entry_ok_lenient. }
      rewrite Hsc in Hall. by injection Hall. }
    exists (VRef (length (heap s))), (VRef (length (heap first.2))).
    by rewrite H2, H1.
Qed.

Lemma normalization_is_deterministic_witness :
  let items := [VRef 0%nat; VRef 1%nat; VRef 2%nat] in
  let s := store_of messy in
  raw_series (heap s) (object_of messy) (VStr "PM10") items /\
  Forall (fun item => immediate (item_field (heap s) item "value") = true) items /\
  Forall (printable (rt := cpython refused) (heap s)) items /\
  let first := process_measurement_data (rt := cpython refused)
                 (object_of messy) s in
  let second := process_measurement_data (rt := cpython refused)
                  (object_of messy) first.2 in
  (exists lines,
     stdout first.2 = stdout s ++ lines /\
     stdout second.2 = stdout first.2 ++ lines) /\
  ((exists r1 r2 series,
      first.1 = Returns r1 /\
      second.1 = Returns r2 /\
      r1 <> r2 /\
      read_series (heap second.2) r1 = Some series /\
      read_series (heap second.2) r2 = Some series) \/
   (first.1 = Raises UnicodeEncodeError /\
    second.1 = Raises UnicodeEncodeError)) /\
  exists r1 r2, first.1 = Returns r1 /\ second.1 = Returns r2.
Proof.
  intros items s.
  assert (raw_series (heap s) (object_of messy) (VStr "PM10") items)
    as Hraw by sample_series.
  assert (Forall (fun item => immediate (item_field (heap s) item "value") = true)
                 items) as Him by sample_printable.
  assert (Forall (printable (rt := cpython refused) (heap s)) items) as Hpr
    by sample_printable.
  split; [exact Hraw|]. split; [exact Him|]. split; [exact Hpr|].
  destruct (normalization_is_deterministic (rt := cpython refused)
              _ _ _ _ Hraw Him) as (Hlines & Hsame & Hret).
  split; [exact Hlines|]. split; [exact Hsame|]. exact (Hret Hpr).
Defined.



(** C9 does not hold of [process_measurement_data]: in the series [{"key":
    "PM10", "values": [{"date": "\ud800", "value": null}, {"date": "",
    "value": "1"}]}] the date of the first entry is a string, not empty,
    that [strptime] rejects, and it is not warned about: the [print] of
    its warning raises [UnicodeEncodeError] inside the handler and the
    exception leaves the call, so that nothing is printed and the second
    entry, whose date is the empty string, gets no timestamp field at
    all. *)
Theorem unencodable_date_is_not_warned
    (net : string -> Z -> request_error + response) :
  let s := store_of unencodable_then_empty in
  let raw := object_of unencodable_then_empty in
  let res := process_measurement_data (rt := cpython net) raw s in
  raw_series (heap s) raw (VStr "PM10") [VRef 0%nat; VRef 1%nat] /\
  item_field (heap s) (VRef 0%nat) "date" = VStr lone_surrogate /\
  lone_surrogate <> "" /\
  strptime (Runtime := cpython net) lone_surrogate "%Y-%m-%d %H:%M:%S" = None /\
  item_field (heap s) (VRef 1%nat) "date" = VStr "" /\
  res.1 = Raises UnicodeEncodeError /\
  stdout res.2 = stdout s.
Proof. intros s raw res. split; [sample_series|]. by vm_compute. Qed.

(** C10 does not hold of [process_measurement_data]: on the series [{"key":
    "PM10", "values": [{"date": "2024-01-01 10:00:00", "value": "12.5"},
    {"date": "\ud800", "value": null}]}] the call returns no structure.
    The entry of the first raw entry is built, then the [print] of the
    warning about the second date raises [UnicodeEncodeError] inside the
    handler and the exception leaves the call.  The input is as it was:
    the store of the caller is only extended, by the result dict without
    its ['values'], the result list, the default of [get] and the one
    entry built. *)
Theorem unencodable_series_gets_no_result
    (net : string -> Z -> request_error + response) :
  let s := store_of unencodable_last in
  let raw := object_of unencodable_last in
  let res := process_measurement_data (rt := cpython net) raw s in
  raw_series (heap s) raw (VStr "PM10") [VRef 0%nat; VRef 1%nat] /\
  res.1 = Raises UnicodeEncodeError /\
  heap res.2
  = heap s ++ [ODict [("key", VStr "PM10")]; OList [VRef 7%nat]; OList [];
               ODict [("date", VDatetime (Datetime.mk_datetime 2024 1 1 10 0 0 0));
                      ("value", VFloat float_12_5)]] /\
  raw_series (heap res.2) raw (VStr "PM10") [VRef 0%nat; VRef 1%nat].
Proof.
  intros s raw res. split; [sample_series|].
  split; [by vm_compute|]. split; [by vm_compute|]. sample_series.
Qed.

(** * Further properties *)


(** X1. When the ['values'] list holds an element that is not a dict, after
    well-formed entries whose warnings can be written, the call raises
    [AttributeError] at that element: the warnings of the entries before it
    have been printed, nothing is printed for the entries after it, and the
    store of the caller is only extended. *)
Theorem entry_that_is_not_a_record {rt : Runtime}
    (l lv : loc) (d : list (string * val)) (good : list val) (bad : val)
    (rest : list val) (s : state) :
  heap s !! l = Some (ODict d) ->
  dict_lookup "values" d = Some (VRef lv) ->
  heap s !! lv = Some (OList (good ++ bad :: rest)) ->
  Forall (entry_ok (heap s)) good ->
  Forall (printable (heap s)) good ->
  ((forall l', bad <> VRef l') \/
   exists l' xs, bad = VRef l' /\ heap s !! l' = Some (OList xs)) ->
  let res := process_measurement_data (VRef l) s in
  res.1 = Raises AttributeError /\
  stdout res.2 = stdout s ++ concat (warnings (heap s) <$> good) /\
  exists ext, heap res.2 = heap s ++ ext.
Proof.
  intros Hl Hvalues Hlv Hgood Hpr Hbad res. subst res.
  rewrite (process_first_failure l d lv good bad rest s [] AttributeError);
    try done.
  - cbn [fst snd stdout heap]. rewrite app_nil_r. by eauto.
  - destruct Hbad as [Hbad|(l' & xs & -> & Hl')].
    + by apply settled_immediate.
    + by apply (settled_list _ _ xs).
  - unfold step, entry_fields. destruct Hbad as [Hbad|(l' & xs & -> & Hl')].
    + destruct bad; try done. by destruct (Hbad l0).
    + by rewrite Hl'.
Qed.

Lemma entry_that_is_not_a_record_witness :
  let s := store_of broken_in_the_middle in
  heap s !! 3%nat
  = Some (ODict [("key", VStr "PM10"); ("values", VRef 2%nat)]) /\
  dict_lookup "values" [("key", VStr "PM10"); ("values", VRef 2%nat)]
  = Some (VRef 2%nat) /\
  heap s !! 2%nat = Some (OList ([VRef 0%nat] ++ VInt 5 :: [VRef 1%nat])) /\
  Forall (entry_ok (heap s)) [VRef 0%nat] /\
  Forall (printable (rt := cpython refused) (heap s)) [VRef 0%nat] /\
  ((forall l', VInt 5 <> VRef l') \/
   exists l' xs, VInt 5 = VRef l' /\ heap s !! l' = Some (OList xs)) /\
  let res := process_measurement_data (rt := cpython refused) (VRef 3%nat) s in
  res.1 = Raises AttributeError /\
  stdout res.2
  = stdout s ++ concat (warnings (rt := cpython refused) (heap s) <$> [VRef 0%nat]) /\
  exists ext, heap res.2 = heap s ++ ext.
Proof.
  intros s.
  assert (Forall (entry_ok (heap s)) [VRef 0%nat]) as Hgood.
  { apply Forall_singleton.
    split; [eexists _, _; split; reflexivity|split; reflexivity]. }
  assert ((forall l', VInt 5 <> VRef l') \/
          exists l' xs, VInt 5 = VRef l' /\ heap s !! l' = Some (OList xs))
    as Hbad by (left; discriminate).
  assert (Forall (printable (rt := cpython refused) (heap s)) [VRef 0%nat])
    as Hpr by sample_printable.
  split; [reflexivity|]. split; [reflexivity|]. split; [reflexivity|].
  split; [exact Hgood|]. split; [exact Hpr|]. split; [exact Hbad|].
  exact (entry_that_is_not_a_record (rt := cpython refused) 3%nat 2%nat _
           [VRef 0%nat] (VInt 5) [VRef 1%nat] s eq_refl eq_refl eq_refl Hgood
           Hpr Hbad).
Defined.


(** X2. An entry whose value is an [int] too large for a [float] ends the
    call with [OverflowError], which the conversion of the value does not
    catch: the warnings of the entries before it and the warning about its
    own date, if any, have been printed.  The warnings up to there are
    taken to be such that they can be written. *)
Theorem integer_value_beyond_the_floats {rt : Runtime}
    (l lv lb : loc) (d e : list (string * val)) (good rest : list val)
    (n : Z) (s : state) :
  heap s !! l = Some (ODict d) ->
  dict_lookup "values" d = Some (VRef lv) ->
  heap s !! lv = Some (OList (good ++ VRef lb :: rest)) ->
  Forall (entry_ok (heap s)) good ->
  Forall (printable (heap s)) good ->
  heap s !! lb = Some (ODict e) ->
  date_ok (from_option id VNone (dict_lookup "date" e)) = true ->
  forallb printable_line
    (date_warning (from_option id VNone (dict_lookup "date" e))) = true ->
  dict_lookup "value" e = Some (VInt n) ->
  PyFloat.of_int n = None ->
  let res := process_measurement_data (VRef l) s in
  res.1 = Raises OverflowError /\
  stdout res.2
  = stdout s ++ concat (warnings (heap s) <$> good)
      ++ date_warning (from_option id VNone (dict_lookup "date" e)) /\
  exists ext, heap res.2 = heap s ++ ext.
Proof.
  intros Hl Hvalues Hlv Hgood Hpr Hlb Hdate Hpd Hvalue Hn res. subst res.
  set (date := from_option id VNone (dict_lookup "date" e)) in *.
  rewrite (process_first_failure l d lv good (VRef lb) rest s
             (date_warning date) OverflowError); try done.
  - cbn [fst snd stdout heap]. by eauto.
  - apply (settled_record _ _ _ Hlb).
    + fold date. intros ld Hld. by rewrite Hld in Hdate.
    + right. by rewrite Hvalue.
  - unfold step, entry_fields. rewrite Hlb. fold date.
    rewrite date_step_lenient by (done || by destruct date).
    rewrite Hvalue. cbn [from_option id]. unfold value_step.
    rewrite bool_decide_eq_true_2 by done. cbn [float_of]. rewrite Hn.
    cbn [is_ValueError_or_TypeError]. by rewrite app_nil_r.
Qed.

Lemma integer_value_beyond_the_floats_witness :
  let s := store_of too_large in
  let e := [("date", VStr "not-a-date"); ("value", VInt (10 ^ 400))] in
  heap s !! 2%nat
  = Some (ODict [("key", VStr "PM10"); ("values", VRef 1%nat)]) /\
  dict_lookup "values" [("key", VStr "PM10"); ("values", VRef 1%nat)]
  = Some (VRef 1%nat) /\
  heap s !! 1%nat = Some (OList ([] ++ VRef 0%nat :: [])) /\
  Forall (entry_ok (heap s)) [] /\
  heap s !! 0%nat = Some (ODict e) /\
  date_ok (from_option id VNone (dict_lookup "date" e)) = true /\
  forallb printable_line
    (date_warning (rt := cpython refused)
       (from_option id VNone (dict_lookup "date" e))) = true /\
  dict_lookup "value" e = Some (VInt (10 ^ 400)) /\
  PyFloat.of_int (10 ^ 400) = None /\
  let res := process_measurement_data (rt := cpython refused) (VRef 2%nat) s in
  res.1 = Raises OverflowError /\
  stdout res.2
  = stdout s ++ concat (warnings (rt := cpython refused) (heap s) <$> [])
      ++ date_warning (rt := cpython refused)
           (from_option id VNone (dict_lookup "date" e)) /\
  exists ext, heap res.2 = heap s ++ ext.
Proof.
  intros s e.
  assert (PyFloat.of_int (10 ^ 400) = None) as Hn by (by vm_compute).
  assert (Forall (entry_ok (heap s)) []) as Hgood by apply Forall_nil_2.
  assert (Forall (printable (rt := cpython refused) (heap s)) []) as Hpr
    by apply Forall_nil_2.
  do 3 (split; [reflexivity|]). split; [exact Hgood|].
  do 4 (split; [reflexivity|]). split; [exact Hn|].
  exact (integer_value_beyond_the_floats (rt := cpython refused) 2%nat 1%nat 0%nat
           _ e [] [] (10 ^ 400) s eq_refl eq_refl eq_refl Hgood Hpr eq_refl
           eq_refl eq_refl eq_refl Hn).
Defined.

(** X3. An entry whose date is not a string and counts as true (a number
    other than zero, [True], a [datetime]) ends the call with [TypeError]:
    [strptime] raises it and only [ValueError] is caught for the date,
    whereas the same [TypeError] is caught for the value.  Nothing is
    printed for the entry; the warnings of the entries before it, which are
    taken to be such that they can be written, have been printed. *)
Theorem date_that_is_not_a_string {rt : Runtime}
    (l lv lb : loc) (d e : list (string * val)) (good rest : list val)
    (s : state) :
  heap s !! l = Some (ODict d) ->
  dict_lookup "values" d = Some (VRef lv) ->
  heap s !! lv = Some (OList (good ++ VRef lb :: rest)) ->
  Forall (entry_ok (heap s)) good ->
  Forall (printable (heap s)) good ->
  heap s !! lb = Some (ODict e) ->
  true_non_string (from_option id VNone (dict_lookup "date" e)) ->
  let res := process_measurement_data (VRef l) s in
  res.1 = Raises TypeError /\
  stdout res.2 = stdout s ++ concat (warnings (heap s) <$> good) /\
  exists ext, heap res.2 = heap s ++ ext.
Proof.
  intros Hl Hvalues Hlv Hgood Hpr Hlb Hdate res. subst res.
  set (date := from_option id VNone (dict_lookup "date" e)) in *.
  rewrite (process_first_failure l d lv good (VRef lb) rest s [] TypeError);
    try done.
  - cbn [fst snd stdout heap]. rewrite app_nil_r. by eauto.
  - apply (settled_record _ _ _ Hlb).
    + fold date. intros ld Hld. by rewrite Hld in Hdate.
    + left. eexists _, _. by apply date_step_true_non_string.
  - unfold step, entry_fields. rewrite Hlb. fold date.
    by rewrite date_step_true_non_string.
Qed.

Lemma date_that_is_not_a_string_witness :
  let s := store_of numeric_date in
  let e := [("date", VInt 20240101); ("value", VStr "1")] in
  heap s !! 2%nat
  = Some (ODict [("key", VStr "PM10"); ("values", VRef 1%nat)]) /\
  dict_lookup "values" [("key", VStr "PM10"); ("values", VRef 1%nat)]
  = Some (VRef 1%nat) /\
  heap s !! 1%nat = Some (OList ([] ++ VRef 0%nat :: [])) /\
  Forall (entry_ok (heap s)) [] /\
  Forall (printable (rt := cpython refused) (heap s)) [] /\
  heap s !! 0%nat = Some (ODict e) /\
  true_non_string (from_option id VNone (dict_lookup "date" e)) /\
  let res := process_measurement_data (rt := cpython refused) (VRef 2%nat) s in
  res.1 = Raises TypeError /\
  stdout res.2
  = stdout s ++ concat (warnings (rt := cpython refused) (heap s) <$> []) /\
  exists ext, heap res.2 = heap s ++ ext.
Proof.
  intros s e.
  assert (Forall (entry_ok (heap s)) []) as Hgood by apply Forall_nil_2.
  assert (true_non_string (from_option id VNone (dict_lookup "date" e))) as Hdate
    by discriminate.
  assert (Forall (printable (rt := cpython refused) (heap s)) []) as Hpr
    by apply Forall_nil_2.
  do 3 (split; [reflexivity|]). split; [exact Hgood|]. split; [exact Hpr|].
  split; [reflexivity|]. split; [exact Hdate|].
  exact (date_that_is_not_a_string (rt := cpython refused) 2%nat 1%nat 0%nat
           _ e [] [] s eq_refl eq_refl eq_refl Hgood Hpr eq_refl Hdate).
Defined.


(** X4. A date that is not a string but counts as false ([0], [0.0],
    [False]) is taken like a missing date: in a list of records whose dates
    are strings, [None] or such values, and whose warnings can be written,
    the entry gets no timestamp, no warning about a date is printed for
    it, its value is converted as usual and the call returns every
    entry. *)
Theorem false_date_is_absent {rt : Runtime}
    (l lv : loc) (d : list (string * val)) (items : list val) (s : state)
    (i : nat) (item : val) :
  heap s !! l = Some (ODict d) ->
  dict_lookup "values" d = Some (VRef lv) ->
  heap s !! lv = Some (OList items) ->
  Forall (fun item => is_record (heap s) item /\
                      lenient_date (item_field (heap s) item "date") /\
                      value_ok (item_field (heap s) item "value") = true) items ->
  Forall (printable (heap s)) items ->
  items !! i = Some item ->
  (forall str, item_field (heap s) item "date" <> VStr str) ->
  let res := process_measurement_data (VRef l) s in
  exists r outs,
    res.1 = Returns r /\
    read_series (heap res.2) r
    = Some (from_option id VNone (dict_lookup "key" d), outs) /\
    length outs = length items /\
    outs !! i = Some (VNone, parsed_value (item_field (heap s) item "value")) /\
    stdout res.2 = stdout s ++ concat (warnings (heap s) <$> items) /\
    forall v, bad_date v ∉ warnings (heap s) item.
Proof.
  intros Hl Hvalues Hlv Hok Hpr Hi Hdate res. subst res.
  rewrite (process_lenient l d lv items s Hl Hvalues Hlv Hok Hpr).
  cbn [fst snd heap stdout].
  exists (VRef (length (heap s))), (normal_entry (heap s) <$> items).
  split; [done|]. split.
  { rewrite <- (length_fmap (normalized (heap s)) items).
    apply read_result, normalized_normal_entry. }
  split; [by rewrite length_fmap|].
  assert (parsed_date (item_field (heap s) item "date") = VNone /\
          date_warning (item_field (heap s) item "date") = []) as [Hpd Hdw].
  { destruct (item_field (heap s) item "date"); try done. by destruct (Hdate s0). }
  split; [|split; [done|]].
  - rewrite list_lookup_fmap, Hi. unfold normal_entry. cbn [fmap option_fmap option_map].
    by rewrite Hpd.
  - unfold warnings. rewrite Hdw. cbn [app]. intros v Hv.
    by apply warning_of_value in Hv.
Qed.

Lemma false_date_is_absent_witness :
  let s := store_of false_dates in
  let items := [VRef 0%nat; VRef 1%nat] in
  let d := [("key", VStr "PM10"); ("values", VRef 2%nat)] in
  heap s !! 3%nat = Some (ODict d) /\
  dict_lookup "values" d = Some (VRef 2%nat) /\
  heap s !! 2%nat = Some (OList items) /\
  Forall (fun item => is_record (heap s) item /\
                      lenient_date (item_field (heap s) item "date") /\
                      value_ok (item_field (heap s) item "value") = true) items /\
  Forall (printable (rt := cpython refused) (heap s)) items /\
  items !! 0%nat = Some (VRef 0%nat) /\
  (forall str, item_field (heap s) (VRef 0%nat) "date" <> VStr str) /\
  let res := process_measurement_data (rt := cpython refused) (VRef 3%nat) s in
  exists r outs,
    res.1 = Returns r /\
    read_series (heap res.2) r
    = Some (from_option id VNone (dict_lookup "key" d), outs) /\
    length outs = length items /\
    outs !! 0%nat
    = Some (VNone, parsed_value (rt := cpython refused)
                     (item_field (heap s) (VRef 0%nat) "value")) /\
    stdout res.2
    = stdout s ++ concat (warnings (rt := cpython refused) (heap s) <$> items) /\
    forall v, bad_date v ∉ warnings (rt := cpython refused) (heap s) (VRef 0%nat).
Proof.
  intros s items d.
  assert (Forall (fun item => is_record (heap s) item /\
                      lenient_date (item_field (heap s) item "date") /\
                      value_ok (item_field (heap s) item "value") = true) items)
    as Hok.
  { repeat (apply Forall_cons; split;
            [split; [eexists _, _; split; reflexivity|split; reflexivity]|]).
    apply Forall_nil_2. }
  assert (forall str, item_field (heap s) (VRef 0%nat) "date" <> VStr str) as Hdate
    by discriminate.
  assert (Forall (printable (rt := cpython refused) (heap s)) items) as Hpr
    by sample_printable.
  do 3 (split; [reflexivity|]). split; [exact Hok|]. split; [exact Hpr|].
  split; [reflexivity|]. split; [exact Hdate|].
  exact (false_date_is_absent (rt := cpython refused) 3%nat 2%nat d items s
           0%nat (VRef 0%nat) eq_refl eq_refl eq_refl Hok Hpr eq_refl Hdate).
Defined.

(** X5. A value that is already a number is kept, without a warning: in a
    raw series whose warnings can be written, a float goes through
    unchanged, an [int] within the range of the floats becomes the nearest
    float, and a boolean becomes [1.0] or [0.0]. *)
Theorem numeric_value_is_kept {rt : Runtime}
    (raw key : val) (items : list val) (s : state) (i : nat) (item : val) :
  raw_series (heap s) raw key items ->
  Forall (printable (heap s)) items ->
  items !! i = Some item ->
  let x := item_field (heap s) item "value" in
  let res := process_measurement_data raw s in
  exists r outs d x',
    res.1 = Returns r /\
    read_series (heap res.2) r = Some (key, outs) /\
    outs !! i = Some (d, x') /\
    stdout res.2 = stdout s ++ concat (warnings (heap s) <$> items) /\
    (forall f, x = VFloat f -> x' = VFloat f) /\
    (forall n f, x = VInt n -> PyFloat.of_int n = Some f -> x' = VFloat f) /\
    (forall b, x = VBool b -> x' = VFloat (PyFloat.of_bool b)) /\
    ((exists f, x = VFloat f) \/ (exists n, x = VInt n) \/ (exists b, x = VBool b) ->
     forall v, bad_value v ∉ warnings (heap s) item).
Proof.
  intros Hraw Hpr Hi x res.
  exists (VRef (length (heap s))), (normal_entry (heap s) <$> items),
         (normal_entry (heap s) item).1, (normal_entry (heap s) item).2.
  subst res. split; [by rewrite (process_raw_series _ _ _ _ Hraw Hpr)|].
  split; [by apply process_read_series|].
  split; [rewrite list_lookup_fmap, Hi; reflexivity|].
  split; [by rewrite (process_raw_series _ _ _ _ Hraw Hpr)|].
  unfold warnings, normal_entry. fold x. cbn [snd].
  split; [by intros f ->|]. split.
  { intros n f -> Hn. unfold parsed_value. cbn [float_of]. by rewrite Hn. }
  split; [by intros b ->|].
  assert (value_ok x = true) as Hok.
  { destruct Hraw as (? & ? & ? & _ & _ & _ & _ & _ & Hok).
    apply (proj1 (Forall_forall _ _) Hok item); [|done..].
    by eapply list_elem_of_lookup_2. }
  intros Hnum v [Hv|Hv]%elem_of_app.
  - by apply warning_of_date in Hv.
  - assert (value_warning x = []) as Hnone; [|by rewrite Hnone in Hv; apply elem_of_nil in Hv].
    unfold value_warning.
    destruct Hnum as [[f ->]|[[n ->]|[b ->]]]; cbn [float_of value_ok] in *;
      rewrite bool_decide_eq_false_2 by done; [done| |done].
    apply bool_decide_eq_true in Hok as [f ->]. done.
Qed.

Lemma numeric_value_is_kept_witness :
  let s := store_of numbers in
  let items := [VRef 0%nat; VRef 1%nat; VRef 2%nat] in
  raw_series (heap s) (object_of numbers) (VStr "PM10") items /\
  Forall (printable (rt := cpython refused) (heap s)) items /\
  items !! 1%nat = Some (VRef 1%nat) /\
  let x := item_field (heap s) (VRef 1%nat) "value" in
  let res := process_measurement_data (rt := cpython refused)
               (object_of numbers) s in
  exists r outs d x',
    res.1 = Returns r /\
    read_series (heap res.2) r = Some (VStr "PM10", outs) /\
    outs !! 1%nat = Some (d, x') /\
    stdout res.2
    = stdout s ++ concat (warnings (rt := cpython refused) (heap s) <$> items) /\
    (forall f, x = VFloat f -> x' = VFloat f) /\
    (forall n f, x = VInt n -> PyFloat.of_int n = Some f -> x' = VFloat f) /\
    (forall b, x = VBool b -> x' = VFloat (PyFloat.of_bool b)) /\
    ((exists f, x = VFloat f) \/ (exists n, x = VInt n) \/ (exists b, x = VBool b) ->
     forall v, bad_value v ∉ warnings (rt := cpython refused) (heap s) (VRef 1%nat)).
Proof.
  intros s items.
  assert (raw_series (heap s) (object_of numbers) (VStr "PM10") items) as Hraw
    by sample_series.
  assert (Forall (printable (rt := cpython refused) (heap s)) items) as Hpr
    by sample_printable.
  split; [exact Hraw|]. split; [exact Hpr|]. split; [reflexivity|].
  exact (numeric_value_is_kept (rt := cpython refused) _ _ _ _ 1%nat _
           Hraw Hpr eq_refl).
Defined.


(** X6. A result without timestamps is a fixed point: when no entry of a
    raw series has a date that parses and the warnings of the series can be
    written, the series that the call returns is itself a raw series, and
    the call on it returns a new object that reads as the same series,
    prints nothing more and leaves the first result as it is. *)
Theorem result_without_timestamps_is_kept {rt : Runtime}
    (raw key : val) (items : list val) (s : state) :
  raw_series (heap s) raw key items ->
  Forall (printable (heap s)) items ->
  Forall (fun item => parsed_date (item_field (heap s) item "date") = VNone)
         items ->
  let first := process_measurement_data raw s in
  let again := process_measurement_data (VRef (length (heap s))) first.2 in
  first.1 = Returns (VRef (length (heap s))) /\
  again.1 = Returns (VRef (length (heap first.2))) /\
  read_series (heap again.2) (VRef (length (heap first.2)))
  = Some (key, normal_entry (heap s) <$> items) /\
  read_series (heap again.2) (VRef (length (heap s)))
  = Some (key, normal_entry (heap s) <$> items) /\
  stdout again.2 = stdout first.2.
Proof.
  intros Hraw Hpr Hnone first again.
  pose proof (process_read_series _ _ _ _ Hraw Hpr) as Hread. fold first in Hread.
  pose proof (process_raw_series _ _ _ _ Hraw Hpr) as Hfirst. fold first in Hfirst.
  destruct (processed_entries (heap s)
              (ODict [("key", key); ("values", VRef (S (length (heap s))))])
              (OList (VRef <$> seq (length (heap s) + 3) (length items)))
              (OList []) items [] Hnone) as (Hok & Hsame & Hquiet & Hpr1).
  rewrite app_nil_r in Hok, Hsame, Hquiet, Hpr1.
  assert (raw_series (heap first.2) (VRef (length (heap s))) key
            (VRef <$> seq (length (heap s) + 3) (length items))) as Hraw1.
  { rewrite Hfirst. cbn [snd heap].
    exists (length (heap s)), [("key", key); ("values", VRef (S (length (heap s))))],
           (S (length (heap s))).
    split; [done|]. split.
    { rewrite lookup_app_r, Nat.sub_diag by done. done. }
    split; [done|]. split; [done|]. split; [|done].
    rewrite lookup_app_r by lia.
    by replace (S (length (heap s)) - length (heap s))%nat with 1%nat by lia. }
  assert (Forall (printable (heap first.2))
            (VRef <$> seq (length (heap s) + 3) (length items))) as Hpr2
    by by rewrite Hfirst.
  pose proof (process_read_series _ _ _ _ Hraw1 Hpr2) as Hread2.
  fold again in Hread2.
  pose proof (process_raw_series _ _ _ _ Hraw1 Hpr2) as Hagain.
  fold again in Hagain.
  assert (heap first.2
          = heap s ++
              [ODict [("key", key); ("values", VRef (S (length (heap s))))];
               OList (VRef <$> seq (length (heap s) + 3) (length items));
               OList []] ++ (normalized (heap s) <$> items)) as Hheap
    by by rewrite Hfirst.
  rewrite Hheap in Hread2 at 2. rewrite Hsame in Hread2.
  split; [by rewrite Hfirst|]. split; [by rewrite Hagain|].
  split; [done|]. split.
  - rewrite Hagain. cbn [snd heap]. by apply read_series_app.
  - rewrite Hagain. cbn [snd stdout]. rewrite Hheap, Hquiet. by rewrite app_nil_r.
Qed.

Lemma result_without_timestamps_is_kept_witness :
    let values := [("date", VNone); ("value", VStr "7")] in
    let raw := [("key", VStr "NO2"); ("values", VRef 1%nat)] in
    let s0 := mk_state [ODict raw; OList [VRef 2%nat]; ODict values] [] in
    let first := process_measurement_data (rt := cpython refused) (VRef 0%nat) s0 in
    let again := process_measurement_data (rt := cpython refused) (VRef 3%nat) first.2 in
    first.1 = Returns (VRef 3%nat) /\
    again.1 = Returns (VRef (length (heap first.2))) /\
    read_series (heap again.2) (VRef (length (heap first.2)))
    = Some (VStr "NO2", normal_entry (rt := cpython refused) (heap s0) <$> [VRef 2%nat]) /\
    read_series (heap again.2) (VRef 3%nat)
    = Some (VStr "NO2", normal_entry (rt := cpython refused) (heap s0) <$> [VRef 2%nat]) /\
    stdout again.2 = stdout first.2.
Proof.
  intros values raw s0.
  refine (result_without_timestamps_is_kept (rt := cpython refused)
            (VRef 0%nat) (VStr "NO2") [VRef 2%nat] s0 _ _ _).
  - exists 0%nat, raw, 1%nat. repeat split; try reflexivity.
    apply Forall_cons_2; [|apply Forall_nil_2].
    split; [by exists 2%nat, values|]. split; reflexivity.
  - sample_printable.
  - apply Forall_cons_2; [reflexivity|apply Forall_nil_2].
Defined.

(** X7. A result with a timestamp is not an input: when the call is made
    on the series it returned and an entry of that series has a parsed
    timestamp, the entries without a timestamp before it being taken as
    they are, the call raises [TypeError] (the timestamp is a [datetime],
    which [strptime] refuses), prints nothing more and leaves the first
    result as it is.  The warnings of the raw series are taken to be such
    that they can be written, so that the first call returns. *)
Theorem result_with_a_timestamp_is_refused {rt : Runtime}
    (raw key : val) (good : list val) (bad : val) (rest : list val)
    (t : Datetime.datetime) (s : state) :
  raw_series (heap s) raw key (good ++ bad :: rest) ->
  Forall (printable (heap s)) (good ++ bad :: rest) ->
  Forall (fun item => parsed_date (item_field (heap s) item "date") = VNone)
         good ->
  parsed_date (item_field (heap s) bad "date") = VDatetime t ->
  let first := process_measurement_data raw s in
  let again := process_measurement_data (VRef (length (heap s))) first.2 in
  first.1 = Returns (VRef (length (heap s))) /\
  again.1 = Raises TypeError /\
  stdout again.2 = stdout first.2 /\
  read_series (heap again.2) (VRef (length (heap s)))
  = Some (key, normal_entry (heap s) <$> good ++ bad :: rest).
Proof.
  intros Hraw Hpr Hnone Hbad first again.
  pose proof (process_read_series _ _ _ _ Hraw Hpr) as Hread. fold first in Hread.
  pose proof (process_raw_series _ _ _ _ Hraw Hpr) as Hfirst. fold first in Hfirst.
  set (h := heap s) in *.
  set (pd := ODict [("key", key); ("values", VRef (S (length h)))]) in *.
  set (pl := OList (VRef <$> seq (length h + 3) (length (good ++ bad :: rest)))) in *.
  destruct (processed_entries h pd pl (OList []) good (bad :: rest) Hnone)
    as (Hok & Hsame & Hquiet & Hpr1).
  set (h1 := h ++ [pd; pl; OList []] ++ (normalized h <$> good ++ bad :: rest)) in *.
  assert (heap first.2 = h1) as Hheap by by rewrite Hfirst.
  assert (h1 !! length h = Some pd) as Hpd.
  { unfold h1. by rewrite lookup_app_r, Nat.sub_diag by done. }
  assert (h1 !! S (length h)
          = Some (OList ((VRef <$> seq (length h + 3) (length good)) ++
                         VRef (length h + 3 + length good)%nat ::
                         (VRef <$> seq (length h + 3 + length good + 1)
                                       (length rest))))) as Hpl.
  { unfold h1. rewrite lookup_app_r by lia.
    replace (S (length h) - length h)%nat with 1%nat by lia.
    cbn [lookup list_lookup app]. unfold pl. do 2 f_equal.
    rewrite length_app. cbn [length].
    replace (length good + S (length rest))%nat
      with (length good + (1 + length rest))%nat by lia.
    rewrite !seq_app, !fmap_app. cbn [seq fmap list_fmap app].
    repeat f_equal; lia. }
  assert (h1 !! (length h + 3 + length good)%nat = Some (normalized h bad)) as Hle.
  { apply result_entry_lookup. by rewrite list_lookup_middle. }
  pose proof (settled_normalized _ _ _ _ Hle) as Hsettled.
  pose proof (step_normalized_datetime _ _ _ _ _ Hle Hbad) as Hstep.
  pose proof (process_first_failure (length h)
                [("key", key); ("values", VRef (S (length h)))] (S (length h))
                (VRef <$> seq (length h + 3) (length good))
                (VRef (length h + 3 + length good)%nat)
                (VRef <$> seq (length h + 3 + length good + 1) (length rest))
                first.2 [] TypeError) as Hagain.
  fold again in Hagain. rewrite Hheap in Hagain.
  specialize (Hagain Hpd eq_refl Hpl Hok Hpr1 Hsettled Hstep).
  split; [by rewrite Hfirst|]. rewrite Hagain. cbn [fst snd heap stdout].
  split; [done|]. split.
  - by rewrite Hquiet, !app_nil_r.
  - apply read_series_app. by rewrite <- Hheap.
Qed.

Lemma result_with_a_timestamp_is_refused_witness :
  let s := store_of pm10 in
  raw_series (heap s) (object_of pm10) (VStr "PM10") ([] ++ VRef 0%nat :: [VRef 1%nat]) /\
  Forall (printable (rt := cpython refused) (heap s))
         ([] ++ VRef 0%nat :: [VRef 1%nat]) /\
  let first := process_measurement_data (rt := cpython refused) (object_of pm10) s in
  let again := process_measurement_data (rt := cpython refused)
                 (VRef (length (heap s))) first.2 in
  first.1 = Returns (VRef (length (heap s))) /\
  again.1 = Raises TypeError /\
  stdout again.2 = stdout first.2 /\
  read_series (heap again.2) (VRef (length (heap s)))
  = Some (VStr "PM10",
          normal_entry (rt := cpython refused) (heap s) <$> [] ++ VRef 0%nat :: [VRef 1%nat]).
Proof.
  intros s.
  assert (raw_series (heap s) (object_of pm10) (VStr "PM10")
            ([] ++ VRef 0%nat :: [VRef 1%nat])) as Hraw by sample_series.
  assert (Forall (printable (rt := cpython refused) (heap s))
                 ([] ++ VRef 0%nat :: [VRef 1%nat])) as Hpr by sample_printable.
  split; [exact Hraw|]. split; [exact Hpr|].
  exact (result_with_a_timestamp_is_refused (rt := cpython refused)
           _ _ [] (VRef 0%nat) [VRef 1%nat]
           (Datetime.mk_datetime 2024 1 1 10 0 0 0) s Hraw Hpr (Forall_nil_2 _)
           eq_refl).
Defined.


(** X8. Whatever the input, a result other than [None] is a series of the
    documented type: it is a new dict whose ['values'] is a list of dicts
    [{'date': _, 'value': _}] in which the date is a [datetime] or [None]
    and the value a [float] or [None]. *)
Theorem result_has_the_documented_type {rt : Runtime}
    (raw : val) (s : state) (r : val) :
  (process_measurement_data raw s).1 = Returns r ->
  r <> VNone ->
  r = VRef (length (heap s)) /\
  exists key outs,
    read_series (heap (process_measurement_data raw s).2) r = Some (key, outs) /\
    Forall (fun p => datetime_or_none p.1 /\ float_or_none p.2) outs.
Proof.
  intros Hr Hsome.
  assert (built_typed (heap s) (process_measurement_data raw s).1
                      (process_measurement_data raw s).2) as Hbuilt.
  { pose proof (reads_only_truth raw s) as Ht.
    destruct (truth raw s) as [[[|]|e] s1] eqn:Et; cbn [snd] in Ht; subst s1.
    - pose proof (reads_only_contains "values" raw s) as Hc.
      destruct (contains "values" raw s) as [[[|]|e] s1] eqn:Ec;
        cbn [snd] in Hc; subst s1.
      + by apply process_past_gate_typed.
      + rewrite process_rejected in Hr by (by right). by injection Hr as <-.
      + by rewrite (process_gate_raises _ _ e) in Hr by (by right).
    - rewrite process_rejected in Hr by (by left). by injection Hr as <-.
    - by rewrite (process_gate_raises _ _ e) in Hr by (by left). }
  destruct (Hbuilt r Hr) as (-> & key & xs & Hpd & Hpv & Hxs).
  split; [done|].
  destruct (read_typed_entries _ _ Hxs) as (outs & Hread & Houts).
  exists key, outs. split; [|done].
  by apply (read_series_fields _ _ _ _ _ _ Hpd Hpv).
Qed.

Lemma result_has_the_documented_type_witness :
  let res := process_measurement_data (rt := cpython refused)
               (object_of messy) (store_of messy) in
  let r := VRef (length (heap (store_of messy))) in
  res.1 = Returns r /\ r <> VNone /\
  r = VRef (length (heap (store_of messy))) /\
  exists key outs,
    read_series (heap res.2) r = Some (key, outs) /\
    Forall (fun p => datetime_or_none p.1 /\ float_or_none p.2) outs.
Proof.
  intros res r.
  assert (res.1 = Returns r) as Hr by reflexivity.
  assert (r <> VNone) as Hsome by discriminate.
  split; [exact Hr|]. split; [exact Hsome|].
  exact (result_has_the_documented_type (rt := cpython refused) _ _ _ Hr Hsome).
Defined.


(** X9. When ['values'] is there but is not a container ([None], as in
    [{"key": "PM10", "values": null}], a number, a boolean or a datetime),
    the call raises [TypeError] when the loop starts; nothing is printed,
    and the store of the caller is extended by the result dict without its
    ['values'], the empty result list and the default of [get]. *)
Theorem values_that_cannot_be_iterated {rt : Runtime}
    (l : loc) (d : list (string * val)) (v : val) (s : state) :
  heap s !! l = Some (ODict d) ->
  dict_lookup "values" d = Some v ->
  match v with VStr _ | VRef _ => False | _ => True end ->
  process_measurement_data (VRef l) s
  = (Raises TypeError,
     mk_state
       (heap s ++ [ODict [("key", from_option id VNone (dict_lookup "key" d))];
                   OList []; OList []])
       (stdout s)).
Proof.
  intros Hl Hvalues Hv. rewrite (process_to_iterate l d v s Hl Hvalues).
  by rewrite (bind_raises _ _ _ _ _ (iterate_scalar v _ Hv)).
Qed.

Lemma values_that_cannot_be_iterated_witness :
  let s := store_of values_null in
  process_measurement_data (rt := cpython refused) (VRef 0%nat) s
  = (Raises TypeError,
     mk_state (heap s ++ [ODict [("key", VStr "PM10")]; OList []; OList []])
              (stdout s)).
Proof.
  intros s.
  exact (values_that_cannot_be_iterated (rt := cpython refused) 0%nat
           [("key", VStr "PM10"); ("values", VNone)] VNone s eq_refl eq_refl I).
Defined.

(** X10. When ['values'] is a string or a dict, the loop runs over its
    characters or its keys, which are strings: an empty one gives the
    series without entries, as an empty list does; any other raises
    [AttributeError] at its first element.  Nothing is printed. *)
Theorem values_that_is_a_string_or_a_dict {rt : Runtime}
    (l : loc) (d : list (string * val)) (v : val) (s : state) :
  heap s !! l = Some (ODict d) ->
  dict_lookup "values" d = Some v ->
  (exists str, v = VStr str) \/
  (exists lv dv, v = VRef lv /\ heap s !! lv = Some (ODict dv)) ->
  let is_empty :=
    v = VStr "" \/ exists lv, v = VRef lv /\ heap s !! lv = Some (ODict []) in
  let key := from_option id VNone (dict_lookup "key" d) in
  (is_empty ->
     process_measurement_data (VRef l) s
     = (Returns (VRef (length (heap s))),
        mk_state
          (heap s ++ [ODict [("key", key); ("values", VRef (S (length (heap s))))];
                      OList []; OList []])
          (stdout s))) /\
  (~ is_empty ->
     process_measurement_data (VRef l) s
     = (Raises AttributeError,
        mk_state (heap s ++ [ODict [("key", key)]; OList []; OList []])
                 (stdout s))).
Proof.
  intros Hl Hvalues Hv is_empty key.
  rewrite (process_to_iterate l d v s Hl Hvalues). fold key.
  destruct (iterate_strings (heap s) v Hv) as (strs & Hiter).
  destruct (Hiter [ODict [("key", key)]; OList []; OList []] (stdout s))
    as (Hrun & Hnil).
  rewrite (bind_returns _ _ _ _ _ Hrun). fold is_empty in Hnil.
  destruct strs as [|str strs].
  - split; [intros _|intros Hne; by destruct Hne; apply Hnil].
    cbn [fmap list_fmap for_each].
    rewrite (bind_returns _ _ (mk_state _ _) tt _ eq_refl).
    erewrite bind_returns; [|apply (setitem_dict _ [("key", key)])].
    + cbn [heap stdout mret M_ret app length].
      rewrite (insert_app_r_alt (heap s)) by lia.
      replace (length (heap s) - length (heap s))%nat with 0%nat by lia.
      cbn [list_insert insert dict_set].
      rewrite bool_decide_eq_false_2 by done. reflexivity.
    + cbn [heap]. rewrite lookup_app_r by lia.
      by replace (length (heap s) - length (heap s))%nat with 0%nat by lia.
  - split; [intros He; by apply Hnil in He|intros _].
    reflexivity.
Qed.

Lemma values_that_is_a_string_or_a_dict_witness :
  let s := mk_state [ODict [("key", VStr "PM10"); ("values", VStr "none")]] [] in
  process_measurement_data (rt := cpython refused) (VRef 0%nat) s
  = (Raises AttributeError,
     mk_state (heap s ++ [ODict [("key", VStr "PM10")]; OList []; OList []])
              (stdout s)).
Proof.
  intros s.
  refine (proj2 (values_that_is_a_string_or_a_dict (rt := cpython refused) 0%nat
                   [("key", VStr "PM10"); ("values", VStr "none")] (VStr "none") s
                   eq_refl eq_refl (or_introl (ex_intro _ "none" eq_refl))) _).
  intros [Hempty|(lv & Hlist & _)]; discriminate.
Defined.


(** X11. An input that is not a dict never gets past the first lines of
    the call, and the store and, but for the error line, the output are as
    they were.  What counts as false ([None], [False], [0], [0.0], [""],
    [[]]) is reported as invalid data and gives [None]; so is a string
    without the substring ["values"] and a list without the element
    ["values"].  A number other than zero, [True] and a datetime raise
    [TypeError] at ['values' in ...]; a string with the substring
    ["values"] and a list with the element ["values"] pass the gate and
    raise [AttributeError] at [.get]. *)
Theorem input_that_is_not_a_dict {rt : Runtime} (raw : val) (s : state) :
  let res := process_measurement_data raw s in
  let rejected := res = (Returns VNone, emit s [invalid_data]) in
  match raw with
  | VNone => rejected
  | VBool b => if b then res = (Raises TypeError, s) else rejected
  | VInt n => if n =? 0 then rejected else res = (Raises TypeError, s)
  | VFloat f =>
      if PyFloat.is_zero f then rejected else res = (Raises TypeError, s)
  | VDatetime _ => res = (Raises TypeError, s)
  | VStr str =>
      if substring "values" str then res = (Raises AttributeError, s)
      else rejected
  | VRef l =>
      match heap s !! l with
      | Some (OList xs) =>
          if bool_decide (VStr "values" ∈ xs)
          then res = (Raises AttributeError, s)
          else rejected
      | _ => True
      end
  end.
Proof.
  intros res rejected. subst res rejected.
  destruct raw as [|[|]|n|f|str|t|l]; try reflexivity.
  - unfold process_measurement_data. cbn [truth]. by destruct (n =? 0).
  - unfold process_measurement_data. cbn [truth]. by destruct (PyFloat.is_zero f).
  - destruct (substring "values" str) eqn:Hsub.
    + apply process_no_get; [|by cbn [contains]; rewrite Hsub|done].
      cbn [truth]. rewrite bool_decide_eq_false_2; [done|]. by intros ->.
    + apply process_rejected. cbn [truth contains]. rewrite Hsub.
      case_bool_decide; [by left|by right].
  - destruct (heap s !! l) as [[d|xs]|] eqn:Hl; [done| |done].
    case_bool_decide as Hin.
    + apply process_no_get.
      * rewrite (truth_list _ _ _ Hl). rewrite bool_decide_eq_false_2; [done|].
        intros ->. by apply elem_of_nil in Hin.
      * by rewrite (contains_list _ _ _ _ Hl), bool_decide_eq_true_2.
      * by apply (attr_get_list _ xs).
    + apply process_rejected. rewrite (truth_list _ _ _ Hl).
      rewrite (contains_list _ _ _ _ Hl), (bool_decide_eq_false_2 _ Hin).
      case_bool_decide; [by left|by right].
Qed.









(** X15. Whatever the input, the entries of a result other than [None]
    are objects of their own: the ['values'] list of the result holds
    references to objects that were not in the store of the caller, and no
    object is in the list twice, so that a change of one entry is not seen
    through another entry or through the input. *)
Theorem result_entries_are_distinct {rt : Runtime}
    (raw : val) (s : state) (r : val) :
  (process_measurement_data raw s).1 = Returns r ->
  r <> VNone ->
  exists key xs,
    heap (process_measurement_data raw s).2 !! length (heap s)
    = Some (ODict [("key", key); ("values", VRef (S (length (heap s))))]) /\
    heap (process_measurement_data raw s).2 !! S (length (heap s))
    = Some (OList xs) /\
    NoDup xs /\
    Forall (fresh (heap s)) xs.
Proof.
  intros Hr Hsome.
  pose proof (reads_only_truth raw s) as Ht.
  destruct (truth raw s) as [[[|]|e] s1] eqn:Et; cbn [snd] in Ht; subst s1;
    [|rewrite process_rejected in Hr by (by left); by injection Hr as <-
     |by rewrite (process_gate_raises _ _ e) in Hr by (by left)].
  pose proof (reads_only_contains "values" raw s) as Hc.
  destruct (contains "values" raw s) as [[[|]|e] s1] eqn:Ec;
    cbn [snd] in Hc; subst s1;
    [|rewrite process_rejected in Hr by (by right); by injection Hr as <-
     |by rewrite (process_gate_raises _ _ e) in Hr by (by right)].
  destruct (process_past_gate raw s Et Ec) as (_ & _ & Hbuilt).
  destruct (Hbuilt r Hr) as (_ & key & xs & Hpd & Hpv & Hfresh).
  destruct (process_distinct raw s r Et Ec Hr) as (xs' & Hpv' & Hnd & _).
  pose proof (eq_trans (eq_sym Hpv) Hpv') as [= <-].
  by exists key, xs.
Qed.

Lemma result_entries_are_distinct_witness :
  let res := process_measurement_data (rt := cpython refused)
               (object_of messy) (store_of messy) in
  let r := VRef (length (heap (store_of messy))) in
  res.1 = Returns r /\ r <> VNone /\
  exists key xs,
    heap res.2 !! length (heap (store_of messy))
    = Some (ODict [("key", key);
                   ("values", VRef (S (length (heap (store_of messy)))))]) /\
    heap res.2 !! S (length (heap (store_of messy))) = Some (OList xs) /\
    NoDup xs /\
    Forall (fresh (heap (store_of messy))) xs.
Proof.
  intros res r.
  assert (res.1 = Returns r) as Hr by reflexivity.
  assert (r <> VNone) as Hsome by discriminate.
  split; [exact Hr|]. split; [exact Hsome|].
  exact (result_entries_are_distinct (rt := cpython refused) _ _ _ Hr Hsome).
Defined.

(** X16. On every raw measurement series whose warnings can be written,
    [process_measurement_data] returns a series with the key of the raw one
    and exactly one normalised entry per raw entry, in the order of the raw
    entries; a field of an entry may be [None]. *)
Theorem normalization_keeps_every_entry {rt : Runtime}
    (raw key : val) (items : list val) (s : state) :
  raw_series (heap s) raw key items ->
  Forall (printable (heap s)) items ->
  let res := process_measurement_data raw s in
  exists r outs,
    res.1 = Returns r /\
    read_series (heap res.2) r = Some (key, outs) /\
    length outs = length items /\
    forall (i : nat) item, items !! i = Some item ->
      outs !! i = Some (normal_entry (heap s) item).
Proof.
  intros Hraw Hpr res.
  exists (VRef (length (heap s))), (normal_entry (heap s) <$> items).
  subst res. split; [by rewrite (process_raw_series _ _ _ _ Hraw Hpr)|].
  split; [by apply process_read_series|].
  split; [by rewrite length_fmap|].
  intros i item Hi. by rewrite list_lookup_fmap, Hi.
Qed.

Lemma normalization_keeps_every_entry_witness :
  raw_series (heap (store_of messy)) (object_of messy) (VStr "PM10")
             [VRef 0%nat; VRef 1%nat; VRef 2%nat] /\
  Forall (printable (rt := cpython refused) (heap (store_of messy)))
         [VRef 0%nat; VRef 1%nat; VRef 2%nat] /\
  let res := process_measurement_data (rt := cpython refused)
               (object_of messy) (store_of messy) in
  exists r outs,
    res.1 = Returns r /\
    read_series (heap res.2) r = Some (VStr "PM10", outs) /\
    length outs = 3%nat /\
    forall (i : nat) item, [VRef 0%nat; VRef 1%nat; VRef 2%nat] !! i = Some item ->
      outs !! i = Some (normal_entry (rt := cpython refused)
                                     (heap (store_of messy)) item).
Proof.
  assert (raw_series (heap (store_of messy)) (object_of messy) (VStr "PM10")
            [VRef 0%nat; VRef 1%nat; VRef 2%nat]) as Hraw by sample_series.
  assert (Forall (printable (rt := cpython refused) (heap (store_of messy)))
                 [VRef 0%nat; VRef 1%nat; VRef 2%nat]) as Hpr by sample_printable.
  split; [exact Hraw|]. split; [exact Hpr|].
  exact (normalization_keeps_every_entry (rt := cpython refused) _ _ _ _ Hraw Hpr).
Defined.

(** X17. For every entry of a raw series whose warnings can be written: a
    value that is [None] gives an absent value and no warning about a value
    is printed for the entry; a value that is not [None] and that [float]
    rejects gives an absent value and the warning about it is printed.
    Either way the call returns the series, with all its entries.  The
    lines printed by the call are the warnings of its entries, one entry
    after the other. *)
Theorem value_conversion_failures {rt : Runtime}
    (raw key : val) (items : list val) (s : state) (i : nat) (item : val) :
  raw_series (heap s) raw key items ->
  Forall (printable (heap s)) items ->
  items !! i = Some item ->
  let x := item_field (heap s) item "value" in
  let res := process_measurement_data raw s in
  exists r outs d x',
    res.1 = Returns r /\
    read_series (heap res.2) r = Some (key, outs) /\
    length outs = length items /\
    outs !! i = Some (d, x') /\
    stdout res.2 = stdout s ++ concat (warnings (heap s) <$> items) /\
    (x = VNone -> x' = VNone /\ forall v, bad_value v ∉ warnings (heap s) item) /\
    (x <> VNone -> forall e, float_of x = inl e ->
       x' = VNone /\ bad_value x ∈ warnings (heap s) item).
Proof.
  intros Hraw Hpr Hi x res.
  exists (VRef (length (heap s))), (normal_entry (heap s) <$> items),
         (normal_entry (heap s) item).1, (normal_entry (heap s) item).2.
  subst res. split; [by rewrite (process_raw_series _ _ _ _ Hraw Hpr)|].
  split; [by apply process_read_series|].
  split; [by rewrite length_fmap|].
  split; [rewrite list_lookup_fmap, Hi; reflexivity|].
  split; [by rewrite (process_raw_series _ _ _ _ Hraw Hpr)|].
  unfold warnings, normal_entry. fold x. cbn [snd]. split.
  - intros ->. split; [done|]. intros v [Hv|Hv]%elem_of_app.
    + by apply warning_of_date in Hv.
    + by apply elem_of_nil in Hv.
  - intros Hx e He. unfold parsed_value, value_warning. rewrite He.
    split; [done|]. apply elem_of_app. right.
    rewrite bool_decide_eq_false_2 by done. by apply list_elem_of_singleton.
Qed.

Lemma value_conversion_failures_witness :
  raw_series (heap (store_of messy)) (object_of messy) (VStr "PM10")
             [VRef 0%nat; VRef 1%nat; VRef 2%nat] /\
  Forall (printable (rt := cpython refused) (heap (store_of messy)))
         [VRef 0%nat; VRef 1%nat; VRef 2%nat] /\
  [VRef 0%nat; VRef 1%nat; VRef 2%nat] !! 0%nat = Some (VRef 0%nat) /\
  let h := heap (store_of messy) in
  let x := item_field h (VRef 0%nat) "value" in
  let res := process_measurement_data (rt := cpython refused)
               (object_of messy) (store_of messy) in
  exists r outs d x',
    res.1 = Returns r /\
    read_series (heap res.2) r = Some (VStr "PM10", outs) /\
    length outs = 3%nat /\
    outs !! 0%nat = Some (d, x') /\
    stdout res.2
    = stdout (store_of messy)
      ++ concat (warnings (rt := cpython refused) h
                   <$> [VRef 0%nat; VRef 1%nat; VRef 2%nat]) /\
    (x = VNone ->
       x' = VNone /\
       forall v, bad_value v ∉ warnings (rt := cpython refused) h (VRef 0%nat)) /\
    (x <> VNone -> forall e, float_of (rt := cpython refused) x = inl e ->
       x' = VNone /\
       bad_value x ∈ warnings (rt := cpython refused) h (VRef 0%nat)).
Proof.
  assert (raw_series (heap (store_of messy)) (object_of messy) (VStr "PM10")
            [VRef 0%nat; VRef 1%nat; VRef 2%nat]) as Hraw by sample_series.
  assert (Forall (printable (rt := cpython refused) (heap (store_of messy)))
                 [VRef 0%nat; VRef 1%nat; VRef 2%nat]) as Hpr by sample_printable.
  split; [exact Hraw|]. split; [exact Hpr|]. split; [reflexivity|].
  exact (value_conversion_failures (rt := cpython refused) _ _ _ _ 0%nat _
           Hraw Hpr eq_refl).
Defined.

(** X18. For every entry of a raw series whose warnings can be written and
    whose date is missing, [None] or the empty string, the timestamp is
    absent and no warning about a date is printed for the entry, whatever
    [strptime] would make of the date; a date that is a non-empty string
    rejected by [strptime] is warned about. *)
Theorem absent_date_is_not_parsed {rt : Runtime}
    (raw key : val) (items : list val) (s : state) (i : nat)
    (l : loc) (e : list (string * val)) :
  raw_series (heap s) raw key items ->
  Forall (printable (heap s)) items ->
  items !! i = Some (VRef l) ->
  heap s !! l = Some (ODict e) ->
  let res := process_measurement_data raw s in
  let lines := warnings (heap s) (VRef l) in
  exists r outs d x,
    res.1 = Returns r /\
    read_series (heap res.2) r = Some (key, outs) /\
    outs !! i = Some (d, x) /\
    stdout res.2 = stdout s ++ concat (warnings (heap s) <$> items) /\
    (dict_lookup "date" e = None \/ dict_lookup "date" e = Some VNone \/
     dict_lookup "date" e = Some (VStr "") ->
       d = VNone /\ forall v, bad_date v ∉ lines) /\
    (forall date_str, dict_lookup "date" e = Some (VStr date_str) ->
       date_str <> "" -> strptime date_str "%Y-%m-%d %H:%M:%S" = None ->
       d = VNone /\ bad_date (VStr date_str) ∈ lines).
Proof.
  intros Hraw Hpr Hi Hl res lines.
  exists (VRef (length (heap s))), (normal_entry (heap s) <$> items),
         (normal_entry (heap s) (VRef l)).1, (normal_entry (heap s) (VRef l)).2.
  subst res lines. split; [by rewrite (process_raw_series _ _ _ _ Hraw Hpr)|].
  split; [by apply process_read_series|].
  split; [rewrite list_lookup_fmap, Hi; reflexivity|].
  split; [by rewrite (process_raw_series _ _ _ _ Hraw Hpr)|].
  unfold warnings, normal_entry. cbn [fst item_field]. rewrite Hl. split.
  - assert (forall d, d = VNone \/ d = VStr "" ->
              parsed_date d = VNone /\ date_warning d = []) as Hd.
    { by intros d [->| ->]. }
    intros He.
    destruct (Hd (from_option id VNone (dict_lookup "date" e))) as [-> Hw].
    { destruct He as [->|[->| ->]]; cbn [from_option id]; auto. }
    split; [done|]. rewrite Hw. intros v Hv. cbn [app] in Hv.
    by apply warning_of_value in Hv.
  - intros date_str -> Hne Hfail. cbn [from_option id].
    unfold parsed_date, date_warning. cbn [datetime_strptime].
    rewrite bool_decide_eq_false_2, Hfail by done.
    split; [done|]. apply elem_of_app. left. by apply list_elem_of_singleton.
Qed.

Lemma absent_date_is_not_parsed_witness :
  let h := heap (store_of messy) in
  let items := [VRef 0%nat; VRef 1%nat; VRef 2%nat] in
  raw_series h (object_of messy) (VStr "PM10") items /\
  Forall (printable (rt := cpython refused) h) items /\
  items !! 2%nat = Some (VRef 2%nat) /\
  h !! 2%nat = Some (ODict [("value", VNone)]) /\
  let res := process_measurement_data (rt := cpython refused)
               (object_of messy) (store_of messy) in
  let lines := warnings (rt := cpython refused) h (VRef 2%nat) in
  exists r outs d x,
    res.1 = Returns r /\
    read_series (heap res.2) r = Some (VStr "PM10", outs) /\
    outs !! 2%nat = Some (d, x) /\
    stdout res.2
    = stdout (store_of messy)
      ++ concat (warnings (rt := cpython refused) h <$> items) /\
    (dict_lookup "date" [("value", VNone)] = None \/
     dict_lookup "date" [("value", VNone)] = Some VNone \/
     dict_lookup "date" [("value", VNone)] = Some (VStr "") ->
       d = VNone /\ forall v, bad_date v ∉ lines) /\
    (forall date_str,
       dict_lookup "date" [("value", VNone)] = Some (VStr date_str) ->
       date_str <> "" ->
       Datetime.strptime date_str "%Y-%m-%d %H:%M:%S" = None ->
       d = VNone /\ bad_date (VStr date_str) ∈ lines).
Proof.
  intros h items.
  assert (raw_series h (object_of messy) (VStr "PM10") items) as Hraw
    by sample_series.
  assert (Forall (printable (rt := cpython refused) h) items) as Hpr
    by sample_printable.
  split; [exact Hraw|]. split; [exact Hpr|].
  split; [reflexivity|]. split; [reflexivity|].
  exact (absent_date_is_not_parsed (rt := cpython refused) _ _ _ _ 2%nat _ _
           Hraw Hpr eq_refl eq_refl).
Defined.

(** X19. Whatever the input and however the call ends, every object of the
    store is after the call what it was before.  A result that is not
    [None] is a new dict, its ['values'] is a new list and the entries of
    that list are new objects.  In particular a raw series is still the
    same raw series after the call: same key, same entries, and every field
    of every entry reads as before; and when its warnings can be written,
    the call does return such a new structure for it. *)
Theorem input_is_left_unchanged {rt : Runtime} (raw : val) (s : state) :
  let res := process_measurement_data raw s in
  (forall l o, heap s !! l = Some o -> heap res.2 !! l = Some o) /\
  (forall r, res.1 = Returns r ->
     r = VNone \/
     exists l lv key outs,
       r = VRef l /\ heap s !! l = None /\
       heap res.2 !! l = Some (ODict [("key", key); ("values", VRef lv)]) /\
       heap s !! lv = None /\
       heap res.2 !! lv = Some (OList outs) /\
       forall x, x ∈ outs -> exists le, x = VRef le /\ heap s !! le = None) /\
  (forall key items,
     raw_series (heap s) raw key items ->
     raw_series (heap res.2) raw key items /\
     (forall item k, item ∈ items ->
        item_field (heap res.2) item k = item_field (heap s) item k) /\
     (Forall (printable (heap s)) items ->
        exists l, res.1 = Returns (VRef l) /\ heap s !! l = None /\
                  read_series (heap res.2) (VRef l)
                  = Some (key, normal_entry (heap s) <$> items))).
Proof.
  intros res.
  assert (heap s `prefix_of` heap res.2 /\
          forall r, res.1 = Returns r -> r = VNone \/
            built (heap s) (stdout s) res.1 res.2) as [[ext Hext] Hres].
  { subst res. destruct (process_cases raw s) as [->|[[e ->]|Hbuilt]].
    - split; [done|]. intros r [= <-]. by left.
    - split; [done|]. by intros r [=].
    - split; [by destruct Hbuilt|]. by right. }
  split; [|split].
  - intros l o Hl. rewrite Hext. by apply lookup_app_l_Some.
  - intros r Hr. destruct (Hres r Hr) as [->|(_ & _ & Hret)]; [by left|right].
    destruct (Hret r Hr) as (-> & key & outs & Hpd & Hpv & Hfresh).
    exists (length (heap s)), (S (length (heap s))), key, outs.
    split; [done|]. split; [by apply lookup_ge_None_2|]. split; [done|].
    split; [apply lookup_ge_None_2; lia|]. split; [done|].
    intros x Hx. apply (proj1 (Forall_forall _ _) Hfresh) in Hx as (le & -> & Hle).
    exists le. split; [done|]. by apply lookup_ge_None_2.
  - intros key items Hraw. split; [|split].
    + rewrite Hext. by apply raw_series_app.
    + intros item k Hitem. rewrite Hext. apply item_field_app.
      destruct Hraw as (? & ? & ? & _ & _ & _ & _ & _ & Hok).
      by apply (proj1 (Forall_forall _ _) Hok) in Hitem as [? _].
    + intros Hpr. exists (length (heap s)). subst res.
      split; [by rewrite (process_raw_series _ _ _ _ Hraw Hpr)|].
      split; [by apply lookup_ge_None_2|]. by apply process_read_series.
Qed.

Lemma input_is_left_unchanged_witness :
  let raw := object_of messy in
  let s := store_of messy in
  let items := [VRef 0%nat; VRef 1%nat; VRef 2%nat] in
  let res := process_measurement_data (rt := cpython refused) raw s in
  raw_series (heap s) raw (VStr "PM10") items /\
  Forall (printable (rt := cpython refused) (heap s)) items /\
  raw_series (heap res.2) raw (VStr "PM10") items /\
  (forall item k, item ∈ items ->
     item_field (heap res.2) item k = item_field (heap s) item k) /\
  exists l, res.1 = Returns (VRef l) /\ heap s !! l = None /\
            read_series (heap res.2) (VRef l)
            = Some (VStr "PM10",
                    normal_entry (rt := cpython refused) (heap s) <$> items).
Proof.
  intros raw s items res.
  assert (raw_series (heap s) raw (VStr "PM10") items) as Hraw by sample_series.
  assert (Forall (printable (rt := cpython refused) (heap s)) items) as Hpr
    by sample_printable.
  split; [exact Hraw|]. split; [exact Hpr|].
  destruct (proj2 (proj2 (input_is_left_unchanged (rt := cpython refused) raw s))
              (VStr "PM10") items Hraw) as (Hsame & Hfields & Hret).
  split; [exact Hsame|]. split; [exact Hfields|]. exact (Hret Hpr).
Defined.

(** X20. The warning about a date that cannot be written ends the call:
    when the date of an entry is a string, not empty, that [strptime]
    rejects and that has no encoding (a lone surrogate, say), after
    well-formed entries whose warnings can be written, the call raises
    [UnicodeEncodeError] from the [print] in the handler.  The warnings of
    the entries before it have been printed, nothing is printed for the
    entry or after it, and the store of the caller is only extended. *)
Theorem date_warning_that_cannot_be_written {rt : Runtime}
    (l lv lb : loc) (d e : list (string * val)) (good rest : list val)
    (date_str : string) (s : state) :
  heap s !! l = Some (ODict d) ->
  dict_lookup "values" d = Some (VRef lv) ->
  heap s !! lv = Some (OList (good ++ VRef lb :: rest)) ->
  Forall (entry_ok (heap s)) good ->
  Forall (printable (heap s)) good ->
  heap s !! lb = Some (ODict e) ->
  dict_lookup "date" e = Some (VStr date_str) ->
  date_str <> "" ->
  strptime date_str "%Y-%m-%d %H:%M:%S" = None ->
  Utf8.valid date_str = false ->
  let res := process_measurement_data (VRef l) s in
  res.1 = Raises UnicodeEncodeError /\
  stdout res.2 = stdout s ++ concat (warnings (heap s) <$> good) /\
  exists ext, heap res.2 = heap s ++ ext.
Proof.
  intros Hl Hvalues Hlv Hgood Hpr Hlb Hdate Hne Hfail Henc res. subst res.
  assert (date_step (heap s) (VStr date_str) = ([], inl UnicodeEncodeError))
    as Hstep.
  { unfold date_step. cbn [truthy datetime_strptime].
    rewrite bool_decide_eq_false_2 by done. cbn [negb]. rewrite Hfail.
    cbn [is_ValueError]. unfold logged, write_failure, bad_date. cbn.
    by rewrite Henc. }
  rewrite (process_first_failure l d lv good (VRef lb) rest s []
             UnicodeEncodeError); try done.
  - cbn [fst snd stdout heap]. rewrite app_nil_r. by eauto.
  - apply (settled_record _ _ _ Hlb).
    + by rewrite Hdate.
    + left. rewrite Hdate. cbn [from_option id]. by eexists _, _.
  - unfold step, entry_fields. rewrite Hlb, Hdate. cbn [from_option id].
    by rewrite Hstep.
Qed.

Lemma date_warning_that_cannot_be_written_witness :
  let s := store_of unencodable_last in
  let e := [("date", VStr lone_surrogate); ("value", VNone)] in
  heap s !! 3%nat
  = Some (ODict [("key", VStr "PM10"); ("values", VRef 2%nat)]) /\
  dict_lookup "values" [("key", VStr "PM10"); ("values", VRef 2%nat)]
  = Some (VRef 2%nat) /\
  heap s !! 2%nat = Some (OList ([VRef 0%nat] ++ VRef 1%nat :: [])) /\
  Forall (entry_ok (heap s)) [VRef 0%nat] /\
  Forall (printable (rt := cpython refused) (heap s)) [VRef 0%nat] /\
  heap s !! 1%nat = Some (ODict e) /\
  dict_lookup "date" e = Some (VStr lone_surrogate) /\
  lone_surrogate <> "" /\
  Datetime.strptime lone_surrogate "%Y-%m-%d %H:%M:%S" = None /\
  Utf8.valid lone_surrogate = false /\
  let res := process_measurement_data (rt := cpython refused) (VRef 3%nat) s in
  res.1 = Raises UnicodeEncodeError /\
  stdout res.2
  = stdout s ++ concat (warnings (rt := cpython refused) (heap s) <$> [VRef 0%nat]) /\
  exists ext, heap res.2 = heap s ++ ext.
Proof.
  intros s e.
  assert (Forall (entry_ok (heap s)) [VRef 0%nat]) as Hgood.
  { apply Forall_singleton.
    split; [eexists _, _; split; reflexivity|split; reflexivity]. }
  assert (Forall (printable (rt := cpython refused) (heap s)) [VRef 0%nat])
    as Hpr by sample_printable.
  assert (lone_surrogate <> "") as Hne by discriminate.
  do 3 (split; [reflexivity|]). split; [exact Hgood|]. split; [exact Hpr|].
  do 2 (split; [reflexivity|]). split; [exact Hne|].
  do 2 (split; [reflexivity|]).
  exact (date_warning_that_cannot_be_written (rt := cpython refused)
           3%nat 2%nat 1%nat _ e [VRef 0%nat] [] lone_surrogate s
           eq_refl eq_refl eq_refl Hgood Hpr eq_refl eq_refl Hne eq_refl eq_refl).
Defined.

(** X21. The warning about a value that cannot be written ends the call in
    the same way: when the value of an entry is a string that [float]
    rejects and that has no encoding, the call raises
    [UnicodeEncodeError] from the [print] in the handler, after the
    warnings of the entries before it and the warning about the entry's own
    date, if any, which are taken to be such that they can be written. *)
Theorem value_warning_that_cannot_be_written {rt : Runtime}
    (l lv lb : loc) (d e : list (string * val)) (good rest : list val)
    (value_str : string) (s : state) :
  heap s !! l = Some (ODict d) ->
  dict_lookup "values" d = Some (VRef lv) ->
  heap s !! lv = Some (OList (good ++ VRef lb :: rest)) ->
  Forall (entry_ok (heap s)) good ->
  Forall (printable (heap s)) good ->
  heap s !! lb = Some (ODict e) ->
  date_ok (from_option id VNone (dict_lookup "date" e)) = true ->
  forallb printable_line
    (date_warning (from_option id VNone (dict_lookup "date" e))) = true ->
  dict_lookup "value" e = Some (VStr value_str) ->
  float_of_string value_str = None ->
  Utf8.valid value_str = false ->
  let res := process_measurement_data (VRef l) s in
  res.1 = Raises UnicodeEncodeError /\
  stdout res.2
  = stdout s ++ concat (warnings (heap s) <$> good)
      ++ date_warning (from_option id VNone (dict_lookup "date" e)) /\
  exists ext, heap res.2 = heap s ++ ext.
Proof.
  intros Hl Hvalues Hlv Hgood Hpr Hlb Hdate Hpd Hvalue Hfail Henc res. subst res.
  set (date := from_option id VNone (dict_lookup "date" e)) in *.
  rewrite (process_first_failure l d lv good (VRef lb) rest s
             (date_warning date) UnicodeEncodeError); try done.
  - cbn [fst snd stdout heap]. by eauto.
  - apply (settled_record _ _ _ Hlb).
    + fold date. intros ld Hld. by rewrite Hld in Hdate.
    + right. by rewrite Hvalue.
  - unfold step, entry_fields. rewrite Hlb. fold date.
    rewrite date_step_lenient by (done || by destruct date).
    rewrite Hvalue. cbn [from_option id]. unfold value_step.
    rewrite bool_decide_eq_true_2 by done. cbn [float_of]. rewrite Hfail.
    cbn [is_ValueError_or_TypeError]. unfold logged, write_failure, bad_value.
    cbn. rewrite Henc. by rewrite app_nil_r.
Qed.

Lemma value_warning_that_cannot_be_written_witness :
  let s := store_of unencodable_value in
  let e := [("date", VStr "2024-01-01 10:00:00"); ("value", VStr lone_surrogate)] in
  heap s !! 3%nat
  = Some (ODict [("key", VStr "PM10"); ("values", VRef 2%nat)]) /\
  dict_lookup "values" [("key", VStr "PM10"); ("values", VRef 2%nat)]
  = Some (VRef 2%nat) /\
  heap s !! 2%nat = Some (OList ([] ++ VRef 0%nat :: [VRef 1%nat])) /\
  Forall (entry_ok (heap s)) [] /\
  Forall (printable (rt := cpython refused) (heap s)) [] /\
  heap s !! 0%nat = Some (ODict e) /\
  date_ok (from_option id VNone (dict_lookup "date" e)) = true /\
  forallb printable_line
    (date_warning (rt := cpython refused)
       (from_option id VNone (dict_lookup "date" e))) = true /\
  dict_lookup "value" e = Some (VStr lone_surrogate) /\
  PyFloat.of_string lone_surrogate = None /\
  Utf8.valid lone_surrogate = false /\
  let res := process_measurement_data (rt := cpython refused) (VRef 3%nat) s in
  res.1 = Raises UnicodeEncodeError /\
  stdout res.2
  = stdout s ++ concat (warnings (rt := cpython refused) (heap s) <$> [])
      ++ date_warning (rt := cpython refused)
           (from_option id VNone (dict_lookup "date" e)) /\
  exists ext, heap res.2 = heap s ++ ext.
Proof.
  intros s e.
  assert (Forall (entry_ok (heap s)) []) as Hgood by apply Forall_nil_2.
  assert (Forall (printable (rt := cpython refused) (heap s)) []) as Hpr
    by apply Forall_nil_2.
  do 3 (split; [reflexivity|]). split; [exact Hgood|]. split; [exact Hpr|].
  do 6 (split; [reflexivity|]).
  exact (value_warning_that_cannot_be_written (rt := cpython refused)
           3%nat 2%nat 0%nat _ e [] [VRef 1%nat] lone_surrogate s
           eq_refl eq_refl eq_refl Hgood Hpr eq_refl eq_refl eq_refl eq_refl
           eq_refl eq_refl).
Defined.


